(** * transferdb, package o2m: the CSV export of an Oracle schema

    A shallow embedding of [CSV], [csvPartSyncTable], [csvWaitSyncTable],
    [initWaitSyncTableRowID] and [adjustTableSelectColumn], and the
    properties of the export's planner, executor and projection compiler.

    Conventions of the embedding.
    - A Go [string] is a [string] of bytes.  [strings.ToUpper] is modelled
      on ASCII letters; bytes above 127 are left as they are, so the model
      is exact on ASCII text (Oracle type names and the literals of the
      code are ASCII).
    - A Go [int]/[int64] is a [Z]; the only place where the width matters
      is the range check of [strconv.Atoi] (64-bit [int]).
    - A Go [map[string]string] is a [gmap string string]; indexing a
      missing key yields the empty string.
    - A Go [(T, error)] result is a [result T]; a Go [error] result is an
      [option error] ([None] is [nil]).
    - The source database is read through an environment of responses;
      the metadata database is a store threaded through the calls. *)

From Stdlib Require Import ZArith Ascii String List Bool Lia.
From stdpp Require Import base option list strings gmap.
Import ListNotations.

Local Open Scope string_scope.
Local Open Scope Z_scope.

(** ** Errors *)

Inductive Origin : Type :=
| FromOracle      (* the source database handle, [r.Oracle] *)
| FromMeta        (* the metadata gateway, package [meta] *)
| FromRows        (* a [*sql.Rows] cursor *)
| FromWriter.     (* the CSV writer *)

Inductive NumErrKind : Type := ErrSyntax | ErrRange.

(** A Go [error] value.  [ExtError] is an error handed back by a
    collaborator, [NumError] is [*strconv.NumError], [Errorf] is the
    value built by [fmt.Errorf] (format and operands are kept; [Error]
    renders them). *)
#[local] Unset Elimination Schemes.
Inductive error : Type :=
| ExtError (o : Origin) (msg : string)
| NumError (fn num : string) (k : NumErrKind)
| Errorf (format : string) (args : list (string + error)).
#[local] Set Elimination Schemes.

Inductive result (A : Type) : Type :=
| Ok (a : A)
| Err (e : error).
Arguments Ok {A} a.
Arguments Err {A} e.

(** ** Strings: the pieces of [strings], [strconv] and [fmt] the code uses *)

Module strings.

Definition upper_byte (c : ascii) : ascii :=
  let n := nat_of_ascii c in
  if (Nat.leb 97 n && Nat.leb n 122)%bool then ascii_of_nat (n - 32) else c.

(** [strings.ToUpper] (ASCII). *)
Fixpoint ToUpper (s : string) : string :=
  match s with
  | EmptyString => EmptyString
  | String c s' => String (upper_byte c) (ToUpper s')
  end.

(** [strings.Contains s substr]. *)
Fixpoint Contains (s substr : string) : bool :=
  String.prefix substr s ||
  match s with
  | EmptyString => false
  | String _ s' => Contains s' substr
  end.

(** [strings.Join elems sep]. *)
Definition Join (elems : list string) (sep : string) : string :=
  String.concat sep elems.

End strings.

Module strconv.

Definition digit (c : ascii) : option Z :=
  let n := nat_of_ascii c in
  if (Nat.leb 48 n && Nat.leb n 57)%bool then Some (Z.of_nat (n - 48)) else None.

(** The digit loop: [n = n*10 + int(ch)], a syntax error on any other byte. *)
Fixpoint digits (s : string) (n : Z) : option Z :=
  match s with
  | EmptyString => Some n
  | String c s' =>
      match digit c with
      | Some d => digits s' (n * 10 + d)
      | None => None
      end
  end.

Definition minInt : Z := - 2 ^ 63.
Definition maxInt : Z := 2 ^ 63 - 1.

(** [strconv.Atoi]: an optional sign, one or more decimal digits, and a
    value that fits [int]. *)
Definition Atoi (s : string) : result Z :=
  let s0 := s in
  let '(neg, body) :=
    match s with
    | String "-" s' => (true, s')
    | String "+" s' => (false, s')
    | _ => (false, s)
    end in
  match body with
  | EmptyString => Err (NumError "Atoi" s0 ErrSyntax)
  | _ =>
      match digits body 0 with
      | None => Err (NumError "Atoi" s0 ErrSyntax)
      | Some un =>
          let n := if neg then - un else un in
          if (Z.leb minInt n && Z.leb n maxInt)%bool then Ok n
          else Err (NumError "Atoi" s0 ErrRange)
      end
  end.

(** [strconv.Itoa] on a non-negative index. *)
Fixpoint itoa_fuel (fuel : nat) (n : N) (acc : string) : string :=
  match fuel with
  | O => acc
  | S fuel' =>
      let d := String (ascii_of_N (48 + N.modulo n 10)) acc in
      if N.ltb n 10 then d else itoa_fuel fuel' (N.div n 10) d
  end.

Definition Itoa (n : Z) : string :=
  if Z.ltb n 0
  then String "-" (itoa_fuel (S (Z.to_nat (Z.log2 (- n)))) (Z.to_N (- n)) "")
  else itoa_fuel (S (Z.to_nat (Z.log2 n))) (Z.to_N n) "".

End strconv.

Module fmt.

(** [fmt.Sprintf] for the verbs the code uses, [%s] and [%v], on
    operands already rendered as text; a verb without operand prints
    Go's [%!v(MISSING)]. *)
Fixpoint Sprintf (format : string) (args : list string) : string :=
  match format with
  | String "%" (String v rest) =>
      if (Ascii.eqb v "s" || Ascii.eqb v "v")%bool then
        match args with
        | a :: args' => a ++ Sprintf rest args'
        | [] => String "%" (String "!" (String v ("(MISSING)" ++ Sprintf rest [])))
        end
      else String "%" (String v (Sprintf rest args))
  | String c rest => String c (Sprintf rest args)
  | EmptyString => EmptyString
  end.

End fmt.

Definition kind_text (k : NumErrKind) : string :=
  match k with
  | ErrSyntax => "invalid syntax"
  | ErrRange => "value out of range"
  end.

Definition dquote : string := String (ascii_of_nat 34) EmptyString.

(** [err.Error()].  The text of a [NumError] quotes the operand; the
    quoting is plain (exact when the operand needs no escape). *)
Fixpoint Error (e : error) : string :=
  match e with
  | ExtError _ msg => msg
  | NumError fn num k =>
      "strconv." ++ fn ++ ": parsing " ++ dquote ++ num ++ dquote ++ ": " ++ kind_text k
  | Errorf format args =>
      fmt.Sprintf format
        (map (fun a => match a with inl s => s | inr e' => Error e' end) args)
  end.

(** ** Package [common]: helpers and constants used by the export *)

Module common.

(** Modelled from the spec: [common.StringsBuilder] is outside the
    sources at hand; the projection texts of section 4.1 and the query
    text of section 4.4 are the concatenation of its operands. *)
Definition StringsBuilder (str : list string) : string := String.concat "" str.

(** Modelled from the spec: [common.StringUPPER] is outside the sources
    at hand; identifiers are canonicalized to upper case (section 3,
    invariant 5). *)
Definition StringUPPER (s : string) : string := strings.ToUpper s.

(** Modelled from the spec: [common.IsContainString] is outside the
    sources at hand; membership of a string in a list. *)
Definition IsContainString (items : list string) (item : string) : bool :=
  existsb (String.eqb item) items.

(** Modelled from the spec: [common.FilterDifferenceStringItems] is
    outside the sources at hand; the tables of the first list that are
    not in the second (section 4.3, step 3). *)
Definition FilterDifferenceStringItems (a b : list string) : list string :=
  List.filter (fun x => negb (IsContainString b x)) a.

(** Modelled from the spec: the four states of section 3. *)
Definition TaskStatusWaiting : string := "WAITING".
Definition TaskStatusRunning : string := "RUNNING".
Definition TaskStatusSuccess : string := "SUCCESS".
Definition TaskStatusFailed : string := "FAILED".

(** Modelled from the spec: the placeholder counters of a table that
    has not been planned yet (section 4.3, step 5). *)
Definition TaskTableDefaultSourceGlobalSCN : Z := 0.
Definition TaskTableDefaultSplitChunkNums : Z := 0.

End common.

(** ** Configuration *)

Module config.

Record OracleConfig := { OracleSchemaName : string }.
Record MySQLConfig := { MySQLSchemaName : string }.
Record AppConfig := { InsertBatchSize : Z }.
Record CSVConfig := {
  EnableCheckpoint : bool;
  OutputDir : string;
  Rows : Z;
  TaskThreads : Z;
  TableThreads : Z;
  SQLThreads : Z
}.

Record Config := {
  DBTypeS : string;
  DBTypeT : string;
  TaskMode : string;
  Oracle : OracleConfig;
  MySQL : MySQLConfig;
  App : AppConfig;
  CSV : CSVConfig
}.

End config.

(** ** The source database, as the responses it gives *)

Module sql.

(** A [*sql.Rows] handle: what [Columns] and [Close] answer. *)
Record Rows := {
  Columns : result (list string);
  Close : option error
}.

End sql.

Module oracle.

Record Oracle := {
  GetOracleDBVersion : result string;
  GetOracleDBCharacterSet : result string;
  GetOracleCurrentSnapshotSCN : result Z;
  GetOracleSchemaPartitionTable : string -> result (list string);
  GetOracleSchemaTableColumn :
    string -> string -> bool -> result (list (gmap string string));
  GetOracleTableRowsByStatistics : string -> string -> result Z;
  StartOracleChunkCreateTask : string -> option error;
  StartOracleCreateChunkByRowID :
    string -> string -> string -> string -> option error;
  GetOracleTableChunksByRowID : string -> result (list (gmap string string));
  CloseOracleChunkTask : string -> option error;
  (** [OracleDB.QueryContext]: Go's pair of a cursor (possibly [nil])
      and an error (possibly [nil]). *)
  QueryContext : string -> option sql.Rows * option error
}.

End oracle.

(** Indexing a Go map: the zero value on a missing key. *)
Definition at_key (m : gmap string string) (k : string) : string :=
  default "" (m !! k).

(** ** The projection compiler *)

Definition is_one_of (s : string) (cases : list string) : bool :=
  existsb (String.eqb s) cases.

(** The body of the [for] loop of [adjustTableSelectColumn]: the
    expression appended to [columnNames] for one catalog row, or the
    error returned from inside the loop. *)
Definition selectColumn (rowCol : gmap string string) : result string :=
  let name := at_key rowCol "COLUMN_NAME" in
  let dataType := strings.ToUpper (at_key rowCol "DATA_TYPE") in
  if is_one_of dataType ["NUMBER"] then Ok name
  else if is_one_of dataType
       ["DECIMAL"; "DEC"; "DOUBLE PRECISION"; "FLOAT"; "INTEGER"; "INT"; "REAL";
        "NUMERIC"; "BINARY_FLOAT"; "BINARY_DOUBLE"; "SMALLINT"] then Ok name
  else if is_one_of dataType
       ["BFILE"; "CHARACTER"; "LONG"; "NCHAR VARYING"; "ROWID"; "UROWID";
        "VARCHAR"; "CHAR"; "NCHAR"; "NVARCHAR2"; "NCLOB"; "CLOB"] then Ok name
  else if is_one_of dataType ["XMLTYPE"] then
    Ok (fmt.Sprintf " XMLSERIALIZE(CONTENT %s AS CLOB) AS %s" [name; name])
  else if is_one_of dataType ["BLOB"; "LONG RAW"; "RAW"] then Ok name
  else if is_one_of dataType ["DATE"] then
    Ok (common.StringsBuilder ["TO_CHAR("; name; ",'yyyy-MM-dd HH24:mi:ss') AS "; name])
  else if strings.Contains (at_key rowCol "DATA_TYPE") "INTERVAL" then
    Ok (common.StringsBuilder ["TO_CHAR("; name; ") AS "; name])
  else if strings.Contains (at_key rowCol "DATA_TYPE") "TIMESTAMP" then
    match strconv.Atoi (at_key rowCol "DATA_SCALE") with
    | Err err =>
        Err (Errorf "aujust oracle timestamp datatype scale [%s] strconv.Atoi failed: %v"
               [inl (at_key rowCol "DATA_SCALE"); inr err])
    | Ok dataScale =>
        if dataScale =? 0 then
          Ok (common.StringsBuilder
                ["TO_CHAR("; name; ",'yyyy-mm-dd hh24:mi:ss') AS "; name])
        else if ((dataScale <? 0) && (dataScale <=? 6))%bool then
          Ok (common.StringsBuilder
                ["TO_CHAR("; name; ",'yyyy-mm-dd hh24:mi:ss.ff";
                 at_key rowCol "DATA_SCALE"; "') AS "; name])
        else
          Ok (common.StringsBuilder
                ["TO_CHAR("; name; ",'yyyy-mm-dd hh24:mi:ss.ff6') AS "; name])
    end
  else Ok name.

(** The [for] loop: [columnNames = append(columnNames, ...)] row by row,
    leaving the function at the first error. *)
Fixpoint selectColumns (columnsINFO : list (gmap string string))
  (columnNames : list string) : result (list string) :=
  match columnsINFO with
  | [] => Ok columnNames
  | rowCol :: rest =>
      match selectColumn rowCol with
      | Ok expr => selectColumns rest (columnNames ++ [expr])
      | Err e => Err e
      end
  end.

Definition adjustTableSelectColumn (Cfg : config.Config) (Oracle : oracle.Oracle)
  (sourceTable : string) (oracleCollation : bool) : result string :=
  match oracle.GetOracleSchemaTableColumn Oracle
          (config.OracleSchemaName (config.Oracle Cfg)) sourceTable oracleCollation with
  | Err err => Err err
  | Ok columnsINFO =>
      match selectColumns columnsINFO [] with
      | Err err => Err err
      | Ok columnNames => Ok (strings.Join columnNames ",")
      end
  end.

(** A catalog row, as the catalog query returns it. *)
Definition column (name dataType dataScale : string) : gmap string string :=
  <["COLUMN_NAME" := name]> (<["DATA_TYPE" := dataType]> (<["DATA_SCALE" := dataScale]> ∅)).

(** ** Package [meta]: the two metadata tables and their gateway *)

(** A row of [full_sync_meta] (the spec's ChunkProgress); the same Go
    struct is the argument of the gateway calls, with the fields that
    are not given left at their zero value. *)
Module FullSyncMeta.
Record t := {
  DBTypeS : string;
  DBTypeT : string;
  SchemaNameS : string;
  TableNameS : string;
  SchemaNameT : string;
  TableNameT : string;
  GlobalScnS : Z;
  ColumnDetailS : string;
  ChunkDetailS : string;
  TaskMode : string;
  TaskStatus : string;
  IsPartition : string;
  CSVFile : string;
  InfoDetail : string;
  ErrorDetail : string
}.

(** The struct literal of a gateway call: key fields, status and
    chunk predicate; everything else zero. *)
Definition lit (dbS dbT schemaS tableS mode status chunk : string) : t :=
  {| DBTypeS := dbS; DBTypeT := dbT; SchemaNameS := schemaS; TableNameS := tableS;
     SchemaNameT := ""; TableNameT := ""; GlobalScnS := 0; ColumnDetailS := "";
     ChunkDetailS := chunk; TaskMode := mode; TaskStatus := status;
     IsPartition := ""; CSVFile := ""; InfoDetail := ""; ErrorDetail := "" |}.
End FullSyncMeta.

(** A row of [wait_sync_meta] (the spec's TableProgress). *)
Module WaitSyncMeta.
Record t := {
  DBTypeS : string;
  DBTypeT : string;
  SchemaNameS : string;
  TableNameS : string;
  TaskMode : string;
  TaskStatus : string;
  GlobalScnS : Z;
  ChunkTotalNums : Z;
  ChunkSuccessNums : Z;
  ChunkFailedNums : Z;
  IsPartition : string
}.

Definition lit (dbS dbT schemaS tableS mode status : string) : t :=
  {| DBTypeS := dbS; DBTypeT := dbT; SchemaNameS := schemaS; TableNameS := tableS;
     TaskMode := mode; TaskStatus := status; GlobalScnS := 0; ChunkTotalNums := 0;
     ChunkSuccessNums := 0; ChunkFailedNums := 0; IsPartition := "" |}.
End WaitSyncMeta.

(** A value of a Go [map[string]interface{}] of column updates. *)
Inductive value : Type :=
| VString (s : string)
| VInt (n : Z).

(** The metadata database: the rows of the two tables, in insertion
    order. *)
Record Store := {
  wait_sync_meta : list WaitSyncMeta.t;
  full_sync_meta : list FullSyncMeta.t
}.

(** Modelled from the spec: the gateway, package [meta], is outside the
    sources at hand.  Section 4.5: all identifier fields in keys are
    upper-cased before use; so two key fields agree when their upper-case
    forms are equal. *)
Definition same (a b : string) : bool :=
  String.eqb (strings.ToUpper a) (strings.ToUpper b).

(** Modelled from the spec: the key of a run, (source_db, target_db,
    source_schema, task_mode) (section 3). *)
Definition chunk_of_run (q row : FullSyncMeta.t) : bool :=
  same (FullSyncMeta.DBTypeS q) (FullSyncMeta.DBTypeS row)
  && same (FullSyncMeta.DBTypeT q) (FullSyncMeta.DBTypeT row)
  && same (FullSyncMeta.SchemaNameS q) (FullSyncMeta.SchemaNameS row)
  && same (FullSyncMeta.TaskMode q) (FullSyncMeta.TaskMode row).

(** Modelled from the spec: the key of a table within a run. *)
Definition chunk_of_table (q row : FullSyncMeta.t) : bool :=
  chunk_of_run q row
  && same (FullSyncMeta.TableNameS q) (FullSyncMeta.TableNameS row).

Definition chunk_has_status (q row : FullSyncMeta.t) : bool :=
  String.eqb (FullSyncMeta.TaskStatus q) (FullSyncMeta.TaskStatus row).

Definition table_of_run (q row : WaitSyncMeta.t) : bool :=
  same (WaitSyncMeta.DBTypeS q) (WaitSyncMeta.DBTypeS row)
  && same (WaitSyncMeta.DBTypeT q) (WaitSyncMeta.DBTypeT row)
  && same (WaitSyncMeta.SchemaNameS q) (WaitSyncMeta.SchemaNameS row)
  && same (WaitSyncMeta.TaskMode q) (WaitSyncMeta.TaskMode row).

Definition table_of_key (q row : WaitSyncMeta.t) : bool :=
  table_of_run q row
  && same (WaitSyncMeta.TableNameS q) (WaitSyncMeta.TableNameS row).

Definition table_has_status (q row : WaitSyncMeta.t) : bool :=
  String.eqb (WaitSyncMeta.TaskStatus q) (WaitSyncMeta.TaskStatus row).

(** A field of a query struct constrains the rows only when it is set
    (not the zero value). *)
Definition unset (s : string) : bool := String.eqb s "".

(** *** Column updates *)

Definition set_string (updates : gmap string value) (col : string) (old : string) : string :=
  match updates !! col with
  | Some (VString s) => s
  | _ => old
  end.

Definition set_int (updates : gmap string value) (col : string) (old : Z) : Z :=
  match updates !! col with
  | Some (VInt n) => n
  | _ => old
  end.

Definition update_chunk (updates : gmap string value) (row : FullSyncMeta.t)
  : FullSyncMeta.t :=
  {| FullSyncMeta.DBTypeS := FullSyncMeta.DBTypeS row;
     FullSyncMeta.DBTypeT := FullSyncMeta.DBTypeT row;
     FullSyncMeta.SchemaNameS := FullSyncMeta.SchemaNameS row;
     FullSyncMeta.TableNameS := FullSyncMeta.TableNameS row;
     FullSyncMeta.SchemaNameT := FullSyncMeta.SchemaNameT row;
     FullSyncMeta.TableNameT := FullSyncMeta.TableNameT row;
     FullSyncMeta.GlobalScnS := FullSyncMeta.GlobalScnS row;
     FullSyncMeta.ColumnDetailS := FullSyncMeta.ColumnDetailS row;
     FullSyncMeta.ChunkDetailS := FullSyncMeta.ChunkDetailS row;
     FullSyncMeta.TaskMode := FullSyncMeta.TaskMode row;
     FullSyncMeta.TaskStatus := set_string updates "TaskStatus" (FullSyncMeta.TaskStatus row);
     FullSyncMeta.IsPartition := FullSyncMeta.IsPartition row;
     FullSyncMeta.CSVFile := FullSyncMeta.CSVFile row;
     FullSyncMeta.InfoDetail := set_string updates "InfoDetail" (FullSyncMeta.InfoDetail row);
     FullSyncMeta.ErrorDetail := set_string updates "ErrorDetail" (FullSyncMeta.ErrorDetail row)
  |}.

Definition update_table (updates : gmap string value) (row : WaitSyncMeta.t)
  : WaitSyncMeta.t :=
  {| WaitSyncMeta.DBTypeS := WaitSyncMeta.DBTypeS row;
     WaitSyncMeta.DBTypeT := WaitSyncMeta.DBTypeT row;
     WaitSyncMeta.SchemaNameS := WaitSyncMeta.SchemaNameS row;
     WaitSyncMeta.TableNameS := WaitSyncMeta.TableNameS row;
     WaitSyncMeta.TaskMode := WaitSyncMeta.TaskMode row;
     WaitSyncMeta.TaskStatus := set_string updates "TaskStatus" (WaitSyncMeta.TaskStatus row);
     WaitSyncMeta.GlobalScnS := set_int updates "GlobalScnS" (WaitSyncMeta.GlobalScnS row);
     WaitSyncMeta.ChunkTotalNums :=
       set_int updates "ChunkTotalNums" (WaitSyncMeta.ChunkTotalNums row);
     WaitSyncMeta.ChunkSuccessNums :=
       set_int updates "ChunkSuccessNums" (WaitSyncMeta.ChunkSuccessNums row);
     WaitSyncMeta.ChunkFailedNums :=
       set_int updates "ChunkFailedNums" (WaitSyncMeta.ChunkFailedNums row);
     WaitSyncMeta.IsPartition := set_string updates "IsPartition" (WaitSyncMeta.IsPartition row)
  |}.


(** ** State, effects and the monad of the export *)

(** The calls that act on the source database, on the cursors and on
    the output files, in the order they are made. *)
Inductive Event : Type :=
| EvStartOracleChunkCreateTask (taskName : string)
| EvStartOracleCreateChunkByRowID (taskName schemaName tableName chunkSize : string)
| EvGetOracleTableChunksByRowID (taskName : string)
| EvCloseOracleChunkTask (taskName : string)
| EvQueryContext (querySQL : string)
| EvRowsClose (querySQL : string)
| EvWriteFile (csvFile : string).

Record State := {
  store : Store;         (* the rows of the metadata database *)
  calls : nat;           (* gateway calls made so far *)
  trace : list Event     (* effects outside the metadata database *)
}.

(** How a Go function ends: it returns a value, it returns a non-nil
    error, or it panics. *)
Inductive outcome (A : Type) : Type :=
| Done (a : A)
| Fail (e : error)
| Panic (msg : string).
Arguments Done {A} a.
Arguments Fail {A} e.
Arguments Panic {A} msg.

Definition M (A : Type) : Type := State -> outcome A * State.

Definition ret {A} (a : A) : M A := fun st => (Done a, st).

Definition fail {A} (e : error) : M A := fun st => (Fail e, st).

Definition panic {A} (msg : string) : M A := fun st => (Panic msg, st).

Definition bind {A B} (c : M A) (k : A -> M B) : M B :=
  fun st =>
    match c st with
    | (Done a, st') => k a st'
    | (Fail e, st') => (Fail e, st')
    | (Panic msg, st') => (Panic msg, st')
    end.

Declare Scope go_scope.
Delimit Scope go_scope with go.
Notation "x <- c ;; k" := (bind c (fun x => k))
  (at level 100, c at next level, right associativity) : go_scope.
Notation "c ;; k" := (bind c (fun _ => k))
  (at level 100, right associativity) : go_scope.
Local Open Scope go_scope.

Definition emit (ev : Event) : M unit :=
  fun st => (Done tt, {| store := store st; calls := calls st; trace := trace st ++ [ev] |}).

(** [if err != nil { return err }] after a call that returns an error. *)
Definition check (err : option error) : M unit :=
  match err with
  | Some e => fail e
  | None => ret tt
  end.

(** [v, err := f(); if err != nil { return err }]. *)
Definition unwrap {A} (res : result A) : M A :=
  match res with
  | Ok a => ret a
  | Err e => fail e
  end.

(** ** Package [errgroup] *)

Module errgroup.

(** [g.Go(f)] for every task, then [g.Wait()]: a group made with
    [&errgroup.Group{}] cancels nothing, every task runs, and [Wait]
    returns the first non-nil error.  The tasks are run here one after
    the other in the order of submission, which is one of the schedules
    of the group; a panic of a task ends the process. *)
Fixpoint Wait (tasks : list (M unit)) (first : option error) : M unit :=
  match tasks with
  | [] => check first
  | task :: rest =>
      fun st =>
        match task st with
        | (Done _, st') => Wait rest first st'
        | (Fail e, st') =>
            Wait rest (match first with Some _ => first | None => Some e end) st'
        | (Panic msg, st') => (Panic msg, st')
        end
  end.

Definition Go (tasks : list (M unit)) : M unit := Wait tasks None.

End errgroup.

(** ** Package [meta]: the gateway *)

Module meta.

(** The handle [r.MetaDB].  A call on the gateway can fail for reasons
    of its own (connection, deadlock, ...): [fault n] is the error of
    the [n]-th call made on the handle, if it fails. *)
Record Meta := {
  fault : nat -> option string;
  (** [NewTableNameRuleModel(h).DetailTableNameRule]: the pairs
      ([TableNameS], [TableNameT]) of the custom table names, read from a
      table of the metadata database that the export never writes. *)
  DetailTableNameRule :
    string -> string -> string -> string -> result (list (string * string))
}.

Definition call {A} (h : Meta) (f : Store -> A * Store) : M (result A) :=
  fun st =>
    match fault h (calls st) with
    | Some msg =>
        (Done (Err (ExtError FromMeta msg)),
         {| store := store st; calls := S (calls st); trace := trace st |})
    | None =>
        let '(a, db) := f (store st) in
        (Done (Ok a), {| store := db; calls := S (calls st); trace := trace st |})
    end.

Definition error_of {A} (res : result A) : option error :=
  match res with
  | Ok _ => None
  | Err e => Some e
  end.

Definition exec (h : Meta) (f : Store -> Store) : M (option error) :=
  res <- call h (fun db => (tt, f db)) ;; ret (error_of res).

Definition query {A} (h : Meta) (f : Store -> A) : M (result A) :=
  call h (fun db => (f db, db)).

Definition with_chunks (db : Store) (rows : list FullSyncMeta.t) : Store :=
  {| wait_sync_meta := wait_sync_meta db; full_sync_meta := rows |}.

Definition with_tables (db : Store) (rows : list WaitSyncMeta.t) : Store :=
  {| wait_sync_meta := rows; full_sync_meta := full_sync_meta db |}.

(** *** [full_sync_meta] *)

(** Modelled from the spec: the gateway is outside the sources at hand.
    Section 4.3, step 2: delete every ChunkProgress row for this run's key. *)
Definition DeleteFullSyncMetaBySchemaSyncMode (h : Meta) (q : FullSyncMeta.t)
  : M (option error) :=
  exec h (fun db =>
    with_chunks db (List.filter (fun row => negb (chunk_of_run q row)) (full_sync_meta db))).

(** Modelled from the spec: the gateway is outside the sources at hand.
    Section 4.3, step 6: the count of existing ChunkProgress children of
    a table. *)
Definition CountsFullSyncMetaByTaskTable (h : Meta) (q : FullSyncMeta.t) : M (result Z) :=
  query h (fun db =>
    Z.of_nat (length (List.filter (chunk_of_table q) (full_sync_meta db)))).

(** Modelled from the spec: the gateway is outside the sources at hand.
    Section 4.4, step 2: the ChunkProgress children of a table whose
    status is the given one. *)
Definition DetailFullSyncMeta (h : Meta) (q : FullSyncMeta.t)
  : M (result (list FullSyncMeta.t)) :=
  query h (fun db =>
    List.filter (fun row => chunk_of_table q row && chunk_has_status q row)
      (full_sync_meta db)).

(** Modelled from the spec: the gateway is outside the sources at hand.
    Section 4.4, step 4: count the FAILED children of a table. *)
Definition CountsErrorFullSyncMeta (h : Meta) (q : FullSyncMeta.t) : M (result Z) :=
  query h (fun db =>
    Z.of_nat (length (List.filter
      (fun row => chunk_of_table q row && chunk_has_status q row) (full_sync_meta db)))).

(** Modelled from the spec: the gateway is outside the sources at hand.
    Section 3: a ChunkProgress row is identified by the key of its table
    and its predicate; section 4.4, step 3: record the status and the
    diagnostic details of that chunk. *)
Definition UpdateFullSyncMetaChunk (h : Meta) (q : FullSyncMeta.t)
  (updates : gmap string value) : M (option error) :=
  exec h (fun db =>
    with_chunks db
      (map (fun row =>
              if chunk_of_table q row
                 && String.eqb (FullSyncMeta.ChunkDetailS q) (FullSyncMeta.ChunkDetailS row)
              then update_chunk updates row else row)
         (full_sync_meta db))).

(** *** [wait_sync_meta] *)

(** Modelled from the spec: the gateway is outside the sources at hand.
    Section 4.3, step 2: delete every WAITING TableProgress row of the
    configured table; SUCCESS rows remain. *)
Definition DeleteWaitSyncMeta (h : Meta) (q : WaitSyncMeta.t) : M (option error) :=
  exec h (fun db =>
    with_tables db
      (List.filter
         (fun row => negb (table_of_key q row
                           && String.eqb (WaitSyncMeta.TaskStatus row) common.TaskStatusWaiting))
         (wait_sync_meta db))).

(** Modelled from the spec: the gateway is outside the sources at hand.
    Single-row and by-status reads of TableProgress (sections 4.3 and
    4.5): the rows of the run, restricted to the table and to the status
    of the query when these are set. *)
Definition DetailWaitSyncMeta (h : Meta) (q : WaitSyncMeta.t)
  : M (result (list WaitSyncMeta.t)) :=
  query h (fun db =>
    List.filter
      (fun row =>
         table_of_run q row
         && (unset (WaitSyncMeta.TableNameS q)
             || same (WaitSyncMeta.TableNameS q) (WaitSyncMeta.TableNameS row))
         && (unset (WaitSyncMeta.TaskStatus q) || table_has_status q row))
      (wait_sync_meta db)).

(** Modelled from the spec: the gateway is outside the sources at hand.
    Section 4.3, step 5: insert a TableProgress row. *)
Definition CreateWaitSyncMeta (h : Meta) (row : WaitSyncMeta.t) : M (option error) :=
  exec h (fun db => with_tables db (wait_sync_meta db ++ [row])).

(** Modelled from the spec: the gateway is outside the sources at hand.
    Section 4.3, step 3: the tables that have TableProgress in SUCCESS
    under this run's key. *)
Definition DetailWaitSyncMetaSuccessTables (h : Meta) (q : WaitSyncMeta.t)
  : M (result (list string)) :=
  query h (fun db =>
    map WaitSyncMeta.TableNameS
      (List.filter (fun row => table_of_run q row && table_has_status q row)
         (wait_sync_meta db))).

(** Modelled from the spec: the gateway is outside the sources at hand.
    Section 4.3, step 3, and section 4.5: the deletion takes an explicit
    list of tables. *)
Definition DeleteWaitSyncMetaSuccessTables (h : Meta) (q : WaitSyncMeta.t)
  (tables : list string) : M (option error) :=
  exec h (fun db =>
    with_tables db
      (List.filter
         (fun row => negb (table_of_run q row && table_has_status q row
                           && existsb (same (WaitSyncMeta.TableNameS row)) tables))
         (wait_sync_meta db))).

(** Modelled from the spec: the gateway is outside the sources at hand.
    Section 4.3, step 4: is any TableProgress under this run's key FAILED. *)
Definition CountsErrWaitSyncMetaBySchema (h : Meta) (q : WaitSyncMeta.t) : M (result Z) :=
  query h (fun db =>
    Z.of_nat (length (List.filter
      (fun row => table_of_run q row && table_has_status q row) (wait_sync_meta db)))).

(** Modelled from the spec: the gateway is outside the sources at hand.
    Section 4.3, step 6: the TableProgress rows of the run in the given
    status (RUNNING). *)
Definition QueryWaitSyncMetaByPartTask (h : Meta) (q : WaitSyncMeta.t)
  : M (result (list WaitSyncMeta.t)) :=
  query h (fun db =>
    List.filter (fun row => table_of_run q row && table_has_status q row)
      (wait_sync_meta db)).

(** Modelled from the spec: the gateway is outside the sources at hand.
    Section 4.4, steps 1 and 4: set the status and the counters of the
    TableProgress row of a table. *)
Definition UpdateWaitSyncMeta (h : Meta) (q : WaitSyncMeta.t)
  (updates : gmap string value) : M (option error) :=
  exec h (fun db =>
    with_tables db
      (map (fun row => if table_of_key q row then update_table updates row else row)
         (wait_sync_meta db))).

(** *** The compound operations *)

(** The parent row of a fresh plan: the counters and the snapshot of
    [wait], in WAITING. *)
Definition planned (wait row : WaitSyncMeta.t) : WaitSyncMeta.t :=
  {| WaitSyncMeta.DBTypeS := WaitSyncMeta.DBTypeS row;
     WaitSyncMeta.DBTypeT := WaitSyncMeta.DBTypeT row;
     WaitSyncMeta.SchemaNameS := WaitSyncMeta.SchemaNameS row;
     WaitSyncMeta.TableNameS := WaitSyncMeta.TableNameS row;
     WaitSyncMeta.TaskMode := WaitSyncMeta.TaskMode row;
     WaitSyncMeta.TaskStatus := common.TaskStatusWaiting;
     WaitSyncMeta.GlobalScnS := WaitSyncMeta.GlobalScnS wait;
     WaitSyncMeta.ChunkTotalNums := WaitSyncMeta.ChunkTotalNums wait;
     WaitSyncMeta.ChunkSuccessNums := WaitSyncMeta.ChunkSuccessNums wait;
     WaitSyncMeta.ChunkFailedNums := WaitSyncMeta.ChunkFailedNums wait;
     WaitSyncMeta.IsPartition := WaitSyncMeta.IsPartition wait |}.

Definition upsert_planned (wait : WaitSyncMeta.t) (rows : list WaitSyncMeta.t)
  : list WaitSyncMeta.t :=
  if existsb (table_of_key wait) rows
  then map (fun row => if table_of_key wait row then planned wait row else row) rows
  else rows ++ [planned wait wait].

(** Modelled from the spec: the gateway is outside the sources at hand.
    Section 4.5, compound operation 1, and section 4.3, step 7: insert
    the ChunkProgress rows and, all-or-nothing with it, flip the parent
    TableProgress to WAITING with its [chunks_total] and snapshot. *)
Definition BatchCreateFullSyncMetaAndUpdateWaitSyncMeta (h : Meta)
  (chunks : list FullSyncMeta.t) (batchSize : Z) (wait : WaitSyncMeta.t)
  : M (option error) :=
  exec h (fun db =>
    {| wait_sync_meta := upsert_planned wait (wait_sync_meta db);
       full_sync_meta := full_sync_meta db ++ chunks |}).

(** Modelled from the spec: the gateway is outside the sources at hand.
    The same compound operation for a single ChunkProgress row. *)
Definition CreateFullSyncMetaAndUpdateWaitSyncMeta (h : Meta)
  (chunk : FullSyncMeta.t) (wait : WaitSyncMeta.t) : M (option error) :=
  exec h (fun db =>
    {| wait_sync_meta := upsert_planned wait (wait_sync_meta db);
       full_sync_meta := full_sync_meta db ++ [chunk] |}).

(** The parent row of a finished table: status and counters of [wait]. *)
Definition finished (wait row : WaitSyncMeta.t) : WaitSyncMeta.t :=
  {| WaitSyncMeta.DBTypeS := WaitSyncMeta.DBTypeS row;
     WaitSyncMeta.DBTypeT := WaitSyncMeta.DBTypeT row;
     WaitSyncMeta.SchemaNameS := WaitSyncMeta.SchemaNameS row;
     WaitSyncMeta.TableNameS := WaitSyncMeta.TableNameS row;
     WaitSyncMeta.TaskMode := WaitSyncMeta.TaskMode row;
     WaitSyncMeta.TaskStatus := WaitSyncMeta.TaskStatus wait;
     WaitSyncMeta.GlobalScnS := WaitSyncMeta.GlobalScnS row;
     WaitSyncMeta.ChunkTotalNums := WaitSyncMeta.ChunkTotalNums row;
     WaitSyncMeta.ChunkSuccessNums := WaitSyncMeta.ChunkSuccessNums wait;
     WaitSyncMeta.ChunkFailedNums := WaitSyncMeta.ChunkFailedNums wait;
     WaitSyncMeta.IsPartition := WaitSyncMeta.IsPartition row |}.

(** Modelled from the spec: the gateway is outside the sources at hand.
    Section 4.5, compound operation 2, and section 4.4, step 4: delete
    the SUCCESS ChunkProgress rows of the table and, all-or-nothing with
    it, set the status and the counters of its TableProgress row. *)
Definition DeleteTableFullSyncMetaAndUpdateWaitSyncMeta (h : Meta)
  (full : FullSyncMeta.t) (wait : WaitSyncMeta.t) : M (option error) :=
  exec h (fun db =>
    {| wait_sync_meta :=
         map (fun row => if table_of_key wait row then finished wait row else row)
           (wait_sync_meta db);
       full_sync_meta :=
         List.filter
           (fun row => negb (chunk_of_table full row
                             && String.eqb (FullSyncMeta.TaskStatus row)
                                  common.TaskStatusSuccess))
           (full_sync_meta db) |}).

End meta.

(** ** Package [o2m] *)

(** What the export uses of its repository and of Go's library without
    the text being part of the sources at hand. *)
Record Package := {
  (** [filterCFGTable(cfg, oracle)]: the configured tables. *)
  filterCFGTable : config.Config -> oracle.Oracle -> result (list string);
  (** [NewWriter(schema, table, charset, querySQL, csvFile, columnFields,
      csvConfig, rows).WriteFile()]. *)
  WriteFile : string -> string -> string -> string -> string -> list string ->
              config.CSVConfig -> option sql.Rows -> option error;
  (** [m.String()] on a [meta.FullSyncMeta]. *)
  FullSyncMeta_String : FullSyncMeta.t -> string;
  (** [common.VersionOrdinal] and the two versions it is compared with. *)
  VersionOrdinal : string -> string;
  RequireOracleDBVersion : string;
  OracleTableColumnCollationDBVersion : string;
  (** [filepath.Join]. *)
  filepath_Join : list string -> string
}.

Record O2M := {
  Cfg : config.Config;
  Oracle : oracle.Oracle;
  MetaDB : meta.Meta
}.

Definition nil_dereference : string :=
  "runtime error: invalid memory address or nil pointer dereference".

(** [rows.Columns()]; [database/sql] dereferences the handle. *)
Definition rows_Columns (rows : option sql.Rows) : M (result (list string)) :=
  match rows with
  | None => panic nil_dereference
  | Some rs => ret (sql.Columns rs)
  end.

(** [rows.Close()]; [database/sql] dereferences the handle. *)
Definition rows_Close (querySQL : string) (rows : option sql.Rows) : M (option error) :=
  match rows with
  | None => panic nil_dereference
  | Some rs => emit (EvRowsClose querySQL) ;; ret (sql.Close rs)
  end.

Section Engine.

Variable pkg : Package.
Variable r : O2M.

Abbreviation SchemaName := (config.OracleSchemaName (config.Oracle (Cfg r))).
Abbreviation TargetSchemaName := (config.MySQLSchemaName (config.MySQL (Cfg r))).
Abbreviation DBTypeS := (config.DBTypeS (Cfg r)).
Abbreviation DBTypeT := (config.DBTypeT (Cfg r)).
Abbreviation TaskMode := (config.TaskMode (Cfg r)).

(** *** [csvPartSyncTable]: the executor *)

(** The argument of [UpdateFullSyncMetaChunk] for chunk [m]. *)
Definition chunk_key (m : FullSyncMeta.t) : FullSyncMeta.t :=
  FullSyncMeta.lit (FullSyncMeta.DBTypeS m) (FullSyncMeta.DBTypeT m)
    (FullSyncMeta.SchemaNameS m) (FullSyncMeta.TableNameS m)
    (FullSyncMeta.TaskMode m) "" (FullSyncMeta.ChunkDetailS m).

Definition chunk_failed (m : FullSyncMeta.t) (detail : string) : gmap string value :=
  list_to_map
    [("TaskStatus", VString common.TaskStatusFailed);
     ("InfoDetail", VString (FullSyncMeta_String pkg m));
     ("ErrorDetail", VString detail)].

Definition chunk_querySQL (m : FullSyncMeta.t) : string :=
  common.StringsBuilder
    ["SELECT "; FullSyncMeta.ColumnDetailS m; " FROM "; FullSyncMeta.SchemaNameS m; ".";
     FullSyncMeta.TableNameS m; " WHERE "; FullSyncMeta.ChunkDetailS m].

(** The function given to [g1.Go] for chunk [m]. *)
Definition chunkTask (oracleDBCharacterSet : string) (m : FullSyncMeta.t) : M unit :=
  let querySQL := chunk_querySQL m in
  emit (EvQueryContext querySQL) ;;
  let '(rowsResult, err) := oracle.QueryContext (Oracle r) querySQL in
  match err with
  | Some err =>
      (* record error, skip error *)
      errf <- meta.UpdateFullSyncMetaChunk (MetaDB r) (chunk_key m)
                (chunk_failed m (Error err)) ;;
      match errf with
      | Some errf =>
          fail (Errorf "get oracle schema table [%v] record by rowid sql falied: %v"
                  [inl (FullSyncMeta_String pkg m); inr errf])
      | None =>
          errClose <- rows_Close querySQL rowsResult ;;
          check errClose
      end
  | None =>
      columns <- rows_Columns rowsResult ;;
      match columns with
      | Err err =>
          (* record error, skip error *)
          errf <- meta.UpdateFullSyncMetaChunk (MetaDB r) (chunk_key m)
                    (chunk_failed m (Error err)) ;;
          match errf with
          | Some errf =>
              fail (Errorf "get oracle schema table [%v] rows.Columns failed: %v"
                      [inl (FullSyncMeta_String pkg m); inr errf])
          | None =>
              errClose <- rows_Close querySQL rowsResult ;;
              check errClose
          end
      | Ok columnFields =>
          emit (EvWriteFile (FullSyncMeta.CSVFile m)) ;;
          match WriteFile pkg (FullSyncMeta.SchemaNameS m) (FullSyncMeta.TableNameS m)
                  oracleDBCharacterSet querySQL (FullSyncMeta.CSVFile m) columnFields
                  (config.CSV (Cfg r)) rowsResult with
          | Some errW =>
              errf <- meta.UpdateFullSyncMetaChunk (MetaDB r) (chunk_key m)
                        (chunk_failed m (Error errW)) ;;
              match errf with
              | Some errf =>
                  fail (Errorf "get oracle schema table [%v] write file failed: %v"
                          [inl (FullSyncMeta_String pkg m); inr errf])
              | None => ret tt
              end
          | None =>
              errf <- meta.UpdateFullSyncMetaChunk (MetaDB r) (chunk_key m)
                        (list_to_map [("TaskStatus", VString common.TaskStatusSuccess)]) ;;
              check errf
          end
      end
  end.

(** The struct literals of the table task. *)
Definition table_chunks (t status : string) : FullSyncMeta.t :=
  FullSyncMeta.lit DBTypeS DBTypeT (common.StringUPPER SchemaName)
    (common.StringUPPER t) TaskMode status "".

Definition table_row (t : string) : WaitSyncMeta.t :=
  WaitSyncMeta.lit DBTypeS DBTypeT (common.StringUPPER SchemaName)
    (common.StringUPPER t) TaskMode "".

(** The end of the table task, once [g1.Wait()] has returned without
    error: count the FAILED chunks, then clean up and record the table's
    outcome. *)
Definition tableOutcome (t : string) : M unit :=
  counts <- meta.CountsErrorFullSyncMeta (MetaDB r)
              (table_chunks t common.TaskStatusFailed) ;;
  match counts with
  | Err err =>
      fail (Errorf "get meta table [full_sync_meta] counts failed, error: %v" [inr err])
  | Ok failedChunkTotalErrs =>
      detail <- meta.DetailFullSyncMeta (MetaDB r)
                  (table_chunks t common.TaskStatusSuccess) ;;
      successChunkFullMeta <- unwrap detail ;;
      if failedChunkTotalErrs =? 0 then
        err <- meta.DeleteTableFullSyncMetaAndUpdateWaitSyncMeta (MetaDB r)
                 (table_chunks t "")
                 {| WaitSyncMeta.DBTypeS := DBTypeS;
                    WaitSyncMeta.DBTypeT := DBTypeT;
                    WaitSyncMeta.SchemaNameS := common.StringUPPER SchemaName;
                    WaitSyncMeta.TableNameS := common.StringUPPER t;
                    WaitSyncMeta.TaskMode := TaskMode;
                    WaitSyncMeta.TaskStatus := common.TaskStatusSuccess;
                    WaitSyncMeta.GlobalScnS := 0;
                    WaitSyncMeta.ChunkTotalNums := 0;
                    WaitSyncMeta.ChunkSuccessNums :=
                      Z.of_nat (length successChunkFullMeta);
                    WaitSyncMeta.ChunkFailedNums := 0;
                    WaitSyncMeta.IsPartition := "" |} ;;
        check err
      else
        err <- meta.UpdateWaitSyncMeta (MetaDB r) (table_row t)
                 (list_to_map
                    [("TaskStatus", VString common.TaskStatusFailed);
                     ("ChunkSuccessNums", VInt (Z.of_nat (length successChunkFullMeta)));
                     ("ChunkFailedNums", VInt failedChunkTotalErrs)]) ;;
        check err
  end.

(** The function given to [g.Go] for table [t]. *)
Definition tableTask (oracleDBCharacterSet : string) (t : string) : M unit :=
  err <- meta.UpdateWaitSyncMeta (MetaDB r)
           (WaitSyncMeta.lit DBTypeS DBTypeT SchemaName (common.StringUPPER t) TaskMode "")
           (list_to_map [("TaskStatus", VString common.TaskStatusRunning)]) ;;
  check err ;;
  detail <- meta.DetailFullSyncMeta (MetaDB r) (table_chunks t common.TaskStatusWaiting) ;;
  waitFullMetas <- unwrap detail ;;
  detail <- meta.DetailFullSyncMeta (MetaDB r) (table_chunks t common.TaskStatusFailed) ;;
  failedFullMetas <- unwrap detail ;;
  let waitFullMetas := (waitFullMetas ++ failedFullMetas)%list in
  errgroup.Go (map (chunkTask oracleDBCharacterSet) waitFullMetas) ;;
  tableOutcome t.

Definition csvPartSyncTable (csvPartTables : list string) : M unit :=
  oracleDBCharacterSet <- unwrap (oracle.GetOracleDBCharacterSet (Oracle r)) ;;
  errgroup.Go (map (tableTask oracleDBCharacterSet) csvPartTables).

(** *** [initWaitSyncTableRowID]: planning the WAITING tables *)

(** The path of the CSV file of chunk [index] of table [t]. *)
Definition csvFile_of (t targetTableName index : string) : string :=
  filepath_Join pkg
    [config.OutputDir (config.CSV (Cfg r));
     common.StringUPPER SchemaName; common.StringUPPER t;
     common.StringsBuilder
       [common.StringUPPER TargetSchemaName; "."; common.StringUPPER targetTableName;
        "."; index; ".csv"]].

(** The [meta.FullSyncMeta] literal of a chunk with predicate [chunk]. *)
Definition plan_chunk (t targetTableName : string) (globalSCN : Z)
  (sourceColumnInfo chunk isPartition csvFile : string) : FullSyncMeta.t :=
  {| FullSyncMeta.DBTypeS := DBTypeS;
     FullSyncMeta.DBTypeT := DBTypeT;
     FullSyncMeta.SchemaNameS := common.StringUPPER SchemaName;
     FullSyncMeta.TableNameS := common.StringUPPER t;
     FullSyncMeta.SchemaNameT := common.StringUPPER TargetSchemaName;
     FullSyncMeta.TableNameT := common.StringUPPER targetTableName;
     FullSyncMeta.GlobalScnS := globalSCN;
     FullSyncMeta.ColumnDetailS := sourceColumnInfo;
     FullSyncMeta.ChunkDetailS := chunk;
     FullSyncMeta.TaskMode := TaskMode;
     FullSyncMeta.TaskStatus := common.TaskStatusWaiting;
     FullSyncMeta.IsPartition := isPartition;
     FullSyncMeta.CSVFile := csvFile;
     FullSyncMeta.InfoDetail := "";
     FullSyncMeta.ErrorDetail := "" |}.

(** The [meta.WaitSyncMeta] literal of the parent of a plan. *)
Definition plan_table (t : string) (globalSCN chunkTotalNums : Z) (isPartition : string)
  : WaitSyncMeta.t :=
  {| WaitSyncMeta.DBTypeS := DBTypeS;
     WaitSyncMeta.DBTypeT := DBTypeT;
     WaitSyncMeta.SchemaNameS := common.StringUPPER SchemaName;
     WaitSyncMeta.TableNameS := common.StringUPPER t;
     WaitSyncMeta.TaskMode := TaskMode;
     WaitSyncMeta.TaskStatus := "";
     WaitSyncMeta.GlobalScnS := globalSCN;
     WaitSyncMeta.ChunkTotalNums := chunkTotalNums;
     WaitSyncMeta.ChunkSuccessNums := 0;
     WaitSyncMeta.ChunkFailedNums := 0;
     WaitSyncMeta.IsPartition := isPartition |}.

(** The whole-table plan: one chunk with predicate [1 = 1], file index 0,
    and a parent with [ChunkTotalNums: 1]. *)
Definition planWholeTable (t targetTableName : string) (globalSCN : Z)
  (sourceColumnInfo isPartition : string) : M unit :=
  err <- meta.CreateFullSyncMetaAndUpdateWaitSyncMeta (MetaDB r)
           (plan_chunk t targetTableName globalSCN sourceColumnInfo "1 = 1" isPartition
              (csvFile_of t targetTableName "0"))
           (plan_table t globalSCN 1 isPartition) ;;
  check err.

Definition taskName_of (t : string) (workerID : nat) : string :=
  common.StringsBuilder
    [common.StringUPPER SchemaName; "_"; common.StringUPPER t; "_"; "TASK";
     strconv.Itoa (Z.of_nat workerID)].

(** The function given to [g.Go] for table [t], the [workerID]-th of
    [csvWaitTables]. *)
Definition planTask (tableNameRule : gmap string string) (oracleCollation : bool)
  (globalSCN : Z) (partitionTables : list string) (workerID : nat) (t : string) : M unit :=
  let targetTableName :=
    match tableNameRule !! common.StringUPPER t with
    | Some val => val
    | None => common.StringUPPER t
    end in
  if String.eqb (config.OutputDir (config.CSV (Cfg r))) "" then
    fail (Errorf "csv config paramter output-dir can't be null, please configure" [])
  else
    sourceColumnInfo <- unwrap (adjustTableSelectColumn (Cfg r) (Oracle r) t oracleCollation) ;;
    let isPartition :=
      if common.IsContainString partitionTables (common.StringUPPER t)
      then "YES" else "NO" in
    tableRowsByStatistics <-
      unwrap (oracle.GetOracleTableRowsByStatistics (Oracle r) SchemaName t) ;;
    if tableRowsByStatistics =? 0 then
      planWholeTable t targetTableName globalSCN sourceColumnInfo isPartition
    else
      let taskName := taskName_of t workerID in
      emit (EvStartOracleChunkCreateTask taskName) ;;
      check (oracle.StartOracleChunkCreateTask (Oracle r) taskName) ;;
      emit (EvStartOracleCreateChunkByRowID taskName (common.StringUPPER SchemaName)
              (common.StringUPPER t) (strconv.Itoa (config.Rows (config.CSV (Cfg r))))) ;;
      check (oracle.StartOracleCreateChunkByRowID (Oracle r) taskName
               (common.StringUPPER SchemaName) (common.StringUPPER t)
               (strconv.Itoa (config.Rows (config.CSV (Cfg r))))) ;;
      emit (EvGetOracleTableChunksByRowID taskName) ;;
      chunkRes <- unwrap (oracle.GetOracleTableChunksByRowID (Oracle r) taskName) ;;
      if (length chunkRes =? 0)%nat then
        planWholeTable t targetTableName globalSCN sourceColumnInfo isPartition
      else
        let fullMetas :=
          imap (fun i res =>
                  plan_chunk t targetTableName globalSCN sourceColumnInfo
                    (at_key res "CMD") isPartition
                    (csvFile_of t targetTableName (strconv.Itoa (Z.of_nat i))))
            chunkRes in
        err <- meta.BatchCreateFullSyncMetaAndUpdateWaitSyncMeta (MetaDB r) fullMetas
                 (config.InsertBatchSize (config.App (Cfg r)))
                 (plan_table t globalSCN (Z.of_nat (length chunkRes)) isPartition) ;;
        check err ;;
        emit (EvCloseOracleChunkTask taskName) ;;
        check (oracle.CloseOracleChunkTask (Oracle r) taskName).

Definition initWaitSyncTableRowID (csvWaitTables : list string)
  (tableNameRule : gmap string string) (oracleCollation : bool) : M unit :=
  globalSCN <- unwrap (oracle.GetOracleCurrentSnapshotSCN (Oracle r)) ;;
  partitionTables <- unwrap (oracle.GetOracleSchemaPartitionTable (Oracle r) SchemaName) ;;
  errgroup.Go
    (imap (fun idx tbl =>
             planTask tableNameRule oracleCollation globalSCN partitionTables idx tbl)
       csvWaitTables).

Definition csvWaitSyncTable (csvWaitTables : list string)
  (tableNameRule : gmap string string) (oracleCollation : bool) : M unit :=
  initWaitSyncTableRowID csvWaitTables tableNameRule oracleCollation ;;
  csvPartSyncTable csvWaitTables.

(** *** [CSV]: the run *)

(** [for _, x := range xs { ... }] with a body that may return an error. *)
Fixpoint for_each {A} (xs : list A) (body : A -> M unit) : M unit :=
  match xs with
  | [] => ret tt
  | x :: rest => body x ;; for_each rest body
  end.

Definition waiting_row (tableName : string) : WaitSyncMeta.t :=
  {| WaitSyncMeta.DBTypeS := DBTypeS;
     WaitSyncMeta.DBTypeT := DBTypeT;
     WaitSyncMeta.SchemaNameS := common.StringUPPER SchemaName;
     WaitSyncMeta.TableNameS := common.StringUPPER tableName;
     WaitSyncMeta.TaskMode := TaskMode;
     WaitSyncMeta.TaskStatus := common.TaskStatusWaiting;
     WaitSyncMeta.GlobalScnS := common.TaskTableDefaultSourceGlobalSCN;
     WaitSyncMeta.ChunkTotalNums := common.TaskTableDefaultSplitChunkNums;
     WaitSyncMeta.ChunkSuccessNums := 0;
     WaitSyncMeta.ChunkFailedNums := 0;
     WaitSyncMeta.IsPartition := "" |}.

(** The query struct of the run with a status. *)
Definition run_tables (status : string) : WaitSyncMeta.t :=
  WaitSyncMeta.lit DBTypeS DBTypeT (common.StringUPPER SchemaName) "" TaskMode status.

(** [if !r.Cfg.CSVConfig.EnableCheckpoint { ... }]: forget the chunks of
    the run and start the configured tables afresh. *)
Definition CSV_reset (exporters : list string) : M unit :=
  if negb (config.EnableCheckpoint (config.CSV (Cfg r))) then
    err <- meta.DeleteFullSyncMetaBySchemaSyncMode (MetaDB r)
             (FullSyncMeta.lit DBTypeS DBTypeT (common.StringUPPER SchemaName) ""
                (common.StringUPPER TaskMode) "" "") ;;
    check err ;;
    for_each exporters (fun tableName =>
      err <- meta.DeleteWaitSyncMeta (MetaDB r)
               (WaitSyncMeta.lit DBTypeS DBTypeT (common.StringUPPER SchemaName)
                  tableName TaskMode "") ;;
      check err ;;
      detail <- meta.DetailWaitSyncMeta (MetaDB r)
                  (WaitSyncMeta.lit DBTypeS DBTypeT (common.StringUPPER SchemaName)
                     tableName TaskMode "") ;;
      waitSyncMetas <- unwrap detail ;;
      if (length waitSyncMetas =? 0)%nat then
        err <- meta.CreateWaitSyncMeta (MetaDB r) (waiting_row tableName) ;;
        check err
      else ret tt)
  else ret tt.

(** Clear the SUCCESS rows of the tables that are not part of this run. *)
Definition CSV_clear (exporters : list string) : M unit :=
  res <- meta.DetailWaitSyncMetaSuccessTables (MetaDB r)
           (run_tables common.TaskStatusSuccess) ;;
  tablesByMeta <- unwrap res ;;
  let clearTables := common.FilterDifferenceStringItems tablesByMeta exporters in
  if (0 <? length clearTables)%nat then
    err <- meta.DeleteWaitSyncMetaSuccessTables (MetaDB r)
             (run_tables common.TaskStatusSuccess) clearTables ;;
    check err
  else ret tt.

(** Refuse to run while a table of the run is FAILED. *)
Definition CSV_gate : M unit :=
  res <- meta.CountsErrWaitSyncMetaBySchema (MetaDB r)
           (run_tables common.TaskStatusFailed) ;;
  errTotals <- unwrap res ;;
  if 0 <? errTotals then
    fail (Errorf "csv schema [%s] mode [%s] table task failed: meta table [wait_sync_meta] exist failed error, please: firstly check meta table [wait_sync_meta] and [full_sync_meta] log record; secondly if need resume, update meta table [wait_sync_meta] column [task_status] table status RUNNING (Need UPPER); finally rerunning"
            [inl (strings.ToUpper SchemaName); inl TaskMode])
  else ret tt.

(** Record the configured tables that have no row yet. *)
Definition CSV_ensure (exporters : list string) : M unit :=
  for_each exporters (fun tableName =>
    detail <- meta.DetailWaitSyncMeta (MetaDB r)
                (WaitSyncMeta.lit DBTypeS DBTypeT (common.StringUPPER SchemaName)
                   (common.StringUPPER tableName) TaskMode "") ;;
    waitSyncMetas <- unwrap detail ;;
    if (length waitSyncMetas =? 0)%nat then
      err <- meta.CreateWaitSyncMeta (MetaDB r) (waiting_row tableName) ;;
      check err
    else ret tt).

(** The tables that wait for their plan. *)
Definition CSV_waiting : M (list string) :=
  detail <- meta.DetailWaitSyncMeta (MetaDB r)
              {| WaitSyncMeta.DBTypeS := DBTypeS;
                 WaitSyncMeta.DBTypeT := DBTypeT;
                 WaitSyncMeta.SchemaNameS := common.StringUPPER SchemaName;
                 WaitSyncMeta.TableNameS := "";
                 WaitSyncMeta.TaskMode := TaskMode;
                 WaitSyncMeta.TaskStatus := common.TaskStatusWaiting;
                 WaitSyncMeta.GlobalScnS := common.TaskTableDefaultSourceGlobalSCN;
                 WaitSyncMeta.ChunkTotalNums := common.TaskTableDefaultSplitChunkNums;
                 WaitSyncMeta.ChunkSuccessNums := 0;
                 WaitSyncMeta.ChunkFailedNums := 0;
                 WaitSyncMeta.IsPartition := "" |} ;;
  waitSyncTableMetas <- unwrap detail ;;
  ret (map (fun table => common.StringUPPER (WaitSyncMeta.TableNameS table))
         waitSyncTableMetas).

(** The loop over the RUNNING tables: a table whose chunk rows are as
    many as its [ChunkTotalNums] can be resumed, any other is recorded
    in [panicTblFullSlice]. *)
Fixpoint CSV_classify (partSyncDetails : list WaitSyncMeta.t)
  (partSyncTables panicTblFullSlice : list string) : M (list string * list string) :=
  match partSyncDetails with
  | [] => ret (partSyncTables, panicTblFullSlice)
  | t :: rest =>
      res <- meta.CountsFullSyncMetaByTaskTable (MetaDB r)
               (FullSyncMeta.lit (WaitSyncMeta.DBTypeS t) (WaitSyncMeta.DBTypeT t)
                  (common.StringUPPER (WaitSyncMeta.SchemaNameS t))
                  (WaitSyncMeta.TableNameS t) (WaitSyncMeta.TaskMode t) "" "") ;;
      chunkCounts <- unwrap res ;;
      if negb (chunkCounts =? WaitSyncMeta.ChunkTotalNums t) then
        CSV_classify rest partSyncTables
          (panicTblFullSlice ++ [WaitSyncMeta.TableNameS t])
      else
        CSV_classify rest (partSyncTables ++ [WaitSyncMeta.TableNameS t])
          panicTblFullSlice
  end.

Definition checkpoint_inconsistent : error :=
  Errorf "checkpoint isn't consistent, can't be resume, please reruning [enable-checkpoint = fase]" [].

(** Can the unfinished tables be resumed: the tables to resume, or the
    end of the run. *)
Definition CSV_resumable : M (list string) :=
  res <- meta.QueryWaitSyncMetaByPartTask (MetaDB r)
           (run_tables common.TaskStatusRunning) ;;
  partSyncDetails <- unwrap res ;;
  classes <- CSV_classify partSyncDetails [] [] ;;
  let '(partSyncTables, panicTblFullSlice) := classes in
  if (0 <? length panicTblFullSlice)%nat then fail checkpoint_inconsistent
  else ret partSyncTables.

(** The export itself: first the tables with a checkpoint, then the
    tables that wait. *)
Definition CSV_export (partSyncTables waitSyncTables : list string)
  (oracleCollation : bool) : M unit :=
  (if (0 <? length partSyncTables)%nat then csvPartSyncTable partSyncTables else ret tt) ;;
  if (0 <? length waitSyncTables)%nat then
    tableNameRules <-
      unwrap (meta.DetailTableNameRule (MetaDB r) DBTypeS DBTypeT SchemaName TargetSchemaName) ;;
    let tableNameRuleMap :=
      fold_left (fun m tr => <[common.StringUPPER (fst tr) := common.StringUPPER (snd tr)]> m)
        tableNameRules (∅ : gmap string string) in
    csvWaitSyncTable waitSyncTables tableNameRuleMap oracleCollation
  else ret tt.

(** The closing report reads the SUCCESS and the FAILED tables. *)
Definition CSV_report : M unit :=
  detail <- meta.DetailWaitSyncMeta (MetaDB r) (run_tables common.TaskStatusSuccess) ;;
  succTotals <- unwrap detail ;;
  detail <- meta.DetailWaitSyncMeta (MetaDB r) (run_tables common.TaskStatusFailed) ;;
  failedTotals <- unwrap detail ;;
  ret tt.

(** The run up to the list of the tables that wait for their plan: the
    version of the source, the configured tables, and the
    reconciliation of the metadata with them. *)
Definition CSV_prepare : M (bool * list string) :=
  oraDBVersion <- unwrap (oracle.GetOracleDBVersion (Oracle r)) ;;
  if String.ltb (VersionOrdinal pkg oraDBVersion)
       (VersionOrdinal pkg (RequireOracleDBVersion pkg)) then
    fail (Errorf "oracle db version [%v] is less than 11g, can't be using transferdb tools"
            [inl oraDBVersion])
  else
    let oracleCollation :=
      negb (String.ltb (VersionOrdinal pkg oraDBVersion)
              (VersionOrdinal pkg (OracleTableColumnCollationDBVersion pkg))) in
    exporters <- unwrap (filterCFGTable pkg (Cfg r) (Oracle r)) ;;
    CSV_reset exporters ;;
    CSV_clear exporters ;;
    CSV_gate ;;
    CSV_ensure exporters ;;
    waitSyncTables <- CSV_waiting ;;
    ret (oracleCollation, waitSyncTables).

(** [CSV]: the blocks above, in the order of the function body. *)
Definition CSV : M unit :=
  prepared <- CSV_prepare ;;
  let '(oracleCollation, waitSyncTables) := prepared in
  partSyncTables <- CSV_resumable ;;
  CSV_export partSyncTables waitSyncTables oracleCollation ;;
  CSV_report.

End Engine.

(** ** A sample schema

    A small source schema, configuration and metadata database on which
    the statements below are run. *)

Module sample.

Definition cfg (enableCheckpoint : bool) : config.Config :=
  {| config.DBTypeS := "ORACLE";
     config.DBTypeT := "MYSQL";
     config.TaskMode := "CSV";
     config.Oracle := {| config.OracleSchemaName := "marvin" |};
     config.MySQL := {| config.MySQLSchemaName := "dst" |};
     config.App := {| config.InsertBatchSize := 100 |};
     config.CSV :=
       {| config.EnableCheckpoint := enableCheckpoint;
          config.OutputDir := "/data/csv";
          config.Rows := 1000;
          config.TaskThreads := 2;
          config.TableThreads := 2;
          config.SQLThreads := 2 |} |}.

(** Table [T]: [ID NUMBER, TS TIMESTAMP(3)]; table [E]: the edge cases
    [D DATE; I INTERVAL DAY TO SECOND; X XMLTYPE; N NUMBER; R RAW];
    table [B]: a TIMESTAMP column whose scale is not a number. *)
Definition catalog (tableName : string) : result (list (gmap string string)) :=
  if String.eqb tableName "E" then
    Ok [column "D" "DATE" ""; column "I" "INTERVAL DAY TO SECOND" "";
        column "X" "XMLTYPE" ""; column "N" "NUMBER" ""; column "R" "RAW" ""]
  else if String.eqb tableName "B" then
    Ok [column "ID" "NUMBER" ""; column "TS" "TIMESTAMP(6)" "six"]
  else
    Ok [column "ID" "NUMBER" "0"; column "TS" "TIMESTAMP(3)" "3"].

(** A cursor that answers [Columns] and [Close] as given. *)
Definition cursor (columns : result (list string)) (close : option error) : sql.Rows :=
  {| sql.Columns := columns; sql.Close := close |}.

(** The source database: statistics report [rows tableName] rows, the
    splitter returns [chunks], and [QueryContext] answers [open]. *)
Definition source (rows : string -> Z) (chunks : list (gmap string string))
  (open : string -> option sql.Rows * option error) : oracle.Oracle :=
  {| oracle.GetOracleDBVersion := Ok "19";
     oracle.GetOracleDBCharacterSet := Ok "AL32UTF8";
     oracle.GetOracleCurrentSnapshotSCN := Ok 42;
     oracle.GetOracleSchemaPartitionTable := fun _ => Ok [];
     oracle.GetOracleSchemaTableColumn := fun _ tableName _ => catalog tableName;
     oracle.GetOracleTableRowsByStatistics := fun _ tableName => Ok (rows tableName);
     oracle.StartOracleChunkCreateTask := fun _ => None;
     oracle.StartOracleCreateChunkByRowID := fun _ _ _ _ => None;
     oracle.GetOracleTableChunksByRowID := fun _ => Ok chunks;
     oracle.CloseOracleChunkTask := fun _ => None;
     oracle.QueryContext := open |}.

Definition good_cursor (_ : string) : option sql.Rows * option error :=
  (Some (cursor (Ok ["ID"; "TS"]) None), None).

(** A gateway on which no call fails, and without custom table names. *)
Definition healthy : meta.Meta :=
  {| meta.fault := fun _ => None;
     meta.DetailTableNameRule := fun _ _ _ _ => Ok [] |}.

Definition pkg (tables : list string) : Package :=
  {| filterCFGTable := fun _ _ => Ok tables;
     WriteFile := fun _ _ _ _ _ _ _ _ => None;
     FullSyncMeta_String := fun m =>
       FullSyncMeta.SchemaNameS m ++ "." ++ FullSyncMeta.TableNameS m
       ++ " [" ++ FullSyncMeta.ChunkDetailS m ++ "]";
     VersionOrdinal := fun v => v;
     RequireOracleDBVersion := "11";
     OracleTableColumnCollationDBVersion := "12.2";
     filepath_Join := String.concat "/" |}.

Definition o2m (enableCheckpoint : bool) (Oracle : oracle.Oracle) : O2M :=
  {| Cfg := cfg enableCheckpoint; Oracle := Oracle; MetaDB := healthy |}.

Definition table_row (tableName status : string) (total ok failed : Z) : WaitSyncMeta.t :=
  {| WaitSyncMeta.DBTypeS := "ORACLE";
     WaitSyncMeta.DBTypeT := "MYSQL";
     WaitSyncMeta.SchemaNameS := "MARVIN";
     WaitSyncMeta.TableNameS := tableName;
     WaitSyncMeta.TaskMode := "CSV";
     WaitSyncMeta.TaskStatus := status;
     WaitSyncMeta.GlobalScnS := 42;
     WaitSyncMeta.ChunkTotalNums := total;
     WaitSyncMeta.ChunkSuccessNums := ok;
     WaitSyncMeta.ChunkFailedNums := failed;
     WaitSyncMeta.IsPartition := "NO" |}.

Definition chunk_row (tableName chunk status : string) : FullSyncMeta.t :=
  {| FullSyncMeta.DBTypeS := "ORACLE";
     FullSyncMeta.DBTypeT := "MYSQL";
     FullSyncMeta.SchemaNameS := "MARVIN";
     FullSyncMeta.TableNameS := tableName;
     FullSyncMeta.SchemaNameT := "DST";
     FullSyncMeta.TableNameT := tableName;
     FullSyncMeta.GlobalScnS := 42;
     FullSyncMeta.ColumnDetailS := "ID";
     FullSyncMeta.ChunkDetailS := chunk;
     FullSyncMeta.TaskMode := "CSV";
     FullSyncMeta.TaskStatus := status;
     FullSyncMeta.IsPartition := "NO";
     FullSyncMeta.CSVFile := "/data/csv/MARVIN/" ++ tableName ++ "/DST." ++ tableName ++ ".csv";
     FullSyncMeta.InfoDetail := "";
     FullSyncMeta.ErrorDetail := "" |}.

Definition state (tables : list WaitSyncMeta.t) (chunks : list FullSyncMeta.t) : State :=
  {| store := {| wait_sync_meta := tables; full_sync_meta := chunks |};
     calls := 0;
     trace := [] |}.

End sample.

(** ** Vocabulary of the properties *)

(** An emitted expression is the bare column name, or an expression
    aliased [AS] the column name. *)
Definition names_column (name expr : string) : Prop :=
  expr = name \/ exists e, expr = e ++ " AS " ++ name.

(** The TIMESTAMP branch of the compiler, as the code has it: scale 0
    gives the format without fraction, a negative scale gives [ff]
    followed by the text of the scale, and every positive scale gives
    [ff6]. *)
Definition timestamp_expr (name scaleText : string) (scale : Z) : string :=
  if scale =? 0 then
    common.StringsBuilder ["TO_CHAR("; name; ",'yyyy-mm-dd hh24:mi:ss') AS "; name]
  else if scale <? 0 then
    common.StringsBuilder
      ["TO_CHAR("; name; ",'yyyy-mm-dd hh24:mi:ss.ff"; scaleText; "') AS "; name]
  else
    common.StringsBuilder ["TO_CHAR("; name; ",'yyyy-mm-dd hh24:mi:ss.ff6') AS "; name].

(** The type names that the [switch] matches exactly. *)
Definition exact_types : list string :=
  ["NUMBER"]
  ++ ["DECIMAL"; "DEC"; "DOUBLE PRECISION"; "FLOAT"; "INTEGER"; "INT"; "REAL";
      "NUMERIC"; "BINARY_FLOAT"; "BINARY_DOUBLE"; "SMALLINT"]
  ++ ["BFILE"; "CHARACTER"; "LONG"; "NCHAR VARYING"; "ROWID"; "UROWID";
      "VARCHAR"; "CHAR"; "NCHAR"; "NVARCHAR2"; "NCLOB"; "CLOB"]
  ++ ["XMLTYPE"] ++ ["BLOB"; "LONG RAW"; "RAW"] ++ ["DATE"].

(** A catalog row with the given name and type. *)
Definition is_column (rowCol : gmap string string) (name dataType : string) : Prop :=
  at_key rowCol "COLUMN_NAME" = name /\ at_key rowCol "DATA_TYPE" = dataType.

(** The rows that [UpdateFullSyncMetaChunk] reaches for chunk [m]: the
    rows of the table of [m] with the predicate of [m]. *)
Definition is_chunk (m row : FullSyncMeta.t) : bool :=
  chunk_of_table m row
  && String.eqb (FullSyncMeta.ChunkDetailS m) (FullSyncMeta.ChunkDetailS row).

(** Chunk [m] is recorded FAILED with its diagnostic details: the rows
    of the chunk carry the status, the info and the error text, and are
    otherwise as before; no other row of the metadata database changes. *)
Definition recorded_failed (info detail : string) (m : FullSyncMeta.t)
  (before after : Store) : Prop :=
  wait_sync_meta after = wait_sync_meta before /\
  Forall2
    (fun old new =>
       if is_chunk m old then
         FullSyncMeta.TaskStatus new = common.TaskStatusFailed /\
         FullSyncMeta.InfoDetail new = info /\
         FullSyncMeta.ErrorDetail new = detail /\
         is_chunk m new = true /\
         FullSyncMeta.ColumnDetailS new = FullSyncMeta.ColumnDetailS old /\
         FullSyncMeta.CSVFile new = FullSyncMeta.CSVFile old
       else new = old)
    (full_sync_meta before) (full_sync_meta after).



(** The chunk rows of table [t] of the run. *)
Definition table_chunk (r : O2M) (t : string) (row : FullSyncMeta.t) : bool :=
  chunk_of_table (table_chunks r t "") row.

(** The chunk rows of table [t] in a given status. *)
Definition chunks_in (r : O2M) (t : string) (status : string) (db : Store)
  : list FullSyncMeta.t :=
  List.filter (fun row => table_chunk r t row && String.eqb status (FullSyncMeta.TaskStatus row))
    (full_sync_meta db).

(** The TableProgress row of [t] carries the status and the counters,
    and is otherwise as before; the other rows do not change. *)
Definition table_recorded (r : O2M) (t : string) (status : string) (ok failed : Z)
  (before after : list WaitSyncMeta.t) : Prop :=
  Forall2
    (fun old new =>
       if table_of_key (table_row r t) old then
         WaitSyncMeta.TaskStatus new = status /\
         WaitSyncMeta.ChunkSuccessNums new = ok /\
         WaitSyncMeta.ChunkFailedNums new = failed /\
         WaitSyncMeta.ChunkTotalNums new = WaitSyncMeta.ChunkTotalNums old /\
         WaitSyncMeta.GlobalScnS new = WaitSyncMeta.GlobalScnS old /\
         table_of_key (table_row r t) new = true
       else new = old)
    before after.

(** A source on which the column metadata of every cursor cannot be
    read, and closing the cursor answers [close]. *)
Definition no_columns (close : option error) : oracle.Oracle :=
  sample.source (fun _ => 5) []
    (fun _ => (Some (sample.cursor (Err (ExtError FromRows "sql: no Rows available")) close),
               None)).

(** The whole-table plan of table [t]: exactly one chunk row is added,
    with the predicate [1 = 1] and the projection of the table; the
    table has a row, every row of the table carries [ChunkTotalNums = 1]
    and no finished chunk, and the rows of the other tables are as
    before. *)
Definition whole_table_plan (r : O2M) (t projection : string) (before after : Store)
  : Prop :=
  (exists chunk,
     full_sync_meta after = (full_sync_meta before ++ [chunk])%list /\
     FullSyncMeta.ChunkDetailS chunk = "1 = 1" /\
     FullSyncMeta.ColumnDetailS chunk = projection /\
     FullSyncMeta.TaskStatus chunk = common.TaskStatusWaiting /\
     table_chunk r t chunk = true) /\
  Exists (fun row => table_of_key (table_row r t) row = true) (wait_sync_meta after) /\
  Forall (fun row =>
            table_of_key (table_row r t) row = true ->
            WaitSyncMeta.ChunkTotalNums row = 1 /\
            WaitSyncMeta.ChunkSuccessNums row = 0 /\
            WaitSyncMeta.ChunkFailedNums row = 0)
    (wait_sync_meta after) /\
  List.filter (fun row => negb (table_of_key (table_row r t) row)) (wait_sync_meta after)
  = List.filter (fun row => negb (table_of_key (table_row r t) row)) (wait_sync_meta before).

(** The calls on the splitter for the chunk task [taskName] up to the
    reading of its chunks. *)
Definition splitter_calls (r : O2M) (t taskName : string) : list Event :=
  [EvStartOracleChunkCreateTask taskName;
   EvStartOracleCreateChunkByRowID taskName
     (common.StringUPPER (config.OracleSchemaName (config.Oracle (Cfg r))))
     (common.StringUPPER t) (strconv.Itoa (config.Rows (config.CSV (Cfg r))));
   EvGetOracleTableChunksByRowID taskName].

(** The error of an unparsable TIMESTAMP scale. *)
Definition scale_error (scale : string) (err : error) : error :=
  Errorf "aujust oracle timestamp datatype scale [%s] strconv.Atoi failed: %v"
    [inl scale; inr err].

(** A computation that never panics. *)
Definition no_panic {A} (c : M A) : Prop :=
  forall st msg, fst (c st) <> Panic msg.

(** The chunk rows of the run of [r]. *)
Definition run_chunk (r : O2M) (row : FullSyncMeta.t) : bool :=
  chunk_of_run (table_chunks r "" "") row.

(** A row of [wait_sync_meta] made afresh for one of the tables [l]. *)
Definition fresh_row (r : O2M) (l : list string) (row : WaitSyncMeta.t) : Prop :=
  exists t, In t l /\ row = waiting_row r t.

Definition is_waiting (row : WaitSyncMeta.t) : bool :=
  String.eqb (WaitSyncMeta.TaskStatus row) common.TaskStatusWaiting.

(** The struct literal of the reset for one configured table, and what
    the reset does to the rows of that table: the WAITING rows of the
    table go, and a row is made afresh when no row of the table is left. *)
Definition reset_key (r : O2M) (tableName : string) : WaitSyncMeta.t :=
  WaitSyncMeta.lit (config.DBTypeS (Cfg r)) (config.DBTypeT (Cfg r))
    (common.StringUPPER (config.OracleSchemaName (config.Oracle (Cfg r))))
    tableName (config.TaskMode (Cfg r)) "".

Definition reset_table (r : O2M) (db : Store) (tableName : string) : Store :=
  let q := reset_key r tableName in
  let kept := List.filter (fun row => negb (table_of_key q row && is_waiting row))
                (wait_sync_meta db) in
  let left :=
    List.filter
      (fun row =>
         table_of_run q row
         && (unset (WaitSyncMeta.TableNameS q)
             || same (WaitSyncMeta.TableNameS q) (WaitSyncMeta.TableNameS row))
         && (unset (WaitSyncMeta.TaskStatus q) || table_has_status q row))
      kept in
  if (length left =? 0)%nat
  then meta.with_tables db (kept ++ [waiting_row r tableName])
  else meta.with_tables db kept.

(** The RUNNING tables of the run of [r]. *)
Definition running (r : O2M) (db : Store) : list WaitSyncMeta.t :=
  List.filter
    (fun row => table_of_run (run_tables r common.TaskStatusRunning) row
                && String.eqb common.TaskStatusRunning (WaitSyncMeta.TaskStatus row))
    (wait_sync_meta db).

(** The chunk rows stored for the table of row [t]. *)
Definition stored_chunks (t : WaitSyncMeta.t) (db : Store) : list FullSyncMeta.t :=
  List.filter
    (chunk_of_table
       (FullSyncMeta.lit (WaitSyncMeta.DBTypeS t) (WaitSyncMeta.DBTypeT t)
          (common.StringUPPER (WaitSyncMeta.SchemaNameS t)) (WaitSyncMeta.TableNameS t)
          (WaitSyncMeta.TaskMode t) "" ""))
    (full_sync_meta db).

(** The stored chunk rows of [t] are as many as its [ChunkTotalNums]. *)
Definition consistent (db : Store) (t : WaitSyncMeta.t) : Prop :=
  Z.of_nat (length (stored_chunks t db)) = WaitSyncMeta.ChunkTotalNums t.

Definition consistentb (db : Store) (t : WaitSyncMeta.t) : bool :=
  Z.of_nat (length (stored_chunks t db)) =? WaitSyncMeta.ChunkTotalNums t.

(** A computation that makes no call on the source, the cursors or the
    writer. *)
Definition keeps_trace {A} (c : M A) : Prop :=
  forall st, trace (snd (c st)) = trace st.

(** A gateway on which no call fails. *)
Definition healthy (r : O2M) : Prop :=
  forall n, meta.fault (MetaDB r) n = None.

(** ** Further vocabulary: the projection, the planner and the executor *)

(** The catalog row reaches the TIMESTAMP branch of the compiler: its
    type is none of the exactly matched names, does not contain
    [INTERVAL] and contains [TIMESTAMP]. *)
Definition reaches_timestamp (rowCol : gmap string string) : bool :=
  negb (is_one_of (strings.ToUpper (at_key rowCol "DATA_TYPE")) exact_types)
  && negb (strings.Contains (at_key rowCol "DATA_TYPE") "INTERVAL")
  && strings.Contains (at_key rowCol "DATA_TYPE") "TIMESTAMP".

(** The scale of a TIMESTAMP row cannot be parsed, with the error of
    the parse. *)
Definition bad_scale (rowCol : gmap string string) (err : error) : Prop :=
  reaches_timestamp rowCol = true /\
  strconv.Atoi (at_key rowCol "DATA_SCALE") = Err err.

Definition good_scale (rowCol : gmap string string) : Prop :=
  reaches_timestamp rowCol = true ->
  exists scale, strconv.Atoi (at_key rowCol "DATA_SCALE") = Ok scale.

(** A computation whose calls on the source, the cursors and the writer
    all satisfy [P]. *)
Definition adds_only {A} (P : Event -> Prop) (c : M A) : Prop :=
  forall st, exists evs, trace (snd (c st)) = (trace st ++ evs)%list /\ Forall P evs.

(** A call on the chunk splitter of the source. *)
Definition splitter_event (ev : Event) : Prop :=
  match ev with
  | EvStartOracleChunkCreateTask _
  | EvStartOracleCreateChunkByRowID _ _ _ _
  | EvGetOracleTableChunksByRowID _
  | EvCloseOracleChunkTask _ => True
  | _ => False
  end.

(** A call made for chunk [m]: opening or closing the cursor of its
    query, or writing its file. *)
Definition event_of_chunk (m : FullSyncMeta.t) (ev : Event) : Prop :=
  ev = EvQueryContext (chunk_querySQL m) \/
  ev = EvRowsClose (chunk_querySQL m) \/
  ev = EvWriteFile (FullSyncMeta.CSVFile m).

(** A chunk row of table [t] that waits or has failed. *)
Definition pending_chunk (r : O2M) (t : string) (db : Store) (m : FullSyncMeta.t) : Prop :=
  In m (full_sync_meta db) /\
  table_chunk r t m = true /\
  (FullSyncMeta.TaskStatus m = common.TaskStatusWaiting \/
   FullSyncMeta.TaskStatus m = common.TaskStatusFailed).

(** Chunk [m] is recorded SUCCESS: the rows of the chunk carry the
    status and are otherwise as before, diagnostic details included; no
    other row of the metadata database changes. *)
Definition recorded_success (m : FullSyncMeta.t) (before after : Store) : Prop :=
  wait_sync_meta after = wait_sync_meta before /\
  Forall2
    (fun old new =>
       if is_chunk m old then
         FullSyncMeta.TaskStatus new = common.TaskStatusSuccess /\
         FullSyncMeta.InfoDetail new = FullSyncMeta.InfoDetail old /\
         FullSyncMeta.ErrorDetail new = FullSyncMeta.ErrorDetail old /\
         is_chunk m new = true /\
         FullSyncMeta.ColumnDetailS new = FullSyncMeta.ColumnDetailS old /\
         FullSyncMeta.CSVFile new = FullSyncMeta.CSVFile old
       else new = old)
    (full_sync_meta before) (full_sync_meta after).

(** The error of a run without output directory. *)
Definition no_output_dir : error :=
  Errorf "csv config paramter output-dir can't be null, please configure" [].

(** The error of a run on a source older than the required version. *)
Definition version_too_old (oraDBVersion : string) : error :=
  Errorf "oracle db version [%v] is less than 11g, can't be using transferdb tools"
    [inl oraDBVersion].

(** The error of a run that finds a FAILED table. *)
Definition prior_failure (r : O2M) : error :=
  Errorf "csv schema [%s] mode [%s] table task failed: meta table [wait_sync_meta] exist failed error, please: firstly check meta table [wait_sync_meta] and [full_sync_meta] log record; secondly if need resume, update meta table [wait_sync_meta] column [task_status] table status RUNNING (Need UPPER); finally rerunning"
    [inl (strings.ToUpper (config.OracleSchemaName (config.Oracle (Cfg r))));
     inl (config.TaskMode (Cfg r))].

(** The FAILED tables of the run of [r]. *)
Definition failed_tables (r : O2M) (db : Store) : list WaitSyncMeta.t :=
  List.filter
    (fun row => table_of_run (run_tables r common.TaskStatusFailed) row
                && String.eqb common.TaskStatusFailed (WaitSyncMeta.TaskStatus row))
    (wait_sync_meta db).

(** The rows that [CSV] reads for the configured table [tableName]
    before it records it, and what recording does. *)
Definition rows_of_table (r : O2M) (tableName : string) (db : Store) : list WaitSyncMeta.t :=
  let q := table_row r tableName in
  List.filter
    (fun row =>
       table_of_run q row
       && (unset (WaitSyncMeta.TableNameS q)
           || same (WaitSyncMeta.TableNameS q) (WaitSyncMeta.TableNameS row))
       && (unset (WaitSyncMeta.TaskStatus q) || table_has_status q row))
    (wait_sync_meta db).

Definition ensure_table (r : O2M) (db : Store) (tableName : string) : Store :=
  if (length (rows_of_table r tableName db) =? 0)%nat
  then meta.with_tables db (wait_sync_meta db ++ [waiting_row r tableName])
  else db.

(** The chunk rows of a plan: one per predicate of the splitter, in its
    order, each with the projection, in WAITING, with the file of its
    index. *)
Definition planned_chunks (pkg : Package) (r : O2M) (t targetTableName projection : string)
  (chunkRes : list (gmap string string)) (chunks : list FullSyncMeta.t) : Prop :=
  map FullSyncMeta.ChunkDetailS chunks = map (fun res => at_key res "CMD") chunkRes /\
  Forall (fun c =>
            FullSyncMeta.ColumnDetailS c = projection /\
            FullSyncMeta.TaskStatus c = common.TaskStatusWaiting /\
            table_chunk r t c = true) chunks /\
  forall (i : nat) c,
    chunks !! i = Some c ->
    FullSyncMeta.CSVFile c
    = csvFile_of pkg r t targetTableName (strconv.Itoa (Z.of_nat i)).

(** The target table name that the planner uses for table [t]. *)
Definition target_of (tableNameRule : gmap string string) (t : string) : string :=
  match tableNameRule !! common.StringUPPER t with
  | Some val => val
  | None => common.StringUPPER t
  end.

(** A configuration without output directory. *)
Definition no_dir_cfg : config.Config :=
  {| config.DBTypeS := "ORACLE";
     config.DBTypeT := "MYSQL";
     config.TaskMode := "CSV";
     config.Oracle := {| config.OracleSchemaName := "marvin" |};
     config.MySQL := {| config.MySQLSchemaName := "dst" |};
     config.App := {| config.InsertBatchSize := 100 |};
     config.CSV :=
       {| config.EnableCheckpoint := true;
          config.OutputDir := "";
          config.Rows := 1000;
          config.TaskThreads := 2;
          config.TableThreads := 2;
          config.SQLThreads := 2 |} |}.

(** Two chunks of a table, as the splitter returns them. *)
Definition two_chunks : list (gmap string string) :=
  [ {[ "CMD" := "ROWID BETWEEN 'a' AND 'b'" ]}; {[ "CMD" := "ROWID BETWEEN 'c' AND 'd'" ]} ].

(** A source of version 10.2, older than the export requires. *)
Definition old_source : oracle.Oracle :=
  {| oracle.GetOracleDBVersion := Ok "10.2";
     oracle.GetOracleDBCharacterSet := Ok "AL32UTF8";
     oracle.GetOracleCurrentSnapshotSCN := Ok 42;
     oracle.GetOracleSchemaPartitionTable := fun _ => Ok [];
     oracle.GetOracleSchemaTableColumn := fun _ tableName _ => sample.catalog tableName;
     oracle.GetOracleTableRowsByStatistics := fun _ _ => Ok 0;
     oracle.StartOracleChunkCreateTask := fun _ => None;
     oracle.StartOracleCreateChunkByRowID := fun _ _ _ _ => None;
     oracle.GetOracleTableChunksByRowID := fun _ => Ok [];
     oracle.CloseOracleChunkTask := fun _ => None;
     oracle.QueryContext := sample.good_cursor |}.

(** The rows that recording the configured tables adds: each is the
    WAITING row of a configured table that had no row. *)
Definition recorded_for (r : O2M) (exporters : list string) (before : Store)
  (row : WaitSyncMeta.t) : Prop :=
  exists tableName,
    In tableName exporters /\
    row = waiting_row r tableName /\
    rows_of_table r tableName before = [].

(** The TableProgress side of a plan of [n] chunks for table [t]: the
    table has a row, every row of the table carries [ChunkTotalNums = n]
    and no finished chunk, and the rows of the other tables are as
    before. *)
Definition table_planned (r : O2M) (t : string) (n : Z) (before after : Store) : Prop :=
  Exists (fun row => table_of_key (table_row r t) row = true) (wait_sync_meta after) /\
  Forall (fun row =>
            table_of_key (table_row r t) row = true ->
            WaitSyncMeta.ChunkTotalNums row = n /\
            WaitSyncMeta.ChunkSuccessNums row = 0 /\
            WaitSyncMeta.ChunkFailedNums row = 0)
    (wait_sync_meta after) /\
  List.filter (fun row => negb (table_of_key (table_row r t) row)) (wait_sync_meta after)
  = List.filter (fun row => negb (table_of_key (table_row r t) row)) (wait_sync_meta before).

(** [tableNameRuleMap], as [CSV] builds it from the custom table names
    before it plans the waiting tables. *)
Definition tableNameRuleMap (tableNameRules : list (string * string)) : gmap string string :=
  fold_left (fun m tr => <[common.StringUPPER (fst tr) := common.StringUPPER (snd tr)]> m)
    tableNameRules (∅ : gmap string string).

(** A call on a cursor or on the writer. *)
Definition cursor_event (ev : Event) : Prop :=
  match ev with
  | EvQueryContext _ | EvRowsClose _ | EvWriteFile _ => True
  | _ => False
  end.

(** The query that exports the chunk with predicate [chunk] of table
    [t] with the projection [projection]. *)
Definition export_query (r : O2M) (t projection chunk : string) : string :=
  common.StringsBuilder
    ["SELECT "; projection; " FROM ";
     common.StringUPPER (config.OracleSchemaName (config.Oracle (Cfg r))); ".";
     common.StringUPPER t; " WHERE "; chunk].

(** * Package [reverser]: the tables of a reverse task

    [GenerateOracleToMySQLTables] builds, for the tables to convert, the
    records that carry their names and their custom column type rules.
    The engine, the rule types of package [service] and the helpers of
    package [utils] are outside the sources at hand: the function is
    embedded over them as parameters.
    - A Go [(v, err)] pair of an engine call is a pair of the value and
      an [option error]: the function returns the value of the first
      call also when the call fails.
    - A Go [map[string][]ColumnType] is a [gmap string (list ColumnType.t)];
      indexing a missing key yields the nil slice.
    - A slice is a list.  The slices of the map are updated in place and
      by [append]; only the values of their elements are modelled, which
      is all that the function and its callers read. *)

Module reverser.

Module ColumnType.

Record t := {
  SourceColumnType : string;
  TargetColumnType : string
}.

End ColumnType.

Module TableName.

Record t := {
  SourceTableName : string;
  TargetTableName : string
}.

End TableName.

Module Table.

(** The fields of [Table] that [GenerateOracleToMySQLTables] sets. *)
Record t (E : Type) := {
  SourceSchemaName : string;
  TargetSchemaName : string;
  SourceTableName : string;
  TargetTableName : string;
  ColumnTypes : list ColumnType.t;
  Engine : E;
  Overwrite : bool
}.
Arguments SourceSchemaName {E} _.
Arguments TargetSchemaName {E} _.
Arguments SourceTableName {E} _.
Arguments TargetTableName {E} _.
Arguments ColumnTypes {E} _.
Arguments Engine {E} _.
Arguments Overwrite {E} _.

End Table.

(** [columnTypesMap[tbl]]: the nil slice on a missing key. *)
Definition at_table (columnTypesMap : gmap string (list ColumnType.t)) (tbl : string)
  : list ColumnType.t :=
  match columnTypesMap !! tbl with
  | Some colTypes => colTypes
  | None => []
  end.

(** [s[idx].TargetColumnType = v]. *)
Definition set_target (v : string) (col : ColumnType.t) : ColumnType.t :=
  {| ColumnType.SourceColumnType := ColumnType.SourceColumnType col;
     ColumnType.TargetColumnType := v |}.

Section GenerateTables.

(** [*service.Engine] and the three reads that the function makes. *)
Context {Engine : Type}.
Variable FilterOraclePartitionTable :
  Engine -> string -> list string -> list string * option error.

(** [service.CustomSchemaColumnTypeMap]: its field [SourceColumnType]
    and its method [GetCustomSchemaColumnType]. *)
Context {CustomSchemaColumnTypeMap : Type}.
Variable Schema_SourceColumnType : CustomSchemaColumnTypeMap -> string.
Variable GetCustomSchemaColumnType : CustomSchemaColumnTypeMap -> string.
Variable GetCustomSchemaColumnTypeMap :
  Engine -> string -> list CustomSchemaColumnTypeMap * option error.

(** [service.CustomTableColumnTypeMap]: its fields [SourceTableName]
    and [SourceColumnType] and its method [GetCustomTableColumnType]. *)
Context {CustomTableColumnTypeMap : Type}.
Variable Table_SourceTableName : CustomTableColumnTypeMap -> string.
Variable Table_SourceColumnType : CustomTableColumnTypeMap -> string.
Variable GetCustomTableColumnType : CustomTableColumnTypeMap -> string -> string.
Variable GetCustomTableColumnTypeMap :
  Engine -> string -> list CustomTableColumnTypeMap * option error.

(** [utils.IsContainString] and [utils.FilterDifferenceStringItems]. *)
Variable IsContainString : list string -> string -> bool.
Variable FilterDifferenceStringItems : list string -> list string -> list string.

(** The schema-level rules as column types: the inner loop over
    [customSchemaColumnTypeSlice]. *)
Definition schemaColTypes (customSchemaColumnTypeSlice : list CustomSchemaColumnTypeMap)
  : list ColumnType.t :=
  map (fun tblName =>
         {| ColumnType.SourceColumnType := Schema_SourceColumnType tblName;
            ColumnType.TargetColumnType := GetCustomSchemaColumnType tblName |})
    customSchemaColumnTypeSlice.

(** The table-level rules as column types of table [tbl]: the inner loop
    over [customTableColumnTypeSlice] of the second case. *)
Definition tableColTypes (customTableColumnTypeSlice : list CustomTableColumnTypeMap)
  (tbl : string) : list ColumnType.t :=
  map (fun tblName =>
         {| ColumnType.SourceColumnType := Table_SourceColumnType tblName;
            ColumnType.TargetColumnType := GetCustomTableColumnType tblName tbl |})
    customTableColumnTypeSlice.

(** [for _, tbl := range tables { columnTypesMap[tbl] = colTypes }]. *)
Definition load (colTypes : string -> list ColumnType.t) (tables : list string)
  (columnTypesMap : gmap string (list ColumnType.t)) : gmap string (list ColumnType.t) :=
  fold_left (fun m tbl => <[tbl := colTypes tbl]> m) tables columnTypesMap.

(** [for idx, col := range tmpColTypes { ... }] for the table rule
    [tblName]: an entry of [tmpColTypes] with the source type of the
    rule, up to case, has its target set at its index in the slice of
    the map; for any other entry a column type of the rule is appended
    to the slice of the map.  The index is within the slice of the map,
    which starts as [tmpColTypes] and only grows. *)
Fixpoint applyTableRule (tblName : CustomTableColumnTypeMap) (idx : nat)
  (tmpColTypes : list ColumnType.t) (columnTypesMap : gmap string (list ColumnType.t))
  : gmap string (list ColumnType.t) :=
  match tmpColTypes with
  | [] => columnTypesMap
  | col :: rest =>
      let name := Table_SourceTableName tblName in
      applyTableRule tblName (S idx) rest
        (if String.eqb (strings.ToUpper (Table_SourceColumnType tblName))
              (strings.ToUpper (ColumnType.SourceColumnType col))
         then
           <[name := alter (set_target (GetCustomTableColumnType tblName name)) idx
                       (at_table columnTypesMap name)]> columnTypesMap
         else
           <[name := (at_table columnTypesMap name
                      ++ [{| ColumnType.SourceColumnType := Table_SourceColumnType tblName;
                             ColumnType.TargetColumnType :=
                               GetCustomTableColumnType tblName name |}])%list]>
             columnTypesMap)
  end.

(** [for _, tblName := range customTableColumnTypeSlice { ... }] of the
    third case, on [columnTypesMap] and [customTableSlice]. *)
Definition applyTableRules (exporterTableSlice : list string)
  (customTableColumnTypeSlice : list CustomTableColumnTypeMap)
  (columnTypesMap : gmap string (list ColumnType.t))
  : gmap string (list ColumnType.t) * list string :=
  fold_left
    (fun acc tblName =>
       if IsContainString exporterTableSlice (Table_SourceTableName tblName) then
         (applyTableRule tblName 0 (at_table (fst acc) (Table_SourceTableName tblName))
            (fst acc),
          (snd acc ++ [Table_SourceTableName tblName])%list)
       else acc)
    customTableColumnTypeSlice (columnTypesMap, []).

(** The [switch] that loads the column type rules. *)
Definition loadColumnTypes (exporterTableSlice : list string)
  (customSchemaColumnTypeSlice : list CustomSchemaColumnTypeMap)
  (customTableColumnTypeSlice : list CustomTableColumnTypeMap)
  : gmap string (list ColumnType.t) :=
  if negb (length customSchemaColumnTypeSlice =? 0)%nat
     && (length customTableColumnTypeSlice =? 0)%nat then
    load (fun _ => schemaColTypes customSchemaColumnTypeSlice) exporterTableSlice ∅
  else if (length customSchemaColumnTypeSlice =? 0)%nat
          && negb (length customTableColumnTypeSlice =? 0)%nat then
    load (tableColTypes customTableColumnTypeSlice) exporterTableSlice ∅
  else if negb (length customSchemaColumnTypeSlice =? 0)%nat
          && negb (length customTableColumnTypeSlice =? 0)%nat then
    let columnTypesMap :=
      load (fun _ => schemaColTypes customSchemaColumnTypeSlice) exporterTableSlice ∅ in
    let '(columnTypesMap, customTableSlice) :=
      applyTableRules exporterTableSlice customTableColumnTypeSlice columnTypesMap in
    let notLayInCustomTableSlice :=
      FilterDifferenceStringItems exporterTableSlice customTableSlice in
    load (fun _ => schemaColTypes customSchemaColumnTypeSlice) notLayInCustomTableSlice
      columnTypesMap
  else ∅.

(** [for _, t := range tableNameSlice { ... }] on the two name fields of
    [table], which start as the zero value. *)
Definition tableNames (tableNameSlice : list (gmap string TableName.t)) (tbl : string)
  : string * string :=
  fold_left
    (fun names t =>
       match t !! tbl with
       | Some tableName =>
           (TableName.SourceTableName tableName, TableName.TargetTableName tableName)
       | None => (tbl, snd names)
       end)
    tableNameSlice ("", "").

Definition GenerateOracleToMySQLTables (engine : Engine) (exporterTableSlice : list string)
  (sourceSchema targetSchema : string) (overwrite : bool)
  : list (Table.t Engine) * list string * option error :=
  let '(partitionTables, err) :=
    FilterOraclePartitionTable engine sourceSchema exporterTableSlice in
  match err with
  | Some err => ([], partitionTables, Some err)
  | None =>
      let tableNameSlice :=
        map (fun tbl =>
               ({[ tbl := {| TableName.SourceTableName := tbl;
                             TableName.TargetTableName := tbl |} ]}
                : gmap string TableName.t))
          exporterTableSlice in
      let '(customSchemaColumnTypeSlice, err) :=
        GetCustomSchemaColumnTypeMap engine sourceSchema in
      match err with
      | Some err => ([], partitionTables, Some err)
      | None =>
          let '(customTableColumnTypeSlice, err) :=
            GetCustomTableColumnTypeMap engine sourceSchema in
          match err with
          | Some err => ([], partitionTables, Some err)
          | None =>
              let columnTypesMap :=
                loadColumnTypes exporterTableSlice customSchemaColumnTypeSlice
                  customTableColumnTypeSlice in
              (map (fun tbl =>
                      {| Table.SourceSchemaName := sourceSchema;
                         Table.TargetSchemaName := targetSchema;
                         Table.SourceTableName := fst (tableNames tableNameSlice tbl);
                         Table.TargetTableName := snd (tableNames tableNameSlice tbl);
                         Table.ColumnTypes := at_table columnTypesMap tbl;
                         Table.Engine := engine;
                         Table.Overwrite := overwrite |})
                 exporterTableSlice,
               partitionTables, None)
          end
      end
  end.

End GenerateTables.

(** ** [reverseOracleToMySQLTableInspect]: the checks before a reverse task *)

(** The statements that the inspection runs on the target database. *)
Inductive Statement : Type :=
| Query (sql : string)
| RenameMySQLTableName (schemaName tableName : string).

Module SourceConfig.

Record t := {
  SchemaName : string;
  IncludeTable : list string;
  ExcludeTable : list string
}.

End SourceConfig.

Module TargetConfig.

Record t := {
  SchemaName : string;
  Overwrite : bool
}.

End TargetConfig.

Record CfgFile := {
  SourceConfig : SourceConfig.t;
  TargetConfig : TargetConfig.t
}.

(** What the inspection asks of [*service.Engine].  The reads answer as
    the databases stand when the inspection starts; a statement answers
    with its error, if any, given the statements run before it. *)
Record Inspector := {
  IsExistOracleSchema : string -> option error;
  IsExistMySQLSchema : string -> bool * option error;
  IsExistOracleTable : string -> list string -> option error;
  FilterDifferenceOracleTable : string -> list string -> list string * option error;
  FilterIntersectionMySQLTable : string -> list string -> list string * option error;
  run : list Statement -> Statement -> option error
}.

(** [for _, tbl := range existMysqlTables { ... }]: the statements run
    so far, and the error that ends the loop, if any. *)
Fixpoint renameTables (engine : Inspector) (cfg : CfgFile) (existMysqlTables : list string)
  (done : list Statement) : option error * list Statement :=
  match existMysqlTables with
  | [] => (None, done)
  | tbl :: rest =>
      if TargetConfig.Overwrite (TargetConfig cfg) then
        let rename :=
          RenameMySQLTableName (TargetConfig.SchemaName (TargetConfig cfg)) tbl in
        match run engine done rename with
        | Some err => (Some err, (done ++ [rename])%list)
        | None => renameTables engine cfg rest (done ++ [rename])%list
        end
      else
        (* the table is skipped, with a warning *)
        renameTables engine cfg rest done
  end.

(** The error that the inspection returns and the statements it has
    run, in their order. *)
Definition reverseOracleToMySQLTableInspect (engine : Inspector) (cfg : CfgFile)
  : option error * list Statement :=
  match IsExistOracleSchema engine (SourceConfig.SchemaName (SourceConfig cfg)) with
  | Some err => (Some err, [])
  | None =>
      let '(ok, err) :=
        IsExistMySQLSchema engine (TargetConfig.SchemaName (TargetConfig cfg)) in
      match err with
      | Some err => (Some err, [])
      | None =>
          if negb ok then
            let create :=
              Query (fmt.Sprintf "CREATE DATABASE IF NOT EXISTS %s"
                       [TargetConfig.SchemaName (TargetConfig cfg)]) in
            (run engine [] create, [create])
          else
            let included :=
              if negb (length (SourceConfig.IncludeTable (SourceConfig cfg)) =? 0)%nat
              then
                match IsExistOracleTable engine (SourceConfig.SchemaName (SourceConfig cfg))
                        (SourceConfig.IncludeTable (SourceConfig cfg)) with
                | Some err => Err err
                | None => Ok (SourceConfig.IncludeTable (SourceConfig cfg))
                end
              else Ok [] in
            match included with
            | Err err => (Some err, [])
            | Ok exporterTableSlice =>
                let excluded :=
                  if negb (length (SourceConfig.ExcludeTable (SourceConfig cfg)) =? 0)%nat
                  then
                    FilterDifferenceOracleTable engine
                      (SourceConfig.SchemaName (SourceConfig cfg))
                      (SourceConfig.ExcludeTable (SourceConfig cfg))
                  else (exporterTableSlice, None) in
                let '(exporterTableSlice, err) := excluded in
                match err with
                | Some err => (Some err, [])
                | None =>
                    let '(existMysqlTables, err) :=
                      FilterIntersectionMySQLTable engine
                        (TargetConfig.SchemaName (TargetConfig cfg)) exporterTableSlice in
                    match err with
                    | Some err => (Some err, [])
                    | None => renameTables engine cfg existMysqlTables []
                    end
                end
            end
      end
  end.

End reverser.

(** ** Vocabulary of the reverse task *)

(** The first error of a sequence of reads. *)
Fixpoint first_error (errs : list (option error)) : option error :=
  match errs with
  | [] => None
  | Some e :: _ => Some e
  | None :: rest => first_error rest
  end.

(** A column type whose source type is [sourceColumnType], up to case. *)
Definition has_source_type (sourceColumnType : string) (col : reverser.ColumnType.t) : bool :=
  String.eqb (strings.ToUpper sourceColumnType)
    (strings.ToUpper (reverser.ColumnType.SourceColumnType col)).

(** What a table rule with source type [sourceColumnType] and target
    [target] makes of the column types [colTypes] of its table: the
    entries of that source type take the target of the rule, and for
    every other entry one column type of the rule is added at the end. *)
Definition rule_result (sourceColumnType target : string)
  (colTypes : list reverser.ColumnType.t) : list reverser.ColumnType.t :=
  (map (fun col =>
          if has_source_type sourceColumnType col then reverser.set_target target col else col)
     colTypes
   ++ map (fun _ =>
             {| reverser.ColumnType.SourceColumnType := sourceColumnType;
                reverser.ColumnType.TargetColumnType := target |})
        (List.filter (fun col => negb (has_source_type sourceColumnType col)) colTypes))%list.

(** Sample rules: a schema rule is a pair of a source and a target type,
    a table rule a table name with such a pair. *)
Definition sample_schema_rules : list (string * string) :=
  [("NUMBER", "DECIMAL(65,30)"); ("DATE", "DATETIME")].

Definition sample_table_rules : list (string * (string * string)) :=
  [("T", ("number", "BIGINT"))].

(** The loop of a table rule on the slice of its table alone. *)
Fixpoint rule_loop (sourceColumnType target : string) (idx : nat)
  (tmpColTypes colTypes : list reverser.ColumnType.t) : list reverser.ColumnType.t :=
  match tmpColTypes with
  | [] => colTypes
  | col :: rest =>
      rule_loop sourceColumnType target (S idx) rest
        (if has_source_type sourceColumnType col
         then alter (reverser.set_target target) idx colTypes
         else (colTypes ++ [{| reverser.ColumnType.SourceColumnType := sourceColumnType;
                               reverser.ColumnType.TargetColumnType := target |}])%list)
  end.

(** A sample run of [GenerateOracleToMySQLTables]: the engine answers
    every read, with the given rules. *)
Definition sample_generate (schemaRules : list (string * string))
  (rules : list (string * (string * string))) (exporterTableSlice : list string)
  : list (reverser.Table.t unit) * list string * option error :=
  reverser.GenerateOracleToMySQLTables
    (fun _ _ _ => ([], None))
    fst snd (fun _ _ => (schemaRules, None))
    fst (fun tblName => fst (snd tblName)) (fun tblName _ => snd (snd tblName))
    (fun _ _ => (rules, None))
    common.IsContainString common.FilterDifferenceStringItems
    tt exporterTableSlice "marvin" "dst" true.

Definition sample_table (tbl : string) (colTypes : list reverser.ColumnType.t)
  : reverser.Table.t unit :=
  {| reverser.Table.SourceSchemaName := "marvin";
     reverser.Table.TargetSchemaName := "dst";
     reverser.Table.SourceTableName := tbl;
     reverser.Table.TargetTableName := tbl;
     reverser.Table.ColumnTypes := colTypes;
     reverser.Table.Engine := tt;
     reverser.Table.Overwrite := true |}.

Definition sample_col (sourceColumnType targetColumnType : string) : reverser.ColumnType.t :=
  {| reverser.ColumnType.SourceColumnType := sourceColumnType;
     reverser.ColumnType.TargetColumnType := targetColumnType |}.

(** * Properties *)

#[local] Arguments String.append : simpl nomatch.

(** ** The projection compiler *)

Lemma append_assoc (a b c : string) : (a ++ b) ++ c = a ++ (b ++ c).
Proof. induction a as [|x a IH]; simpl; [reflexivity | f_equal; exact IH]. Qed.

Lemma append_nil_r (a : string) : a ++ "" = a.
Proof. induction a as [|x a IH]; simpl; [reflexivity | f_equal; exact IH]. Qed.

Lemma xmlserialize_text (n : string) :
  fmt.Sprintf " XMLSERIALIZE(CONTENT %s AS CLOB) AS %s" [n; n]
  = (" XMLSERIALIZE(CONTENT " ++ n ++ " AS CLOB)") ++ " AS " ++ n.
Proof.
  rewrite !append_assoc.
  change (fmt.Sprintf " XMLSERIALIZE(CONTENT %s AS CLOB) AS %s" [n; n])
    with (" XMLSERIALIZE(CONTENT " ++ n ++ " AS CLOB) AS " ++ n ++ "").
  now rewrite append_nil_r.
Qed.

Lemma to_char_text (n pattern : string) :
  common.StringsBuilder ["TO_CHAR("; n; pattern ++ " AS "; n]
  = ("TO_CHAR(" ++ n ++ pattern) ++ " AS " ++ n.
Proof.
  unfold common.StringsBuilder. cbn [String.concat].
  rewrite !append_assoc. reflexivity.
Qed.

Lemma selectColumn_names rowCol expr :
  selectColumn rowCol = Ok expr ->
  names_column (at_key rowCol "COLUMN_NAME") expr.
Proof.
  unfold selectColumn, names_column.
  generalize (at_key rowCol "COLUMN_NAME") as name.
  generalize (at_key rowCol "DATA_SCALE") as scale.
  intros scale name.
  repeat match goal with
         | |- context [if ?b then _ else _] => destruct b
         | |- context [match ?res with Ok _ => _ | Err _ => _ end] => destruct res
         end;
    intros [= <-]; try (left; reflexivity); right.
  - eexists. apply xmlserialize_text.
  - eexists. apply (to_char_text name ",'yyyy-MM-dd HH24:mi:ss')").
  - eexists. apply (to_char_text name ")").
  - eexists. apply (to_char_text name ",'yyyy-mm-dd hh24:mi:ss')").
  - exists ("TO_CHAR(" ++ name ++ ",'yyyy-mm-dd hh24:mi:ss.ff" ++ scale ++ "')").
    rewrite !append_assoc. reflexivity.
  - eexists. apply (to_char_text name ",'yyyy-mm-dd hh24:mi:ss.ff6')").
Qed.

Lemma selectColumns_names columnsINFO : forall columnNames out,
  selectColumns columnsINFO columnNames = Ok out ->
  exists exprs,
    out = (columnNames ++ exprs)%list /\
    Forall2 (fun rowCol expr => names_column (at_key rowCol "COLUMN_NAME") expr)
      columnsINFO exprs.
Proof.
  induction columnsINFO as [|rowCol rest IH]; intros columnNames out H; simpl in H.
  - injection H as <-. exists []. split; [now rewrite app_nil_r | constructor].
  - destruct (selectColumn rowCol) as [expr|e] eqn:E; [|discriminate].
    apply IH in H as (exprs & -> & HF).
    exists (expr :: exprs). split.
    + now rewrite <- app_assoc.
    + constructor; [now apply selectColumn_names | exact HF].
Qed.

(** C10.  Whenever the projection compiler succeeds, its result is the
    comma-join of one expression per catalog column, in the order of the
    catalog, and the expression of a column is the column name itself or
    an expression aliased [AS] that column name. *)
Theorem projection_one_expression_per_column
  (Cfg : config.Config) (Oracle : oracle.Oracle) (sourceTable : string)
  (oracleCollation : bool) (projection : string) :
  adjustTableSelectColumn Cfg Oracle sourceTable oracleCollation = Ok projection ->
  exists columnsINFO exprs,
    oracle.GetOracleSchemaTableColumn Oracle
      (config.OracleSchemaName (config.Oracle Cfg)) sourceTable oracleCollation
      = Ok columnsINFO /\
    projection = strings.Join exprs "," /\
    length exprs = length columnsINFO /\
    Forall2 (fun rowCol expr => names_column (at_key rowCol "COLUMN_NAME") expr)
      columnsINFO exprs.
Proof.
  unfold adjustTableSelectColumn.
  destruct (oracle.GetOracleSchemaTableColumn _ _ _ _) as [columnsINFO|e]; [|discriminate].
  destruct (selectColumns columnsINFO []) as [columnNames|e] eqn:E; [|discriminate].
  intros [= <-].
  apply selectColumns_names in E as (exprs & -> & HF).
  exists columnsINFO, exprs. simpl. repeat split; try assumption.
  symmetry. eapply Forall2_length; eauto.
Qed.

Lemma projection_one_expression_per_column_witness :
  exists columnsINFO exprs,
    sample.catalog "T" = Ok columnsINFO /\
    "ID,TO_CHAR(TS,'yyyy-mm-dd hh24:mi:ss.ff6') AS TS" = strings.Join exprs "," /\
    length exprs = length columnsINFO /\
    Forall2 (fun rowCol expr => names_column (at_key rowCol "COLUMN_NAME") expr)
      columnsINFO exprs.
Proof.
  apply (projection_one_expression_per_column (sample.cfg true)
           (sample.source (fun _ => 0) [] sample.good_cursor) "T" false).
  reflexivity.
Defined.

Lemma selectColumn_timestamp (rowCol : gmap string string) (scale : Z) :
  is_one_of (strings.ToUpper (at_key rowCol "DATA_TYPE")) exact_types = false ->
  strings.Contains (at_key rowCol "DATA_TYPE") "INTERVAL" = false ->
  strings.Contains (at_key rowCol "DATA_TYPE") "TIMESTAMP" = true ->
  strconv.Atoi (at_key rowCol "DATA_SCALE") = Ok scale ->
  selectColumn rowCol
  = Ok (timestamp_expr (at_key rowCol "COLUMN_NAME") (at_key rowCol "DATA_SCALE") scale).
Proof.
  unfold selectColumn, timestamp_expr, exact_types, is_one_of.
  rewrite !existsb_app, !orb_false_iff.
  intros (-> & -> & -> & -> & -> & ->) -> -> ->.
  destruct (scale =? 0) eqn:E0; [reflexivity|].
  destruct (scale <? 0) eqn:E1; [|reflexivity].
  assert ((scale <=? 6) = true) as -> by lia. reflexivity.
Qed.

(** C1.  The catalog [ID NUMBER, TS TIMESTAMP(3)], whose [TS] has scale 3:
    the compiler emits the format [ff6] for [TS], where a scale between
    1 and 6 was to give [ff3]. *)
Theorem timestamp_scale_3_is_formatted_ff6 :
  adjustTableSelectColumn (sample.cfg true)
    (sample.source (fun _ => 0) [] sample.good_cursor) "T" false
  = Ok "ID,TO_CHAR(TS,'yyyy-mm-dd hh24:mi:ss.ff6') AS TS".
Proof. reflexivity. Qed.

Lemma Ok_inj {A} (a b : A) : Ok a = Ok b -> a = b.
Proof. intros H. injection H as H. exact H. Qed.

Lemma sample_edge_cases :
  adjustTableSelectColumn (sample.cfg true)
    (sample.source (fun _ => 0) [] sample.good_cursor) "E" false
  = Ok "TO_CHAR(D,'yyyy-MM-dd HH24:mi:ss') AS D,TO_CHAR(I) AS I, XMLSERIALIZE(CONTENT X AS CLOB) AS X,N,R".
Proof. reflexivity. Qed.

(** C7, as amended.  For the catalog [D DATE; I INTERVAL DAY TO SECOND;
    X XMLTYPE; N NUMBER; R RAW] the compiler returns the projection of
    the scenario with a blank in front of [XMLSERIALIZE]. *)
Theorem edge_case_projection
  (Cfg : config.Config) (Oracle : oracle.Oracle) (sourceTable : string)
  (oracleCollation : bool) (d i x n rw : gmap string string) :
  oracle.GetOracleSchemaTableColumn Oracle
    (config.OracleSchemaName (config.Oracle Cfg)) sourceTable oracleCollation
    = Ok [d; i; x; n; rw] ->
  is_column d "D" "DATE" ->
  is_column i "I" "INTERVAL DAY TO SECOND" ->
  is_column x "X" "XMLTYPE" ->
  is_column n "N" "NUMBER" ->
  is_column rw "R" "RAW" ->
  adjustTableSelectColumn Cfg Oracle sourceTable oracleCollation
  = Ok "TO_CHAR(D,'yyyy-MM-dd HH24:mi:ss') AS D,TO_CHAR(I) AS I, XMLSERIALIZE(CONTENT X AS CLOB) AS X,N,R".
Proof.
  intros Hcat [Hd1 Hd2] [Hi1 Hi2] [Hx1 Hx2] [Hn1 Hn2] [Hr1 Hr2].
  unfold adjustTableSelectColumn. rewrite Hcat.
  unfold selectColumns, selectColumn.
  rewrite Hd1, Hd2, Hi1, Hi2, Hx1, Hx2, Hn1, Hn2, Hr1, Hr2.
  reflexivity.
Qed.

Lemma edge_case_projection_witness :
  adjustTableSelectColumn (sample.cfg true)
    (sample.source (fun _ => 0) [] sample.good_cursor) "E" false
  = Ok "TO_CHAR(D,'yyyy-MM-dd HH24:mi:ss') AS D,TO_CHAR(I) AS I, XMLSERIALIZE(CONTENT X AS CLOB) AS X,N,R".
Proof.
  apply (edge_case_projection (sample.cfg true)
           (sample.source (fun _ => 0) [] sample.good_cursor) "E" false
           (column "D" "DATE" "") (column "I" "INTERVAL DAY TO SECOND" "")
           (column "X" "XMLTYPE" "") (column "N" "NUMBER" "") (column "R" "RAW" ""));
    [reflexivity | split; reflexivity ..].
Defined.

(** C7, as stated, fails: the result is not the projection of the
    scenario. *)
Lemma edge_case_projection_counterexample :
  adjustTableSelectColumn (sample.cfg true)
    (sample.source (fun _ => 0) [] sample.good_cursor) "E" false
  <> Ok "TO_CHAR(D,'yyyy-MM-dd HH24:mi:ss') AS D,TO_CHAR(I) AS I,XMLSERIALIZE(CONTENT X AS CLOB) AS X,N,R".
Proof.
  rewrite sample_edge_cases. intros H. apply Ok_inj in H. revert H.
  apply String.eqb_neq. reflexivity.
Qed.

(** ** The gateway, step by step *)

Lemma call_ok {A} (h : meta.Meta) (f : Store -> A * Store) (st : State) :
  meta.fault h (calls st) = None ->
  meta.call h f st
  = (Done (Ok (fst (f (store st)))),
     {| store := snd (f (store st)); calls := S (calls st); trace := trace st |}).
Proof. unfold meta.call. intros ->. now destruct (f (store st)). Qed.

Lemma call_fault {A} (h : meta.Meta) (f : Store -> A * Store) (st : State) msg :
  meta.fault h (calls st) = Some msg ->
  meta.call h f st
  = (Done (Err (ExtError FromMeta msg)),
     {| store := store st; calls := S (calls st); trace := trace st |}).
Proof. unfold meta.call. now intros ->. Qed.

Lemma exec_ok (h : meta.Meta) (f : Store -> Store) (st : State) :
  meta.fault h (calls st) = None ->
  meta.exec h f st
  = (Done None, {| store := f (store st); calls := S (calls st); trace := trace st |}).
Proof. intros H. unfold meta.exec, bind. now rewrite call_ok. Qed.

Lemma exec_fault (h : meta.Meta) (f : Store -> Store) (st : State) msg :
  meta.fault h (calls st) = Some msg ->
  meta.exec h f st
  = (Done (Some (ExtError FromMeta msg)),
     {| store := store st; calls := S (calls st); trace := trace st |}).
Proof. intros H. unfold meta.exec, bind. now rewrite (call_fault _ _ _ msg). Qed.

Lemma query_ok {A} (h : meta.Meta) (f : Store -> A) (st : State) :
  meta.fault h (calls st) = None ->
  meta.query h f st
  = (Done (Ok (f (store st))),
     {| store := store st; calls := S (calls st); trace := trace st |}).
Proof. intros H. unfold meta.query. now rewrite call_ok. Qed.

Lemma query_fault {A} (h : meta.Meta) (f : Store -> A) (st : State) msg :
  meta.fault h (calls st) = Some msg ->
  meta.query h f st
  = (Done (Err (ExtError FromMeta msg)),
     {| store := store st; calls := S (calls st); trace := trace st |}).
Proof. intros H. unfold meta.query. now rewrite (call_fault _ _ _ msg). Qed.

Lemma Forall2_map_self {A} (P : A -> A -> Prop) (f : A -> A) (l : list A) :
  (forall a, P a (f a)) -> Forall2 P l (map f l).
Proof. intros H. induction l; simpl; constructor; auto. Qed.

Lemma same_refl (a : string) : same a a = true.
Proof. apply String.eqb_refl. Qed.

(** ** The chunk task *)

Lemma is_chunk_self (m : FullSyncMeta.t) : is_chunk m m = true.
Proof.
  unfold is_chunk, chunk_of_table, chunk_of_run.
  now rewrite !same_refl, String.eqb_refl.
Qed.

Lemma update_chunk_failed pkg m detail (db : Store) :
  recorded_failed (FullSyncMeta_String pkg m) detail m db
    (meta.with_chunks db
       (map (fun row =>
               if chunk_of_table (chunk_key m) row
                  && String.eqb (FullSyncMeta.ChunkDetailS (chunk_key m))
                       (FullSyncMeta.ChunkDetailS row)
               then update_chunk (chunk_failed pkg m detail) row else row)
          (full_sync_meta db))).
Proof.
  split; [reflexivity|]. simpl.
  apply Forall2_map_self. intros row.
  assert (chunk_of_table (chunk_key m) row
          && String.eqb (FullSyncMeta.ChunkDetailS m) (FullSyncMeta.ChunkDetailS row)
          = is_chunk m row) as -> by reflexivity.
  destruct (is_chunk m row) eqn:E; [|reflexivity].
  repeat split; try reflexivity. exact E.
Qed.

Section ChunkTask.

Variable pkg : Package.
Variable r : O2M.
Variable oracleDBCharacterSet : string.
Variable m : FullSyncMeta.t.
Variable st : State.

Let res := chunkTask pkg r oracleDBCharacterSet m st.
Let info := FullSyncMeta_String pkg m.



(** Opening the cursor failed and the handle is nil, as [database/sql]
    returns it: the chunk is recorded FAILED, and the task then panics
    in [rowsResult.Close()]. *)
Lemma chunkTask_open_failure_nil_cursor (err : error) :
  oracle.QueryContext (Oracle r) (chunk_querySQL m) = (None, Some err) ->
  meta.fault (MetaDB r) (calls st) = None ->
  fst res = Panic nil_dereference.
Proof.
  subst res info. unfold chunkTask, bind, emit. intros -> F.
  unfold meta.UpdateFullSyncMetaChunk. rewrite exec_ok by exact F. reflexivity.
Qed.

End ChunkTask.




(** ** The outcome of a table *)

Section TableOutcome.

Variable r : O2M.
Variable t : string.

Lemma filter_none {A} (f : A -> bool) (l : list A) :
  length (List.filter f l) = O -> Forall (fun a => f a = false) l.
Proof.
  induction l as [|a l IH]; simpl; [constructor|].
  destruct (f a) eqn:E; [discriminate|]. intros H. constructor; auto.
Qed.

Lemma Forall_filter_keep {A} (P : A -> Prop) (f : A -> bool) (l : list A) :
  (forall a, In a l -> f a = true -> P a) -> Forall P (List.filter f l).
Proof.
  intros H. apply List.Forall_forall. intros a Ha.
  apply filter_In in Ha as [Hin Hf]. auto.
Qed.

(** C2.  The chunks of table [t] have all reached SUCCESS or FAILED, and
    the gateway answers.  Without FAILED chunk, one compound call of the
    gateway deletes the SUCCESS chunk rows of [t], after which [t] has no
    chunk row left, and sets its row to SUCCESS with the count of those
    rows and no failure.  With a FAILED chunk, the row of [t] is set to
    FAILED with both counts and the chunk rows stay as they are. *)
Theorem table_outcome_is_recorded (st : State) :
  (forall n, (calls st <= n < calls st + 3)%nat -> meta.fault (MetaDB r) n = None) ->
  Forall (fun row =>
            table_chunk r t row = true ->
            FullSyncMeta.TaskStatus row = common.TaskStatusSuccess \/
            FullSyncMeta.TaskStatus row = common.TaskStatusFailed)
    (full_sync_meta (store st)) ->
  let st' := snd (tableOutcome r t st) in
  let ok := Z.of_nat (length (chunks_in r t common.TaskStatusSuccess (store st))) in
  let failed := Z.of_nat (length (chunks_in r t common.TaskStatusFailed (store st))) in
  fst (tableOutcome r t st) = Done tt /\
  (failed = 0 ->
     (exists full wait st1,
        store st1 = store st /\
        meta.DeleteTableFullSyncMetaAndUpdateWaitSyncMeta (MetaDB r) full wait st1
        = (Done None, st')) /\
     full_sync_meta (store st')
     = List.filter
         (fun row => negb (table_chunk r t row
                           && String.eqb (FullSyncMeta.TaskStatus row)
                                common.TaskStatusSuccess))
         (full_sync_meta (store st)) /\
     Forall (fun row => table_chunk r t row = false) (full_sync_meta (store st')) /\
     table_recorded r t common.TaskStatusSuccess ok 0
       (wait_sync_meta (store st)) (wait_sync_meta (store st'))) /\
  (failed <> 0 ->
     full_sync_meta (store st') = full_sync_meta (store st) /\
     table_recorded r t common.TaskStatusFailed ok failed
       (wait_sync_meta (store st)) (wait_sync_meta (store st'))).
Proof.
  intros Hfault Hterm st' ok failed.
  assert (F0 : meta.fault (MetaDB r) (calls st) = None) by (apply Hfault; lia).
  assert (F1 : meta.fault (MetaDB r) (S (calls st)) = None) by (apply Hfault; lia).
  assert (F2 : meta.fault (MetaDB r) (S (S (calls st))) = None) by (apply Hfault; lia).
  subst st'. unfold tableOutcome, bind.
  unfold meta.CountsErrorFullSyncMeta. rewrite query_ok by exact F0.
  unfold meta.DetailFullSyncMeta. rewrite query_ok by exact F1.
  cbn [unwrap ret store calls trace fst snd].
  change (Z.of_nat (length (List.filter
            (fun row => chunk_of_table (table_chunks r t common.TaskStatusFailed) row
                        && chunk_has_status (table_chunks r t common.TaskStatusFailed) row)
            (full_sync_meta (store st))))) with failed.
  change (Z.of_nat (length (List.filter
            (fun row => chunk_of_table (table_chunks r t common.TaskStatusSuccess) row
                        && chunk_has_status (table_chunks r t common.TaskStatusSuccess) row)
            (full_sync_meta (store st))))) with ok.
  destruct (failed =? 0) eqn:E.
  - apply Z.eqb_eq in E.
    unfold meta.DeleteTableFullSyncMetaAndUpdateWaitSyncMeta.
    rewrite exec_ok by exact F2. cbn [check ret store calls trace fst snd].
    split; [reflexivity|]. split; [|intros H; contradiction].
    intros _. split; [|split; [reflexivity|split]].
    + eexists _, _, {| store := store st; calls := S (S (calls st)); trace := trace st |}.
      split; [reflexivity|].
      unfold meta.DeleteTableFullSyncMetaAndUpdateWaitSyncMeta.
      rewrite exec_ok by exact F2. reflexivity.
    + cbn [full_sync_meta].
      assert (Hnone : Forall (fun row =>
                 (table_chunk r t row
                  && String.eqb common.TaskStatusFailed (FullSyncMeta.TaskStatus row)) = false)
                (full_sync_meta (store st))).
      { apply filter_none. subst failed. unfold chunks_in in E. lia. }
      apply Forall_filter_keep. intros row Hin Hkeep.
      rewrite List.Forall_forall in Hterm, Hnone.
      specialize (Hterm row Hin). specialize (Hnone row Hin).
      change (chunk_of_table (table_chunks r t "") row) with (table_chunk r t row) in Hkeep.
      destruct (table_chunk r t row) eqn:Ht; [|reflexivity].
      destruct (Hterm eq_refl) as [Hs | Hf].
      * rewrite Hs in Hkeep. discriminate Hkeep.
      * rewrite Hf in Hnone. discriminate Hnone.
    + cbn [wait_sync_meta]. apply Forall2_map_self. intros row.
      change (table_of_key _ row) with (table_of_key (table_row r t) row).
      destruct (table_of_key (table_row r t) row) eqn:Hk; [|reflexivity].
      repeat split; try reflexivity. exact Hk.
  - apply Z.eqb_neq in E.
    unfold meta.UpdateWaitSyncMeta.
    rewrite exec_ok by exact F2. cbn [check ret store calls trace fst snd].
    split; [reflexivity|]. split; [intros H; contradiction|].
    intros _. split; [reflexivity|].
    cbn [wait_sync_meta meta.with_tables]. apply Forall2_map_self. intros row.
    destruct (table_of_key (table_row r t) row) eqn:Hk; [|reflexivity].
    repeat split; try reflexivity. exact Hk.
Qed.

End TableOutcome.

Lemma table_outcome_is_recorded_witness :
  let r := sample.o2m true (sample.source (fun _ => 5) [] sample.good_cursor) in
  let st := sample.state [sample.table_row "T" "RUNNING" 2 0 0]
              [sample.chunk_row "T" "a" "SUCCESS"; sample.chunk_row "T" "b" "SUCCESS"] in
  fst (tableOutcome r "T" st) = Done tt /\
  store (snd (tableOutcome r "T" st))
  = {| wait_sync_meta := [sample.table_row "T" "SUCCESS" 2 2 0]; full_sync_meta := [] |}.
Proof.
  intros r st.
  assert (Hfault : forall n, (calls st <= n < calls st + 3)%nat ->
                             meta.fault (MetaDB r) n = None) by reflexivity.
  assert (Hterm : Forall (fun row =>
                     table_chunk r "T" row = true ->
                     FullSyncMeta.TaskStatus row = common.TaskStatusSuccess \/
                     FullSyncMeta.TaskStatus row = common.TaskStatusFailed)
                    (full_sync_meta (store st))).
  { repeat constructor. }
  destruct (table_outcome_is_recorded r "T" st Hfault Hterm) as (Hdone & _ & _).
  split; [exact Hdone | reflexivity].
Defined.

(** ** Planning a table *)

Lemma table_of_key_same_key (q a b : WaitSyncMeta.t) :
  WaitSyncMeta.DBTypeS a = WaitSyncMeta.DBTypeS b ->
  WaitSyncMeta.DBTypeT a = WaitSyncMeta.DBTypeT b ->
  WaitSyncMeta.SchemaNameS a = WaitSyncMeta.SchemaNameS b ->
  WaitSyncMeta.TableNameS a = WaitSyncMeta.TableNameS b ->
  WaitSyncMeta.TaskMode a = WaitSyncMeta.TaskMode b ->
  table_of_key q a = table_of_key q b.
Proof.
  unfold table_of_key, table_of_run. now intros -> -> -> -> ->.
Qed.

Lemma chunk_of_table_same_key (q row : FullSyncMeta.t) :
  FullSyncMeta.DBTypeS q = FullSyncMeta.DBTypeS row ->
  FullSyncMeta.DBTypeT q = FullSyncMeta.DBTypeT row ->
  FullSyncMeta.SchemaNameS q = FullSyncMeta.SchemaNameS row ->
  FullSyncMeta.TableNameS q = FullSyncMeta.TableNameS row ->
  FullSyncMeta.TaskMode q = FullSyncMeta.TaskMode row ->
  chunk_of_table q row = true.
Proof.
  unfold chunk_of_table, chunk_of_run. intros -> -> -> -> ->.
  now rewrite !same_refl.
Qed.

Lemma table_of_key_self (q : WaitSyncMeta.t) : table_of_key q q = true.
Proof. unfold table_of_key, table_of_run. now rewrite !same_refl. Qed.

Lemma upsert_planned_has_row (wait : WaitSyncMeta.t) (rows : list WaitSyncMeta.t) :
  Exists (fun row => table_of_key wait row = true) (meta.upsert_planned wait rows).
Proof.
  unfold meta.upsert_planned.
  destruct (existsb (table_of_key wait) rows) eqn:E.
  - apply existsb_exists in E as (row & Hin & Hrow).
    apply List.Exists_exists. exists (meta.planned wait row). split.
    + apply in_map_iff. exists row. now rewrite Hrow.
    + rewrite (table_of_key_same_key wait (meta.planned wait row) row) by reflexivity.
      exact Hrow.
  - apply List.Exists_exists. exists (meta.planned wait wait). split.
    + apply in_or_app. right. now left.
    + rewrite (table_of_key_same_key wait (meta.planned wait wait) wait) by reflexivity.
      apply table_of_key_self.
Qed.

Lemma upsert_planned_counters (wait : WaitSyncMeta.t) (rows : list WaitSyncMeta.t) :
  Forall (fun row =>
            table_of_key wait row = true ->
            WaitSyncMeta.ChunkTotalNums row = WaitSyncMeta.ChunkTotalNums wait /\
            WaitSyncMeta.ChunkSuccessNums row = WaitSyncMeta.ChunkSuccessNums wait /\
            WaitSyncMeta.ChunkFailedNums row = WaitSyncMeta.ChunkFailedNums wait)
    (meta.upsert_planned wait rows).
Proof.
  unfold meta.upsert_planned.
  destruct (existsb (table_of_key wait) rows) eqn:E.
  - apply List.Forall_forall. intros row' Hin.
    apply in_map_iff in Hin as (row & <- & _).
    destruct (table_of_key wait row) eqn:Hk; [now intros _|].
    intros H. congruence.
  - apply List.Forall_forall. intros row' Hin.
    apply in_app_or in Hin as [Hin | [<- | []]]; [|now intros _].
    intros Hk. exfalso.
    assert (existsb (table_of_key wait) rows = true) as Hex
      by (apply existsb_exists; eauto).
    congruence.
Qed.

Lemma upsert_planned_others (wait : WaitSyncMeta.t) (rows : list WaitSyncMeta.t) :
  List.filter (fun row => negb (table_of_key wait row)) (meta.upsert_planned wait rows)
  = List.filter (fun row => negb (table_of_key wait row)) rows.
Proof.
  unfold meta.upsert_planned.
  destruct (existsb (table_of_key wait) rows) eqn:E.
  - clear E. induction rows as [|row rows IH]; [reflexivity|]. simpl.
    destruct (table_of_key wait row) eqn:Hk; simpl.
    + rewrite (table_of_key_same_key wait (meta.planned wait row) row) by reflexivity.
      rewrite Hk. simpl. exact IH.
    + rewrite Hk. simpl. now rewrite IH.
  - rewrite List.filter_app. simpl.
    rewrite (table_of_key_same_key wait (meta.planned wait wait) wait) by reflexivity.
    rewrite table_of_key_self. simpl. apply app_nil_r.
Qed.

Lemma bind_ret {A B} (a : A) (k : A -> M B) : bind (ret a) k = k a.
Proof. reflexivity. Qed.

Lemma bind_fail {A B} (e : error) (k : A -> M B) : bind (fail e) k = fail e.
Proof. reflexivity. Qed.

Lemma bind_emit {B} (ev : Event) (k : unit -> M B) (st : State) :
  bind (emit ev) k st
  = k tt {| store := store st; calls := calls st; trace := (trace st ++ [ev])%list |}.
Proof. reflexivity. Qed.

Ltac go_step :=
  first [rewrite bind_emit | rewrite bind_ret | rewrite bind_fail]; cbn beta.

Section PlanTask.

Variable pkg : Package.
Variable r : O2M.
Variable tableNameRule : gmap string string.
Variable oracleCollation : bool.
Variable globalSCN : Z.
Variable partitionTables : list string.

Lemma planWholeTable_plans (t targetTableName projection isPartition : string) (st : State) :
  meta.fault (MetaDB r) (calls st) = None ->
  let res := planWholeTable pkg r t targetTableName globalSCN projection isPartition st in
  fst res = Done tt /\
  trace (snd res) = trace st /\
  whole_table_plan r t projection (store st) (store (snd res)).
Proof.
  intros F. unfold planWholeTable, bind.
  unfold meta.CreateFullSyncMetaAndUpdateWaitSyncMeta.
  rewrite exec_ok by exact F. cbn [check ret fst snd store trace].
  split; [reflexivity|]. split; [reflexivity|].
  unfold whole_table_plan. cbn [full_sync_meta wait_sync_meta]. repeat split.
  - eexists. split; [reflexivity|]. repeat split.
    now apply chunk_of_table_same_key.
  - apply (upsert_planned_has_row (plan_table r t globalSCN 1 isPartition)).
  - apply (upsert_planned_counters (plan_table r t globalSCN 1 isPartition)).
  - apply (upsert_planned_others (plan_table r t globalSCN 1 isPartition)).
Qed.

(** C6.  Table [t] is planned with an output directory, its projection
    compiles and the gateway takes the plan.  When the statistics report
    zero rows, no call is made on the splitter and the plan is the
    whole-table plan: one chunk row with predicate [1 = 1], and
    [ChunkTotalNums = 1] on the table.  When the statistics report rows
    and the splitter returns no chunk, the plan is the same whole-table
    plan. *)
Theorem empty_table_is_planned_whole
  (workerID : nat) (t projection : string) (st : State) :
  config.OutputDir (config.CSV (Cfg r)) <> "" ->
  adjustTableSelectColumn (Cfg r) (Oracle r) t oracleCollation = Ok projection ->
  meta.fault (MetaDB r) (calls st) = None ->
  let res := planTask pkg r tableNameRule oracleCollation globalSCN partitionTables
               workerID t st in
  let statistics :=
    oracle.GetOracleTableRowsByStatistics (Oracle r)
      (config.OracleSchemaName (config.Oracle (Cfg r))) t in
  let taskName := taskName_of r t workerID in
  (statistics = Ok 0 ->
     fst res = Done tt /\
     trace (snd res) = trace st /\
     whole_table_plan r t projection (store st) (store (snd res))) /\
  (forall rows,
     statistics = Ok rows -> rows <> 0 ->
     oracle.StartOracleChunkCreateTask (Oracle r) taskName = None ->
     oracle.StartOracleCreateChunkByRowID (Oracle r) taskName
       (common.StringUPPER (config.OracleSchemaName (config.Oracle (Cfg r))))
       (common.StringUPPER t) (strconv.Itoa (config.Rows (config.CSV (Cfg r)))) = None ->
     oracle.GetOracleTableChunksByRowID (Oracle r) taskName = Ok [] ->
     fst res = Done tt /\
     trace (snd res) = (trace st ++ splitter_calls r t taskName)%list /\
     whole_table_plan r t projection (store st) (store (snd res))).
Proof.
  intros Hdir Hproj F res statistics taskName. subst res statistics taskName.
  unfold planTask.
  apply String.eqb_neq in Hdir. rewrite Hdir, Hproj. cbn [unwrap]. rewrite bind_ret.
  split.
  - intros Hstat. rewrite Hstat. cbn [unwrap]. rewrite bind_ret. cbn [Z.eqb].
    now apply planWholeTable_plans.
  - intros rows Hstat Hrows Hstart Hcreate Hget.
    rewrite Hstat. cbn [unwrap]. rewrite bind_ret.
    apply Z.eqb_neq in Hrows. rewrite Hrows, Hstart, Hcreate, Hget.
    cbn [check unwrap]. repeat go_step. cbn [length Nat.eqb].
    match goal with
    | |- context [planWholeTable pkg r t ?tt globalSCN projection ?ip ?s] =>
        pose proof (planWholeTable_plans t tt projection ip s F) as (H1 & H2 & H3)
    end.
    split; [exact H1|]. split; [|exact H3].
    rewrite H2. cbn [trace]. unfold splitter_calls.
    rewrite <- !app_assoc. reflexivity.
Qed.

(** The splitter fails after the chunk task has been started: the
    planning returns the error, and the task has not been closed. *)
Lemma planTask_splitter_error
  (workerID : nat) (t projection : string) (rows : Z) (e : error) (st : State) :
  config.OutputDir (config.CSV (Cfg r)) <> "" ->
  adjustTableSelectColumn (Cfg r) (Oracle r) t oracleCollation = Ok projection ->
  oracle.GetOracleTableRowsByStatistics (Oracle r)
    (config.OracleSchemaName (config.Oracle (Cfg r))) t = Ok rows ->
  rows <> 0 ->
  oracle.StartOracleChunkCreateTask (Oracle r) (taskName_of r t workerID) = None ->
  oracle.StartOracleCreateChunkByRowID (Oracle r) (taskName_of r t workerID)
    (common.StringUPPER (config.OracleSchemaName (config.Oracle (Cfg r))))
    (common.StringUPPER t) (strconv.Itoa (config.Rows (config.CSV (Cfg r)))) = Some e ->
  planTask pkg r tableNameRule oracleCollation globalSCN partitionTables workerID t st
  = (Fail e,
     {| store := store st; calls := calls st;
        trace := (trace st
                  ++ [EvStartOracleChunkCreateTask (taskName_of r t workerID);
                      EvStartOracleCreateChunkByRowID (taskName_of r t workerID)
                        (common.StringUPPER (config.OracleSchemaName (config.Oracle (Cfg r))))
                        (common.StringUPPER t)
                        (strconv.Itoa (config.Rows (config.CSV (Cfg r))))])%list |}).
Proof.
  intros Hdir Hproj Hstat Hrows Hstart Hcreate. unfold planTask.
  apply String.eqb_neq in Hdir. rewrite Hdir, Hproj. cbn [unwrap]. rewrite bind_ret.
  rewrite Hstat. cbn [unwrap]. rewrite bind_ret.
  apply Z.eqb_neq in Hrows. rewrite Hrows, Hstart, Hcreate.
  cbn [check]. repeat go_step. cbn [fail store calls trace].
  now rewrite <- app_assoc.
Qed.

End PlanTask.

Lemma empty_table_is_planned_whole_witness :
  let r := sample.o2m true (sample.source (fun _ => 0) [] sample.good_cursor) in
  let st := sample.state [sample.table_row "T" "WAITING" 0 0 0] [] in
  let res := planTask (sample.pkg ["T"]) r ∅ false 42 [] 0 "T" st in
  fst res = Done tt /\
  trace (snd res) = trace st /\
  whole_table_plan r "T" "ID,TO_CHAR(TS,'yyyy-mm-dd hh24:mi:ss.ff6') AS TS"
    (store st) (store (snd res)).
Proof.
  intros r st res.
  assert (Hdir : config.OutputDir (config.CSV (Cfg r)) <> "") by discriminate.
  exact (proj1 (empty_table_is_planned_whole (sample.pkg ["T"]) r ∅ false 42 [] 0 "T"
                  "ID,TO_CHAR(TS,'yyyy-mm-dd hh24:mi:ss.ff6') AS TS" st
                  Hdir eq_refl eq_refl) eq_refl).
Defined.

(** C8.  Table [T] has rows by its statistics and the splitter returns
    no chunk: the planning of [T] starts the chunk task [MARVIN_T_TASK0]
    and returns without error, and the task has not been closed. *)
Theorem chunk_task_is_not_closed :
  let r := sample.o2m true (sample.source (fun _ => 5) [] sample.good_cursor) in
  let st := sample.state [sample.table_row "T" "WAITING" 0 0 0] [] in
  let res := planTask (sample.pkg ["T"]) r ∅ false 42 [] 0 "T" st in
  fst res = Done tt /\
  trace (snd res)
  = [EvStartOracleChunkCreateTask "MARVIN_T_TASK0";
     EvStartOracleCreateChunkByRowID "MARVIN_T_TASK0" "MARVIN" "T" "1000";
     EvGetOracleTableChunksByRowID "MARVIN_T_TASK0"] /\
  ~ In (EvCloseOracleChunkTask "MARVIN_T_TASK0") (trace (snd res)).
Proof.
  intros r st res. split; [reflexivity|]. split; [reflexivity|].
  intros [H | [H | [H | []]]]; discriminate H.
Qed.

(** ** Tasks that never panic, and groups of tasks *)

Lemma no_panic_ret {A} (a : A) : no_panic (ret a).
Proof. intros st msg. discriminate. Qed.

Lemma no_panic_fail {A} (e : error) : no_panic (@fail A e).
Proof. intros st msg. discriminate. Qed.

Lemma no_panic_emit (ev : Event) : no_panic (emit ev).
Proof. intros st msg. discriminate. Qed.

Lemma no_panic_check (err : option error) : no_panic (check err).
Proof. destruct err; [apply no_panic_fail | apply no_panic_ret]. Qed.

Lemma no_panic_unwrap {A} (res : result A) : no_panic (unwrap res).
Proof. destruct res; [apply no_panic_ret | apply no_panic_fail]. Qed.

Lemma no_panic_bind {A B} (c : M A) (k : A -> M B) :
  no_panic c -> (forall a, no_panic (k a)) -> no_panic (bind c k).
Proof.
  intros Hc Hk st msg. unfold bind.
  destruct (c st) as [[a|e|msg'] st'] eqn:E.
  - apply Hk.
  - discriminate.
  - exfalso. apply (Hc st msg'). now rewrite E.
Qed.

Lemma no_panic_call {A} (h : meta.Meta) (f : Store -> A * Store) : no_panic (meta.call h f).
Proof.
  intros st msg. unfold meta.call.
  destruct (meta.fault h (calls st)); [discriminate|].
  destruct (f (store st)). discriminate.
Qed.

Lemma no_panic_exec (h : meta.Meta) (f : Store -> Store) : no_panic (meta.exec h f).
Proof.
  unfold meta.exec. apply no_panic_bind; [apply no_panic_call|].
  intros a. apply no_panic_ret.
Qed.

Create HintDb no_panic.
#[local] Hint Resolve no_panic_ret no_panic_fail no_panic_emit no_panic_check
  no_panic_unwrap no_panic_call no_panic_exec : no_panic.

Ltac no_panic :=
  repeat first
    [ apply no_panic_bind; [|intros ?]
    | match goal with
      | |- no_panic (if ?b then _ else _) => destruct b
      | |- no_panic (match ?x with _ => _ end) => destruct x
      end
    | solve [auto with no_panic] ].

Lemma planWholeTable_no_panic pkg r t targetTableName globalSCN projection isPartition :
  no_panic (planWholeTable pkg r t targetTableName globalSCN projection isPartition).
Proof.
  unfold planWholeTable, meta.CreateFullSyncMetaAndUpdateWaitSyncMeta. no_panic.
Qed.

Lemma planTask_no_panic pkg r rule coll globalSCN parts workerID t :
  no_panic (planTask pkg r rule coll globalSCN parts workerID t).
Proof.
  unfold planTask, meta.BatchCreateFullSyncMetaAndUpdateWaitSyncMeta.
  pose proof planWholeTable_no_panic.
  no_panic.
Qed.

Lemma Wait_state (tasks : list (M unit)) : forall first1 first2 st,
  snd (errgroup.Wait tasks first1 st) = snd (errgroup.Wait tasks first2 st).
Proof.
  induction tasks as [|task rest IH]; intros first1 first2 st; simpl.
  - now destruct first1, first2.
  - destruct (task st) as [[[]|e|msg] st']; auto.
Qed.

Lemma Wait_first (tasks : list (M unit)) : forall e st,
  Forall no_panic tasks ->
  fst (errgroup.Wait tasks (Some e) st) = Fail e.
Proof.
  induction tasks as [|task rest IH]; intros e st Hnp; simpl; [reflexivity|].
  inversion Hnp as [|? ? Htask Hrest]; subst.
  destruct (task st) as [[[]|e'|msg] st'] eqn:E; auto.
  exfalso. apply (Htask st msg). now rewrite E.
Qed.

Lemma Wait_fails (tasks : list (M unit)) : forall i task e first st,
  Forall no_panic tasks ->
  tasks !! i = Some task ->
  (forall st0, fst (task st0) = Fail e) ->
  exists e', fst (errgroup.Wait tasks first st) = Fail e'.
Proof.
  induction tasks as [|task0 rest IH]; intros i task e first st Hnp Hi Hfail;
    [discriminate|].
  inversion Hnp as [|? ? Htask Hrest]; subst. simpl.
  destruct i as [|i]; simpl in Hi.
  - injection Hi as ->. specialize (Hfail st).
    destruct (task st) as [[[]|e'|msg] st']; try discriminate.
    destruct first as [e0|]; eexists; now apply Wait_first.
  - destruct (task0 st) as [[[]|e'|msg] st'] eqn:E.
    + eapply IH; eauto.
    + eapply IH; eauto.
    + exfalso. apply (Htask st msg). now rewrite E.
Qed.

Lemma Wait_without (tasks : list (M unit)) : forall i task e first st,
  tasks !! i = Some task ->
  (forall st0, task st0 = (Fail e, st0)) ->
  snd (errgroup.Wait tasks first st) = snd (errgroup.Wait (delete i tasks) first st).
Proof.
  induction tasks as [|task0 rest IH]; intros i task e first st Hi Hfail;
    [discriminate|].
  destruct i as [|i]; simpl in Hi.
  - injection Hi as ->. simpl. rewrite Hfail. apply Wait_state.
  - simpl. destruct (task0 st) as [[[]|e'|msg] st']; eauto.
Qed.

(** ** An unparsable scale *)

Section ScaleError.

Variable pkg : Package.
Variable r : O2M.
Variable tableNameRule : gmap string string.
Variable oracleCollation : bool.

Lemma planTask_projection_error globalSCN parts workerID t e st :
  config.OutputDir (config.CSV (Cfg r)) <> "" ->
  adjustTableSelectColumn (Cfg r) (Oracle r) t oracleCollation = Err e ->
  planTask pkg r tableNameRule oracleCollation globalSCN parts workerID t st = (Fail e, st).
Proof.
  intros Hdir Hproj. unfold planTask.
  apply String.eqb_neq in Hdir. rewrite Hdir, Hproj. reflexivity.
Qed.

(** C9.  The scale of a TIMESTAMP column of table [t] cannot be parsed.
    The planning of [t] returns that error and changes nothing; every
    other table is planned as if [t] were not in the list, and the
    planning of the tables as a whole reports an error. *)
Theorem scale_error_aborts_one_table
  (csvWaitTables : list string) (i : nat) (t scale : string) (err : error)
  (globalSCN : Z) (partitionTables : list string) (st : State) :
  csvWaitTables !! i = Some t ->
  config.OutputDir (config.CSV (Cfg r)) <> "" ->
  adjustTableSelectColumn (Cfg r) (Oracle r) t oracleCollation
  = Err (scale_error scale err) ->
  oracle.GetOracleCurrentSnapshotSCN (Oracle r) = Ok globalSCN ->
  oracle.GetOracleSchemaPartitionTable (Oracle r)
    (config.OracleSchemaName (config.Oracle (Cfg r))) = Ok partitionTables ->
  let tasks :=
    imap (planTask pkg r tableNameRule oracleCollation globalSCN partitionTables)
      csvWaitTables in
  let res := initWaitSyncTableRowID pkg r csvWaitTables tableNameRule oracleCollation st in
  (forall st0,
     planTask pkg r tableNameRule oracleCollation globalSCN partitionTables i t st0
     = (Fail (scale_error scale err), st0)) /\
  snd res = snd (errgroup.Go (delete i tasks) st) /\
  exists e, fst res = Fail e.
Proof.
  intros Hi Hdir Hproj Hscn Hparts tasks res.
  assert (Htask : forall st0,
             planTask pkg r tableNameRule oracleCollation globalSCN partitionTables i t st0
             = (Fail (scale_error scale err), st0)).
  { intros st0. now apply planTask_projection_error. }
  assert (Hlook : tasks !! i
                  = Some (planTask pkg r tableNameRule oracleCollation globalSCN
                            partitionTables i t)).
  { subst tasks. now rewrite list_lookup_imap, Hi. }
  assert (Hres : res = errgroup.Go tasks st).
  { subst res tasks. unfold initWaitSyncTableRowID.
    rewrite Hscn, Hparts. reflexivity. }
  rewrite Hres. split; [exact Htask|]. split.
  - unfold errgroup.Go. eapply Wait_without; eauto.
  - unfold errgroup.Go. eapply Wait_fails; eauto.
    + subst tasks. apply List.Forall_forall. intros task Hin.
      apply list_elem_of_In, list_elem_of_lookup in Hin as (j & Hj).
      rewrite list_lookup_imap in Hj.
      destruct (csvWaitTables !! j) as [tj|]; [|discriminate].
      injection Hj as <-. apply planTask_no_panic.
    + intros st0. now rewrite Htask.
Qed.

End ScaleError.

Lemma scale_error_aborts_one_table_witness :
  let r := sample.o2m true (sample.source (fun _ => 0) [] sample.good_cursor) in
  let st := sample.state [sample.table_row "B" "WAITING" 0 0 0;
                          sample.table_row "T" "WAITING" 0 0 0] [] in
  let res := initWaitSyncTableRowID (sample.pkg ["B"; "T"]) r ["B"; "T"] ∅ false st in
  snd res = snd (planTask (sample.pkg ["B"; "T"]) r ∅ false 42 [] 1 "T" st) /\
  exists e, fst res = Fail e.
Proof.
  intros r st res.
  assert (Hdir : config.OutputDir (config.CSV (Cfg r)) <> "") by discriminate.
  destruct (scale_error_aborts_one_table (sample.pkg ["B"; "T"]) r ∅ false
              ["B"; "T"] 0 "B" "six" (NumError "Atoi" "six" ErrSyntax) 42 [] st
              eq_refl Hdir eq_refl eq_refl eq_refl) as (_ & Hstate & Herr).
  split; [|exact Herr].
  etransitivity; [exact Hstate | reflexivity].
Defined.

(** ** Running without checkpoint *)

Lemma upper_byte_idempotent (c : ascii) :
  strings.upper_byte (strings.upper_byte c) = strings.upper_byte c.
Proof. destruct c as [[] [] [] [] [] [] [] []]; reflexivity. Qed.

Lemma ToUpper_idempotent (s : string) :
  strings.ToUpper (strings.ToUpper s) = strings.ToUpper s.
Proof.
  induction s as [|c s IH]; simpl; [reflexivity|].
  now rewrite upper_byte_idempotent, IH.
Qed.

Lemma same_upper (a b : string) : same (common.StringUPPER a) b = same a b.
Proof. unfold same, common.StringUPPER. now rewrite ToUpper_idempotent. Qed.

Section Healthy.

Variable r : O2M.
Hypothesis gateway : healthy r.

Lemma exec_healthy (f : Store -> Store) (st : State) :
  meta.exec (MetaDB r) f st
  = (Done None, {| store := f (store st); calls := S (calls st); trace := trace st |}).
Proof. apply exec_ok, gateway. Qed.

Lemma query_healthy {A} (f : Store -> A) (st : State) :
  meta.query (MetaDB r) f st
  = (Done (Ok (f (store st))),
     {| store := store st; calls := S (calls st); trace := trace st |}).
Proof. apply query_ok, gateway. Qed.

Lemma bind_exec_healthy {B} (f : Store -> Store) (k : option error -> M B) (st : State) :
  bind (meta.exec (MetaDB r) f) k st
  = k None {| store := f (store st); calls := S (calls st); trace := trace st |}.
Proof. unfold bind at 1. now rewrite exec_healthy. Qed.

Lemma bind_query_healthy {A B} (f : Store -> A) (k : result A -> M B) (st : State) :
  bind (meta.query (MetaDB r) f) k st
  = k (Ok (f (store st)))
      {| store := store st; calls := S (calls st); trace := trace st |}.
Proof. unfold bind at 1. now rewrite query_healthy. Qed.

(** The body of the loop of the reset, for one table. *)
Lemma reset_body (tableName : string) (st : State) :
  exists n,
    (err <- meta.DeleteWaitSyncMeta (MetaDB r) (reset_key r tableName) ;;
     check err ;;
     detail <- meta.DetailWaitSyncMeta (MetaDB r) (reset_key r tableName) ;;
     waitSyncMetas <- unwrap detail ;;
     if (length waitSyncMetas =? 0)%nat then
       err <- meta.CreateWaitSyncMeta (MetaDB r) (waiting_row r tableName) ;;
       check err
     else ret tt) st
    = (Done tt,
       {| store := reset_table r (store st) tableName; calls := n; trace := trace st |}).
Proof.
  unfold meta.DeleteWaitSyncMeta, meta.DetailWaitSyncMeta, meta.CreateWaitSyncMeta.
  rewrite bind_exec_healthy. cbn [check]. rewrite bind_ret.
  rewrite bind_query_healthy. cbn [unwrap]. rewrite bind_ret.
  cbn [store calls trace].
  match goal with |- context [(if ?c then _ else _) _ = _] => destruct c eqn:E end.
  - rewrite bind_exec_healthy. cbn [check ret store calls trace].
    unfold reset_table.
    match goal with |- context [if ?c then _ else _] =>
      replace c with true by (symmetry; exact E) end.
    eexists. reflexivity.
  - cbn [ret]. unfold reset_table.
    match goal with |- context [if ?c then _ else _] =>
      replace c with false by (symmetry; exact E) end.
    eexists. reflexivity.
Qed.

Lemma reset_loop (exporters : list string) : forall st,
  exists n,
    for_each exporters (fun tableName =>
      err <- meta.DeleteWaitSyncMeta (MetaDB r) (reset_key r tableName) ;;
      check err ;;
      detail <- meta.DetailWaitSyncMeta (MetaDB r) (reset_key r tableName) ;;
      waitSyncMetas <- unwrap detail ;;
      if (length waitSyncMetas =? 0)%nat then
        err <- meta.CreateWaitSyncMeta (MetaDB r) (waiting_row r tableName) ;;
        check err
      else ret tt) st
    = (Done tt,
       {| store := fold_left (reset_table r) exporters (store st);
          calls := n; trace := trace st |}).
Proof.
  induction exporters as [|tableName rest IH]; intros st.
  - exists (calls st). now destruct st.
  - cbn [for_each fold_left]. unfold bind at 1.
    destruct (reset_body tableName st) as (n & ->).
    destruct (IH {| store := reset_table r (store st) tableName; calls := n;
                    trace := trace st |}) as (n' & ->).
    exists n'. reflexivity.
Qed.

End Healthy.

(** What the reset does to one table. *)

Lemma reset_table_chunks r db t :
  full_sync_meta (reset_table r db t) = full_sync_meta db.
Proof.
  unfold reset_table.
  match goal with |- context [(length ?l =? 0)%nat] => destruct (length l =? 0)%nat end;
    reflexivity.
Qed.

Lemma filter_filter_neg {A} (f g : A -> bool) (l : list A) :
  (forall a, g a = true -> f a = true) ->
  List.filter g (List.filter f l) = List.filter g l.
Proof.
  intros H. induction l as [|a l IH]; simpl; [reflexivity|].
  destruct (f a) eqn:Ef; simpl.
  - destruct (g a); now rewrite IH.
  - destruct (g a) eqn:Eg; [|exact IH]. apply H in Eg. congruence.
Qed.

Lemma reset_table_not_waiting r db t :
  List.filter (fun row => negb (is_waiting row)) (wait_sync_meta (reset_table r db t))
  = List.filter (fun row => negb (is_waiting row)) (wait_sync_meta db).
Proof.
  unfold reset_table.
  match goal with |- context [(length ?l =? 0)%nat] => destruct (length l =? 0)%nat end;
    cbn [meta.with_tables wait_sync_meta].
  - rewrite List.filter_app. cbn. rewrite app_nil_r.
    apply filter_filter_neg. intros row H.
    destruct (is_waiting row); [discriminate|]. now rewrite andb_false_r.
  - apply filter_filter_neg. intros row H.
    destruct (is_waiting row); [discriminate|]. now rewrite andb_false_r.
Qed.

Lemma reset_table_origin r db t row :
  In row (wait_sync_meta (reset_table r db t)) ->
  In row (wait_sync_meta db) \/ row = waiting_row r t.
Proof.
  unfold reset_table.
  match goal with |- context [(length ?l =? 0)%nat] => destruct (length l =? 0)%nat end;
    cbn [meta.with_tables wait_sync_meta].
  - intros H. apply in_app_or in H as [H | [<- | []]]; [|now right].
    apply filter_In in H as [H _]. now left.
  - intros H. apply filter_In in H as [H _]. now left.
Qed.

Lemma reset_key_row r t row :
  table_of_key (reset_key r t) row = table_of_key (table_row r t) row.
Proof.
  change (table_of_key (table_row r t) row)
    with (table_of_run (reset_key r t) row
          && same (common.StringUPPER t) (WaitSyncMeta.TableNameS row)).
  now rewrite same_upper.
Qed.

Lemma reset_table_waiting r db t row :
  In row (wait_sync_meta (reset_table r db t)) ->
  table_of_key (table_row r t) row = true ->
  is_waiting row = true ->
  row = waiting_row r t.
Proof.
  intros Hin Hkey Hwait. rewrite <- reset_key_row in Hkey.
  revert Hin. unfold reset_table.
  match goal with |- context [(length ?l =? 0)%nat] => destruct (length l =? 0)%nat end;
    cbn [meta.with_tables wait_sync_meta]; intros Hin.
  - apply in_app_or in Hin as [Hin | [<- | []]]; [|reflexivity].
    apply filter_In in Hin as [_ H]. rewrite Hkey, Hwait in H. discriminate.
  - apply filter_In in Hin as [_ H]. rewrite Hkey, Hwait in H. discriminate.
Qed.

(** What the reset does to the configured tables. *)

Lemma reset_tables_chunks r exporters : forall db,
  full_sync_meta (fold_left (reset_table r) exporters db) = full_sync_meta db.
Proof.
  induction exporters as [|t rest IH]; intros db; simpl; [reflexivity|].
  now rewrite IH, reset_table_chunks.
Qed.

Lemma reset_tables_not_waiting r exporters : forall db,
  List.filter (fun row => negb (is_waiting row))
    (wait_sync_meta (fold_left (reset_table r) exporters db))
  = List.filter (fun row => negb (is_waiting row)) (wait_sync_meta db).
Proof.
  induction exporters as [|t rest IH]; intros db; simpl; [reflexivity|].
  now rewrite IH, reset_table_not_waiting.
Qed.

Lemma reset_tables_origin r exporters : forall db row,
  In row (wait_sync_meta (fold_left (reset_table r) exporters db)) ->
  In row (wait_sync_meta db) \/ fresh_row r exporters row.
Proof.
  induction exporters as [|t rest IH]; intros db row; simpl; [now left|].
  intros H. apply IH in H as [H | (t' & Ht' & ->)].
  - apply reset_table_origin in H as [H | ->]; [now left|].
    right. exists t. split; [now left | reflexivity].
  - right. exists t'. split; [now right | reflexivity].
Qed.

Lemma reset_tables_waiting r exporters : forall db t row,
  In t exporters ->
  In row (wait_sync_meta (fold_left (reset_table r) exporters db)) ->
  table_of_key (table_row r t) row = true ->
  is_waiting row = true ->
  fresh_row r exporters row.
Proof.
  induction exporters as [|t0 rest IH]; intros db t row Ht Hin Hkey Hwait; [destruct Ht|].
  simpl in Hin.
  assert (Hmono : forall row', fresh_row r rest row' -> fresh_row r (t0 :: rest) row').
  { intros row' (t' & Ht' & ->). exists t'. split; [now right | reflexivity]. }
  destruct (reset_tables_origin r rest _ _ Hin) as [Hold | Hfresh]; [|now apply Hmono].
  destruct (in_dec string_dec t rest) as [Hrest | Hnot].
  - apply Hmono. eapply IH; eauto.
  - destruct Ht as [<- | Ht]; [|contradiction].
    exists t0. split; [now left|].
    eapply reset_table_waiting; eauto.
Qed.

Lemma run_chunk_key r row :
  chunk_of_run
    (FullSyncMeta.lit (config.DBTypeS (Cfg r)) (config.DBTypeT (Cfg r))
       (common.StringUPPER (config.OracleSchemaName (config.Oracle (Cfg r)))) ""
       (common.StringUPPER (config.TaskMode (Cfg r))) "" "") row
  = run_chunk r row.
Proof.
  change (run_chunk r row)
    with (same (config.DBTypeS (Cfg r)) (FullSyncMeta.DBTypeS row)
          && same (config.DBTypeT (Cfg r)) (FullSyncMeta.DBTypeT row)
          && same (common.StringUPPER (config.OracleSchemaName (config.Oracle (Cfg r))))
               (FullSyncMeta.SchemaNameS row)
          && same (config.TaskMode (Cfg r)) (FullSyncMeta.TaskMode row)).
  rewrite <- (same_upper (config.TaskMode (Cfg r))). reflexivity.
Qed.

Lemma filter_ext_eq {A} (f g : A -> bool) (l : list A) :
  (forall a, f a = g a) -> List.filter f l = List.filter g l.
Proof. intros H. induction l as [|a l IH]; simpl; [reflexivity|]. now rewrite H, IH. Qed.

(** C5.  The run has no checkpoint ([EnableCheckpoint] is false) and the
    gateway answers.  The reset deletes every chunk row of the run.  It
    deletes the WAITING rows of the configured tables: a WAITING row that
    a configured table has afterwards is a row made afresh by the reset,
    with the placeholder counters.  The rows that are not WAITING, the
    SUCCESS rows among them, are as before. *)
Theorem reset_forgets_the_plans (r : O2M) (exporters : list string) (st : State) :
  healthy r ->
  config.EnableCheckpoint (config.CSV (Cfg r)) = false ->
  let res := CSV_reset r exporters st in
  let before := store st in
  let after := store (snd res) in
  fst res = Done tt /\
  full_sync_meta after
  = List.filter (fun row => negb (run_chunk r row)) (full_sync_meta before) /\
  Forall (fun row => run_chunk r row = false) (full_sync_meta after) /\
  (forall t row,
     In t exporters ->
     In row (wait_sync_meta after) ->
     table_of_key (table_row r t) row = true ->
     WaitSyncMeta.TaskStatus row = common.TaskStatusWaiting ->
     fresh_row r exporters row) /\
  (forall row,
     In row (wait_sync_meta after) ->
     In row (wait_sync_meta before) \/ fresh_row r exporters row) /\
  (forall row,
     In row (wait_sync_meta before) ->
     WaitSyncMeta.TaskStatus row = common.TaskStatusSuccess ->
     In row (wait_sync_meta after)) /\
  List.filter (fun row => negb (is_waiting row)) (wait_sync_meta after)
  = List.filter (fun row => negb (is_waiting row)) (wait_sync_meta before).
Proof.
  intros gateway Hoff res before after. subst res before after.
  unfold CSV_reset. rewrite Hoff. cbn [negb].
  unfold meta.DeleteFullSyncMetaBySchemaSyncMode.
  rewrite (bind_exec_healthy r gateway). cbn [check]. rewrite bind_ret.
  match goal with |- context [for_each exporters ?body ?s] =>
    destruct (reset_loop r gateway exporters s) as (n & Hloop) end.
  unfold reset_key in Hloop. unfold WaitSyncMeta.lit in *. rewrite Hloop. clear Hloop.
  cbn [fst snd store calls trace].
  match goal with |- context [fold_left (reset_table r) exporters ?db] =>
    set (db1 := db) end.
  assert (Hwait1 : wait_sync_meta db1 = wait_sync_meta (store st)) by reflexivity.
  assert (Hfull1 : full_sync_meta db1
                   = List.filter (fun row => negb (run_chunk r row))
                       (full_sync_meta (store st))).
  { subst db1. cbn [meta.with_chunks full_sync_meta].
    apply filter_ext_eq. intros row. now rewrite run_chunk_key. }
  split; [reflexivity|]. rewrite reset_tables_chunks, Hfull1.
  split; [reflexivity|].
  split.
  { apply List.Forall_forall. intros row Hin. apply filter_In in Hin as [_ H].
    now destruct (run_chunk r row). }
  split.
  { intros t row Ht Hin Hkey Hwait.
    eapply reset_tables_waiting; eauto.
    unfold is_waiting. rewrite Hwait. reflexivity. }
  split.
  { intros row Hin. apply reset_tables_origin in Hin. now rewrite Hwait1 in Hin. }
  split.
  { intros row Hin Hs.
    assert (Hf : In row (List.filter (fun row => negb (is_waiting row))
                           (wait_sync_meta db1))).
    { apply filter_In. split; [now rewrite Hwait1|]. unfold is_waiting. now rewrite Hs. }
    rewrite <- (reset_tables_not_waiting r exporters db1) in Hf.
    apply filter_In in Hf as [Hf _]. exact Hf. }
  rewrite reset_tables_not_waiting. now rewrite Hwait1.
Qed.

Lemma reset_forgets_the_plans_witness :
  let r := sample.o2m false (sample.source (fun _ => 5) [] sample.good_cursor) in
  let st := sample.state
              [sample.table_row "T" "WAITING" 2 0 0; sample.table_row "S" "SUCCESS" 1 1 0]
              [sample.chunk_row "T" "a" "WAITING"; sample.chunk_row "T" "b" "WAITING"] in
  let after := store (snd (CSV_reset r ["T"; "S"] st)) in
  full_sync_meta after = [] /\
  wait_sync_meta after = [sample.table_row "S" "SUCCESS" 1 1 0; waiting_row r "T"].
Proof.
  intros r st after.
  assert (gateway : healthy r) by (intros n; reflexivity).
  destruct (reset_forgets_the_plans r ["T"; "S"] st gateway eq_refl)
    as (_ & Hchunks & _).
  split; [etransitivity; [exact Hchunks | reflexivity] | reflexivity].
Defined.

(** ** Computations that leave the source alone *)

Lemma keeps_trace_ret {A} (a : A) : keeps_trace (ret a).
Proof. intros st. reflexivity. Qed.

Lemma keeps_trace_fail {A} (e : error) : keeps_trace (@fail A e).
Proof. intros st. reflexivity. Qed.

Lemma keeps_trace_check (err : option error) : keeps_trace (check err).
Proof. destruct err; [apply keeps_trace_fail | apply keeps_trace_ret]. Qed.

Lemma keeps_trace_unwrap {A} (res : result A) : keeps_trace (unwrap res).
Proof. destruct res; [apply keeps_trace_ret | apply keeps_trace_fail]. Qed.

Lemma keeps_trace_bind {A B} (c : M A) (k : A -> M B) :
  keeps_trace c -> (forall a, keeps_trace (k a)) -> keeps_trace (bind c k).
Proof.
  intros Hc Hk st. unfold bind. specialize (Hc st).
  destruct (c st) as [[a|e|msg] st']; simpl in *; [|assumption..].
  now rewrite Hk.
Qed.

Lemma keeps_trace_call {A} (h : meta.Meta) (f : Store -> A * Store) :
  keeps_trace (meta.call h f).
Proof.
  intros st. unfold meta.call.
  destruct (meta.fault h (calls st)); [reflexivity|].
  now destruct (f (store st)).
Qed.

Lemma keeps_trace_exec (h : meta.Meta) (f : Store -> Store) : keeps_trace (meta.exec h f).
Proof.
  unfold meta.exec. apply keeps_trace_bind; [apply keeps_trace_call|].
  intros a. apply keeps_trace_ret.
Qed.

Lemma keeps_trace_for_each {A} (xs : list A) (body : A -> M unit) :
  (forall x, keeps_trace (body x)) -> keeps_trace (for_each xs body).
Proof.
  intros H. induction xs as [|x rest IH]; simpl; [apply keeps_trace_ret|].
  apply keeps_trace_bind; auto.
Qed.

Create HintDb keeps_trace.
#[local] Hint Resolve keeps_trace_ret keeps_trace_fail keeps_trace_check keeps_trace_unwrap
  keeps_trace_call keeps_trace_exec : keeps_trace.

Ltac keeps_trace :=
  repeat first
    [ apply keeps_trace_bind; [|intros ?]
    | apply keeps_trace_for_each; intros ?
    | match goal with
      | |- keeps_trace (if ?b then _ else _) => destruct b
      | |- keeps_trace (match ?x with _ => _ end) => destruct x
      end
    | solve [auto with keeps_trace] ].

Lemma CSV_prepare_keeps_trace pkg r : keeps_trace (CSV_prepare pkg r).
Proof.
  unfold CSV_prepare, CSV_reset, CSV_clear, CSV_gate, CSV_ensure, CSV_waiting.
  unfold meta.DeleteFullSyncMetaBySchemaSyncMode, meta.DeleteWaitSyncMeta,
    meta.DetailWaitSyncMeta, meta.CreateWaitSyncMeta,
    meta.DetailWaitSyncMetaSuccessTables, meta.DeleteWaitSyncMetaSuccessTables,
    meta.CountsErrWaitSyncMetaBySchema, meta.query.
  keeps_trace.
Qed.

(** ** Resuming the RUNNING tables *)

Section Resume.

Variable r : O2M.
Hypothesis gateway : healthy r.

Lemma consistentb_spec db t : consistentb db t = true <-> consistent db t.
Proof. unfold consistentb, consistent. apply Z.eqb_eq. Qed.

Lemma classify (partSyncDetails : list WaitSyncMeta.t) :
  forall partSyncTables panicTblFullSlice st,
  exists n,
    CSV_classify r partSyncDetails partSyncTables panicTblFullSlice st
    = (Done
         ((partSyncTables
           ++ map WaitSyncMeta.TableNameS
                (List.filter (consistentb (store st)) partSyncDetails))%list,
          (panicTblFullSlice
           ++ map WaitSyncMeta.TableNameS
                (List.filter (fun t => negb (consistentb (store st) t)) partSyncDetails))%list),
       {| store := store st; calls := n; trace := trace st |}).
Proof.
  induction partSyncDetails as [|t rest IH]; intros partSyncTables panicTblFullSlice st.
  - exists (calls st). simpl. rewrite !app_nil_r. now destruct st.
  - cbn [CSV_classify]. unfold meta.CountsFullSyncMetaByTaskTable.
    rewrite (bind_query_healthy r gateway). cbn [unwrap]. rewrite bind_ret.
    cbn [List.filter].
    change (Z.of_nat (length (List.filter _ (full_sync_meta (store st))))
            =? WaitSyncMeta.ChunkTotalNums t)
      with (consistentb (store st) t).
    destruct (consistentb (store st) t); cbn [negb].
    + match goal with |- context [CSV_classify r rest ?a ?b ?s] =>
        destruct (IH a b s) as (n & ->) end.
      exists n. cbn [store trace map]. now rewrite <- !app_assoc.
    + match goal with |- context [CSV_classify r rest ?a ?b ?s] =>
        destruct (IH a b s) as (n & ->) end.
      exists n. cbn [store trace map]. now rewrite <- !app_assoc.
Qed.

Lemma filter_all {A} (f : A -> bool) (l : list A) :
  Forall (fun a => f a = true) l -> List.filter f l = l.
Proof.
  induction 1 as [|a l Ha _ IH]; simpl; [reflexivity|]. now rewrite Ha, IH.
Qed.

Lemma filter_nothing {A} (f : A -> bool) (l : list A) :
  Forall (fun a => f a = true) l -> List.filter (fun a => negb (f a)) l = [].
Proof.
  induction 1 as [|a l Ha _ IH]; simpl; [reflexivity|]. now rewrite Ha, IH.
Qed.

Lemma filter_something {A} (f : A -> bool) (l : list A) :
  Exists (fun a => f a = false) l ->
  (0 <? length (List.filter (fun a => negb (f a)) l))%nat = true.
Proof.
  induction 1 as [a l Ha | a l _ IH]; simpl.
  - now rewrite Ha.
  - destruct (f a); simpl; [exact IH | reflexivity].
Qed.

Lemma resumable_abort (st : State) :
  Exists (fun t => ~ consistent (store st) t) (running r (store st)) ->
  exists n,
    CSV_resumable r st
    = (Fail checkpoint_inconsistent,
       {| store := store st; calls := n; trace := trace st |}).
Proof.
  intros Hbad. unfold CSV_resumable, meta.QueryWaitSyncMetaByPartTask.
  rewrite (bind_query_healthy r gateway). cbn [unwrap]. rewrite bind_ret.
  unfold bind at 1.
  match goal with |- context [CSV_classify r ?d ?a ?b ?s] =>
    destruct (classify d a b s) as (n & ->) end.
  cbn [store trace app].
  change (List.filter _ (wait_sync_meta (store st))) with (running r (store st)).
  rewrite length_map, filter_something.
  - exists n. reflexivity.
  - eapply List.Exists_impl; [|exact Hbad]. intros t Ht. simpl in Ht.
    destruct (consistentb (store st) t) eqn:E; [|reflexivity].
    apply consistentb_spec in E. contradiction.
Qed.

Lemma resumable_resume (st : State) :
  Forall (consistent (store st)) (running r (store st)) ->
  exists n,
    CSV_resumable r st
    = (Done (map WaitSyncMeta.TableNameS (running r (store st))),
       {| store := store st; calls := n; trace := trace st |}).
Proof.
  intros Hgood. unfold CSV_resumable, meta.QueryWaitSyncMetaByPartTask.
  rewrite (bind_query_healthy r gateway). cbn [unwrap]. rewrite bind_ret.
  unfold bind at 1.
  match goal with |- context [CSV_classify r ?d ?a ?b ?s] =>
    destruct (classify d a b s) as (n & ->) end.
  cbn [store trace app].
  change (List.filter _ (wait_sync_meta (store st))) with (running r (store st)).
  assert (Hall : Forall (fun t => consistentb (store st) t = true) (running r (store st))).
  { eapply List.Forall_impl; [|exact Hgood]. intros t Ht. now apply consistentb_spec. }
  rewrite (filter_nothing _ _ Hall), (filter_all _ _ Hall).
  exists n. reflexivity.
Qed.

End Resume.

(** C4.  The run has reached the list of the tables that wait, in state
    [st1], and the gateway answers.  If some RUNNING table of the run has
    a number of stored chunk rows other than its [ChunkTotalNums], the
    run ends with the error of the inconsistent checkpoint; the metadata
    is as in [st1] and no call has been made on the source, on a cursor
    or on the writer.  If all RUNNING tables are consistent, they are the
    tables to resume: the metadata is as in [st1], and the run goes on
    with the export of these tables from their stored chunk rows, the
    planner being given the waiting tables only. *)
Theorem checkpoint_must_be_consistent
  (pkg : Package) (r : O2M) (st st1 : State)
  (oracleCollation : bool) (waitSyncTables : list string) :
  healthy r ->
  CSV_prepare pkg r st = (Done (oracleCollation, waitSyncTables), st1) ->
  (Exists (fun t => ~ consistent (store st1) t) (running r (store st1)) ->
   exists st2,
     CSV pkg r st = (Fail checkpoint_inconsistent, st2) /\
     store st2 = store st1 /\
     trace st2 = trace st) /\
  (Forall (consistent (store st1)) (running r (store st1)) ->
   let partSyncTables := map WaitSyncMeta.TableNameS (running r (store st1)) in
   exists st2,
     CSV_resumable r st1 = (Done partSyncTables, st2) /\
     store st2 = store st1 /\
     trace st2 = trace st /\
     CSV pkg r st
     = (CSV_export pkg r partSyncTables waitSyncTables oracleCollation ;; CSV_report r) st2).
Proof.
  intros gateway Hprep.
  assert (Htrace : trace st1 = trace st).
  { pose proof (CSV_prepare_keeps_trace pkg r st) as H. now rewrite Hprep in H. }
  split.
  - intros Hbad. destruct (resumable_abort r gateway st1 Hbad) as (n & Hres).
    eexists. split; [|split].
    + unfold CSV. unfold bind at 1. rewrite Hprep.
      unfold bind at 1. rewrite Hres. reflexivity.
    + reflexivity.
    + exact Htrace.
  - intros Hgood partSyncTables.
    destruct (resumable_resume r gateway st1 Hgood) as (n & Hres).
    eexists. split; [exact Hres|]. split; [reflexivity|]. split; [exact Htrace|].
    unfold CSV. unfold bind at 1. rewrite Hprep.
    unfold bind at 1. rewrite Hres. reflexivity.
Qed.

Lemma checkpoint_must_be_consistent_witness :
  let r := sample.o2m true (sample.source (fun _ => 5) [] sample.good_cursor) in
  let st := sample.state [sample.table_row "T" "RUNNING" 5 2 0]
              [sample.chunk_row "T" "a" "SUCCESS"; sample.chunk_row "T" "b" "SUCCESS";
               sample.chunk_row "T" "c" "WAITING"] in
  exists st2,
    CSV (sample.pkg ["T"]) r st = (Fail checkpoint_inconsistent, st2) /\
    store st2 = store st /\
    trace st2 = [].
Proof.
  intros r st.
  assert (gateway : healthy r) by (intros n; reflexivity).
  assert (Hprep : CSV_prepare (sample.pkg ["T"]) r st
                  = (Done (true, []),
                     {| store := store st; calls := 4; trace := [] |})) by reflexivity.
  destruct (checkpoint_must_be_consistent (sample.pkg ["T"]) r st _ _ _ gateway Hprep)
    as [Habort _].
  apply Habort. apply Exists_cons_hd. unfold consistent. discriminate.
Defined.

(** * Further properties *)

(** ** The errors of the projection compiler *)

Lemma exact_types_split (dataType : string) :
  is_one_of dataType exact_types = false <->
  is_one_of dataType ["NUMBER"] = false /\
  is_one_of dataType
    ["DECIMAL"; "DEC"; "DOUBLE PRECISION"; "FLOAT"; "INTEGER"; "INT"; "REAL";
     "NUMERIC"; "BINARY_FLOAT"; "BINARY_DOUBLE"; "SMALLINT"] = false /\
  is_one_of dataType
    ["BFILE"; "CHARACTER"; "LONG"; "NCHAR VARYING"; "ROWID"; "UROWID";
     "VARCHAR"; "CHAR"; "NCHAR"; "NVARCHAR2"; "NCLOB"; "CLOB"] = false /\
  is_one_of dataType ["XMLTYPE"] = false /\
  is_one_of dataType ["BLOB"; "LONG RAW"; "RAW"] = false /\
  is_one_of dataType ["DATE"] = false.
Proof.
  unfold exact_types, is_one_of. rewrite !existsb_app, !orb_false_iff. reflexivity.
Qed.

Lemma selectColumn_error (rowCol : gmap string string) (e : error) :
  selectColumn rowCol = Err e <->
  exists err, bad_scale rowCol err /\ e = scale_error (at_key rowCol "DATA_SCALE") err.
Proof.
  unfold bad_scale, reaches_timestamp, scale_error. split.
  - unfold selectColumn.
    destruct (is_one_of _ ["NUMBER"]) eqn:E1; [discriminate|].
    destruct (is_one_of _ ("DECIMAL" :: _)) eqn:E2; [discriminate|].
    destruct (is_one_of _ ("BFILE" :: _)) eqn:E3; [discriminate|].
    destruct (is_one_of _ ["XMLTYPE"]) eqn:E4; [discriminate|].
    destruct (is_one_of _ ("BLOB" :: _)) eqn:E5; [discriminate|].
    destruct (is_one_of _ ["DATE"]) eqn:E6; [discriminate|].
    destruct (strings.Contains _ "INTERVAL") eqn:E7; [discriminate|].
    destruct (strings.Contains _ "TIMESTAMP") eqn:E8; [|discriminate].
    destruct (strconv.Atoi _) as [scale|err] eqn:E9.
    + repeat match goal with |- context [if ?b then _ else _] => destruct b end;
        discriminate.
    + intros [= <-]. exists err. split; [|reflexivity]. split; [|reflexivity].
      assert (is_one_of (strings.ToUpper (at_key rowCol "DATA_TYPE")) exact_types = false)
        as -> by (apply exact_types_split; repeat split; assumption).
      reflexivity.
  - intros (err & (Hts & Hscale) & ->).
    apply andb_true_iff in Hts as [Hts H8].
    apply andb_true_iff in Hts as [H0 H7].
    apply negb_true_iff in H0, H7.
    apply exact_types_split in H0 as (E1 & E2 & E3 & E4 & E5 & E6).
    unfold selectColumn. now rewrite E1, E2, E3, E4, E5, E6, H7, H8, Hscale.
Qed.

Lemma selectColumn_good (rowCol : gmap string string) :
  good_scale rowCol <-> exists expr, selectColumn rowCol = Ok expr.
Proof.
  unfold good_scale. split.
  - intros Hgood. destruct (selectColumn rowCol) as [expr|e] eqn:E; [eauto|].
    apply selectColumn_error in E as (err & (Hts & Hscale) & _).
    destruct (Hgood Hts) as (scale & Hok). congruence.
  - intros (expr & Hok) Hts.
    destruct (strconv.Atoi (at_key rowCol "DATA_SCALE")) as [scale|err] eqn:E; [eauto|].
    assert (selectColumn rowCol
            = Err (scale_error (at_key rowCol "DATA_SCALE") err)) as H.
    { apply selectColumn_error. exists err. split; [split|]; auto. }
    congruence.
Qed.

Lemma selectColumns_error (columnsINFO : list (gmap string string)) :
  forall columnNames e,
    selectColumns columnsINFO columnNames = Err e <->
    exists pre rowCol post err,
      columnsINFO = (pre ++ rowCol :: post)%list /\
      Forall good_scale pre /\
      bad_scale rowCol err /\
      e = scale_error (at_key rowCol "DATA_SCALE") err.
Proof.
  induction columnsINFO as [|rowCol rest IH]; intros columnNames e; simpl.
  - split; [discriminate|]. intros (pre & x & post & err & H & _).
    destruct pre; discriminate H.
  - destruct (selectColumn rowCol) as [expr|e0] eqn:E.
    + rewrite IH. split.
      * intros (pre & x & post & err & -> & Hpre & Hbad & ->).
        exists (rowCol :: pre), x, post, err.
        split; [reflexivity|].
        split; [constructor; [apply selectColumn_good; eauto | exact Hpre]|].
        split; [exact Hbad | reflexivity].
      * intros (pre & x & post & err & Heq & Hpre & Hbad & ->).
        destruct pre as [|p pre]; simpl in Heq; injection Heq as <- ->.
        -- exfalso.
           assert (selectColumn rowCol
                   = Err (scale_error (at_key rowCol "DATA_SCALE") err)) as H
             by (apply selectColumn_error; eauto).
           congruence.
        -- inversion Hpre; subst. exists pre, x, post, err.
           split; [reflexivity|]. split; [assumption|]. split; [exact Hbad | reflexivity].
    + apply selectColumn_error in E as (err0 & Hbad0 & ->). split.
      * intros [= <-]. exists [], rowCol, rest, err0.
        split; [reflexivity|]. split; [constructor|]. split; [exact Hbad0 | reflexivity].
      * intros (pre & x & post & err & Heq & Hpre & Hbad & ->).
        destruct pre as [|p pre]; simpl in Heq; injection Heq as <- ->.
        -- destruct Hbad0 as [_ H0], Hbad as [_ H1]. congruence.
        -- exfalso. inversion Hpre as [|? ? Hgood _]; subst.
           destruct Hbad0 as [Hts H0]. destruct (Hgood Hts) as (scale & Hok). congruence.
Qed.

(** X1.  The projection compiler returns an error exactly when the
    catalog cannot be read, and then it is the error of the read, or
    when some TIMESTAMP row of the catalog has a scale that is not an
    integer, and then it is the error of the first such row.  No other
    row, whatever its type or scale, makes it fail. *)
Theorem projection_error_is_the_first_bad_scale
  (Cfg : config.Config) (Oracle : oracle.Oracle) (sourceTable : string)
  (oracleCollation : bool) (e : error) :
  adjustTableSelectColumn Cfg Oracle sourceTable oracleCollation = Err e <->
  oracle.GetOracleSchemaTableColumn Oracle
    (config.OracleSchemaName (config.Oracle Cfg)) sourceTable oracleCollation = Err e \/
  exists pre rowCol post err,
    oracle.GetOracleSchemaTableColumn Oracle
      (config.OracleSchemaName (config.Oracle Cfg)) sourceTable oracleCollation
    = Ok (pre ++ rowCol :: post)%list /\
    Forall good_scale pre /\
    bad_scale rowCol err /\
    e = scale_error (at_key rowCol "DATA_SCALE") err.
Proof.
  unfold adjustTableSelectColumn.
  destruct (oracle.GetOracleSchemaTableColumn _ _ _ _) as [columnsINFO|e0].
  - destruct (selectColumns columnsINFO []) as [columnNames|e1] eqn:E.
    + split; [discriminate|].
      intros [H | (pre & x & post & err & Heq & Hpre & Hbad & He)]; [discriminate|].
      injection Heq as ->.
      assert (selectColumns (pre ++ x :: post) [] = Err e) as H'.
      { apply selectColumns_error. exists pre, x, post, err. auto. }
      congruence.
    + split.
      * intros [= <-]. right.
        apply selectColumns_error in E as (pre & x & post & err & -> & Hpre & Hbad & ->).
        exists pre, x, post, err. auto.
      * intros [H | (pre & x & post & err & Heq & Hpre & Hbad & He)]; [discriminate|].
        injection Heq as ->.
        assert (selectColumns (pre ++ x :: post) [] = Err e) as H'.
        { apply selectColumns_error. exists pre, x, post, err. auto. }
        congruence.
  - split.
    + intros [= <-]. now left.
    + intros [[= <-] | (pre & x & post & err & Heq & _)]; [reflexivity | discriminate].
Qed.

(** ** What a computation may call *)

Lemma adds_only_keeps {A} (P : Event -> Prop) (c : M A) :
  keeps_trace c -> adds_only P c.
Proof. intros H st. exists []. split; [now rewrite H, app_nil_r | constructor]. Qed.

Lemma adds_only_emit (P : Event -> Prop) (ev : Event) : P ev -> adds_only P (emit ev).
Proof. intros H st. exists [ev]. split; [reflexivity | now constructor]. Qed.

Lemma adds_only_bind {A B} (P : Event -> Prop) (c : M A) (k : A -> M B) :
  adds_only P c -> (forall a, adds_only P (k a)) -> adds_only P (bind c k).
Proof.
  intros Hc Hk st. unfold bind. destruct (Hc st) as (evs & Ht & Hevs).
  destruct (c st) as [[a|e|msg] st']; simpl in *; eauto.
  destruct (Hk a st') as (evs' & Ht' & Hevs').
  exists (evs ++ evs')%list. split.
  - now rewrite Ht', Ht, app_assoc.
  - apply Forall_app. auto.
Qed.

Lemma adds_only_Wait (P : Event -> Prop) (tasks : list (M unit)) :
  Forall (adds_only P) tasks -> forall first, adds_only P (errgroup.Wait tasks first).
Proof.
  induction 1 as [|task rest Htask _ IH]; intros first st; simpl.
  - exists []. split; [|constructor]. rewrite app_nil_r. now destruct first.
  - destruct (Htask st) as (evs & Ht & Hevs).
    destruct (task st) as [[[]|e|msg] st']; simpl in *; eauto.
    + destruct (IH first st') as (evs' & Ht' & Hevs').
      exists (evs ++ evs')%list. split; [now rewrite Ht', Ht, app_assoc|].
      apply Forall_app. auto.
    + destruct (IH (match first with Some _ => first | None => Some e end) st')
        as (evs' & Ht' & Hevs').
      exists (evs ++ evs')%list. split; [now rewrite Ht', Ht, app_assoc|].
      apply Forall_app. auto.
Qed.

Lemma adds_only_ret {A} (P : Event -> Prop) (a : A) : adds_only P (ret a).
Proof. apply adds_only_keeps, keeps_trace_ret. Qed.

Lemma adds_only_fail {A} (P : Event -> Prop) (e : error) : adds_only P (@fail A e).
Proof. apply adds_only_keeps, keeps_trace_fail. Qed.

Lemma adds_only_panic {A} (P : Event -> Prop) (msg : string) : adds_only P (@panic A msg).
Proof. intros st. exists []. split; [now rewrite app_nil_r | constructor]. Qed.

Lemma adds_only_check (P : Event -> Prop) (err : option error) : adds_only P (check err).
Proof. apply adds_only_keeps, keeps_trace_check. Qed.

Lemma adds_only_unwrap {A} (P : Event -> Prop) (res : result A) : adds_only P (unwrap res).
Proof. apply adds_only_keeps, keeps_trace_unwrap. Qed.

Lemma adds_only_exec (P : Event -> Prop) (h : meta.Meta) (f : Store -> Store) :
  adds_only P (meta.exec h f).
Proof. apply adds_only_keeps, keeps_trace_exec. Qed.

Lemma adds_only_call {A} (P : Event -> Prop) (h : meta.Meta) (f : Store -> A * Store) :
  adds_only P (meta.call h f).
Proof. apply adds_only_keeps, keeps_trace_call. Qed.

Create HintDb adds_only.
#[local] Hint Resolve adds_only_ret adds_only_fail adds_only_panic adds_only_check
  adds_only_unwrap adds_only_exec adds_only_call : adds_only.

Ltac adds_only :=
  repeat first
    [ apply adds_only_bind; [|intros ?]
    | apply adds_only_emit; solve [exact I | auto]
    | match goal with
      | |- adds_only _ (if ?b then _ else _) => destruct b
      | |- adds_only _ (match ?x with _ => _ end) => destruct x
      end
    | solve [auto with adds_only] ].

Lemma planTask_calls_the_splitter pkg r rule coll globalSCN parts workerID t :
  adds_only splitter_event (planTask pkg r rule coll globalSCN parts workerID t).
Proof.
  unfold planTask, planWholeTable, meta.BatchCreateFullSyncMetaAndUpdateWaitSyncMeta,
    meta.CreateFullSyncMetaAndUpdateWaitSyncMeta.
  adds_only.
Qed.

Lemma initWaitSyncTableRowID_calls_the_splitter pkg r csvWaitTables rule coll :
  adds_only splitter_event (initWaitSyncTableRowID pkg r csvWaitTables rule coll).
Proof.
  unfold initWaitSyncTableRowID.
  apply adds_only_bind; [auto with adds_only | intros globalSCN].
  apply adds_only_bind; [auto with adds_only | intros parts].
  apply adds_only_Wait. apply List.Forall_forall. intros task Hin.
  apply list_elem_of_In, list_elem_of_lookup in Hin as (j & Hj).
  rewrite list_lookup_imap in Hj.
  destruct (csvWaitTables !! j) as [tj|]; [|discriminate].
  injection Hj as <-. apply planTask_calls_the_splitter.
Qed.

(** X2.  When the planning of the waiting tables returns an error,
    [csvWaitSyncTable] returns that error in the state the planning
    left: no table is exported.  Of the calls that act on the splitter,
    the cursors and the output files, the planning makes only calls on
    the chunk splitter: it opens no cursor and writes no file. *)
Theorem planning_error_blocks_the_export
  (pkg : Package) (r : O2M) (csvWaitTables : list string)
  (tableNameRule : gmap string string) (oracleCollation : bool) (st : State) :
  let planning := initWaitSyncTableRowID pkg r csvWaitTables tableNameRule oracleCollation st in
  (exists evs,
     trace (snd planning) = (trace st ++ evs)%list /\ Forall splitter_event evs) /\
  forall e,
    fst planning = Fail e ->
    csvWaitSyncTable pkg r csvWaitTables tableNameRule oracleCollation st
    = (Fail e, snd planning).
Proof.
  intros planning. split.
  - apply initWaitSyncTableRowID_calls_the_splitter.
  - intros e He. unfold csvWaitSyncTable, bind. fold planning.
    destruct planning as [[[]|e'|msg] st']; simpl in He; try discriminate.
    now injection He as ->.
Qed.

Lemma planning_error_blocks_the_export_witness :
  let r := sample.o2m true (sample.source (fun _ => 5) two_chunks sample.good_cursor) in
  let st := sample.state [sample.table_row "T" "WAITING" 0 0 0;
                          sample.table_row "B" "WAITING" 0 0 0] [] in
  fst (csvWaitSyncTable (sample.pkg ["T"; "B"]) r ["T"; "B"] ∅ false st)
  = Fail (scale_error "six" (NumError "Atoi" "six" ErrSyntax)) /\
  length (full_sync_meta (store (snd
    (csvWaitSyncTable (sample.pkg ["T"; "B"]) r ["T"; "B"] ∅ false st)))) = 2%nat.
Proof.
  intros r st.
  destruct (planning_error_blocks_the_export (sample.pkg ["T"; "B"]) r ["T"; "B"] ∅ false st)
    as [_ H].
  rewrite (H (scale_error "six" (NumError "Atoi" "six" ErrSyntax)) eq_refl).
  split; reflexivity.
Defined.

(** ** Planning without output directory *)

Lemma Wait_all_fail (e : error) (tasks : list (M unit)) :
  Forall (fun task => forall st, task st = (Fail e, st)) tasks ->
  forall first st,
    errgroup.Wait tasks first st
    = (match first, tasks with
       | Some e0, _ => Fail e0
       | None, [] => Done tt
       | None, _ :: _ => Fail e
       end, st).
Proof.
  induction 1 as [|task rest Htask _ IH]; intros first st; simpl.
  - now destruct first.
  - rewrite Htask, IH. now destruct first.
Qed.

(** X3.  Without output directory the planning of the waiting tables,
    once the snapshot and the partition list are read, fails with the
    configuration error and leaves everything as it was, for any
    non-empty list of tables: no call on the gateway, on the splitter,
    on a cursor or on the writer. *)
Theorem planning_needs_an_output_dir
  (pkg : Package) (r : O2M) (csvWaitTables : list string)
  (tableNameRule : gmap string string) (oracleCollation : bool)
  (globalSCN : Z) (partitionTables : list string) (st : State) :
  config.OutputDir (config.CSV (Cfg r)) = "" ->
  oracle.GetOracleCurrentSnapshotSCN (Oracle r) = Ok globalSCN ->
  oracle.GetOracleSchemaPartitionTable (Oracle r)
    (config.OracleSchemaName (config.Oracle (Cfg r))) = Ok partitionTables ->
  csvWaitTables <> [] ->
  initWaitSyncTableRowID pkg r csvWaitTables tableNameRule oracleCollation st
  = (Fail no_output_dir, st).
Proof.
  intros Hdir Hscn Hparts Hne. unfold initWaitSyncTableRowID.
  rewrite Hscn, Hparts. cbn [unwrap]. rewrite !bind_ret. unfold errgroup.Go.
  rewrite (Wait_all_fail no_output_dir).
  - destruct csvWaitTables; [contradiction | reflexivity].
  - apply List.Forall_forall. intros task Hin.
    apply list_elem_of_In, list_elem_of_lookup in Hin as (j & Hj).
    rewrite list_lookup_imap in Hj.
    destruct (csvWaitTables !! j) as [tj|]; [|discriminate].
    injection Hj as <-. intros st0. unfold planTask. now rewrite Hdir.
Qed.

Lemma planning_needs_an_output_dir_witness :
  let r := {| Cfg := no_dir_cfg;
              Oracle := sample.source (fun _ => 0) [] sample.good_cursor;
              MetaDB := sample.healthy |} in
  let st := sample.state [sample.table_row "T" "WAITING" 0 0 0] [] in
  initWaitSyncTableRowID (sample.pkg ["T"]) r ["T"] ∅ false st = (Fail no_output_dir, st).
Proof.
  intros r st.
  apply (planning_needs_an_output_dir (sample.pkg ["T"]) r ["T"] ∅ false 42 [] st);
    [reflexivity | reflexivity | reflexivity | discriminate].
Defined.

(** ** The chunk task, when the cursor is open *)

Lemma update_chunk_success m (db : Store) :
  recorded_success m db
    (meta.with_chunks db
       (map (fun row =>
               if chunk_of_table (chunk_key m) row
                  && String.eqb (FullSyncMeta.ChunkDetailS (chunk_key m))
                       (FullSyncMeta.ChunkDetailS row)
               then update_chunk (list_to_map [("TaskStatus", VString common.TaskStatusSuccess)])
                      row
               else row)
          (full_sync_meta db))).
Proof.
  split; [reflexivity|]. simpl.
  apply Forall2_map_self. intros row.
  assert (chunk_of_table (chunk_key m) row
          && String.eqb (FullSyncMeta.ChunkDetailS m) (FullSyncMeta.ChunkDetailS row)
          = is_chunk m row) as -> by reflexivity.
  destruct (is_chunk m row) eqn:E; [|reflexivity].
  repeat split; try reflexivity. exact E.
Qed.

(** X4.  When the cursor of a chunk opens and its column metadata is
    read, the chunk task writes the file of the chunk and, the gateway
    taking the update, records the chunk SUCCESS when the writer returns
    no error and FAILED with the writer's error text otherwise.  In both
    cases the task returns without error; it makes exactly two calls,
    the query and the writer: it does not close the cursor itself. *)
Theorem written_chunk_is_recorded
  (pkg : Package) (r : O2M) (oracleDBCharacterSet : string)
  (m : FullSyncMeta.t) (st : State) (rs : sql.Rows) (columnFields : list string) :
  oracle.QueryContext (Oracle r) (chunk_querySQL m) = (Some rs, None) ->
  sql.Columns rs = Ok columnFields ->
  meta.fault (MetaDB r) (calls st) = None ->
  let res := chunkTask pkg r oracleDBCharacterSet m st in
  fst res = Done tt /\
  trace (snd res)
  = (trace st ++ [EvQueryContext (chunk_querySQL m); EvWriteFile (FullSyncMeta.CSVFile m)])%list /\
  match WriteFile pkg (FullSyncMeta.SchemaNameS m) (FullSyncMeta.TableNameS m)
          oracleDBCharacterSet (chunk_querySQL m) (FullSyncMeta.CSVFile m) columnFields
          (config.CSV (Cfg r)) (Some rs) with
  | None => recorded_success m (store st) (store (snd res))
  | Some errW =>
      recorded_failed (FullSyncMeta_String pkg m) (Error errW) m (store st) (store (snd res))
  end.
Proof.
  intros Q C F res. subst res. unfold chunkTask, bind, emit. rewrite Q. simpl. rewrite C.
  destruct (WriteFile _ _ _ _ _ _ _ _ _) as [errW|];
    unfold meta.UpdateFullSyncMetaChunk; rewrite exec_ok by exact F; simpl.
  - repeat split; [now rewrite <- app_assoc | apply update_chunk_failed].
  - repeat split; [now rewrite <- app_assoc | apply update_chunk_success].
Qed.

Lemma written_chunk_is_recorded_witness :
  let m := sample.chunk_row "T" "1 = 1" "WAITING" in
  let st := sample.state [sample.table_row "T" "RUNNING" 1 0 0] [m] in
  let res := chunkTask (sample.pkg ["T"])
               (sample.o2m true (sample.source (fun _ => 5) [] sample.good_cursor))
               "AL32UTF8" m st in
  fst res = Done tt /\
  recorded_success m (store st) (store (snd res)).
Proof.
  intros m st res.
  destruct (written_chunk_is_recorded (sample.pkg ["T"])
              (sample.o2m true (sample.source (fun _ => 5) [] sample.good_cursor))
              "AL32UTF8" m st (sample.cursor (Ok ["ID"; "TS"]) None) ["ID"; "TS"]
              eq_refl eq_refl eq_refl) as (Hret & _ & Hrec).
  split; [exact Hret | exact Hrec].
Defined.

(** ** The calls of the table task *)

Lemma adds_only_impl {A} (P Q : Event -> Prop) (c : M A) :
  (forall ev, P ev -> Q ev) -> adds_only P c -> adds_only Q c.
Proof.
  intros HPQ H st. destruct (H st) as (evs & Ht & Hevs).
  exists evs. split; [exact Ht|]. eapply List.Forall_impl; eauto.
Qed.

(** The chunk task opens with the query of its chunk; what follows are
    calls for the same chunk. *)
Lemma chunkTask_after_query pkg r oracleDBCharacterSet m :
  exists k,
    chunkTask pkg r oracleDBCharacterSet m
    = bind (emit (EvQueryContext (chunk_querySQL m))) k /\
    forall a, adds_only (event_of_chunk m) (k a).
Proof.
  eexists. split; [reflexivity|]. intros a. cbv beta.
  unfold meta.UpdateFullSyncMetaChunk, rows_Close, rows_Columns.
  destruct (oracle.QueryContext (Oracle r) (chunk_querySQL m)) as [rowsResult [err|]].
  - apply adds_only_bind; [auto with adds_only | intros [errf|]]; [auto with adds_only|].
    apply adds_only_bind; [|intros ?; auto with adds_only].
    destruct rowsResult; [|auto with adds_only].
    apply adds_only_bind; [|intros ?; auto with adds_only].
    apply adds_only_emit. right. left. reflexivity.
  - apply adds_only_bind; [destruct rowsResult; auto with adds_only | intros [columnFields|err]].
    + apply adds_only_bind; [apply adds_only_emit; right; right; reflexivity | intros _].
      destruct (WriteFile _ _ _ _ _ _ _ _ _) as [errW|].
      * apply adds_only_bind; [auto with adds_only | intros [errf|]]; auto with adds_only.
      * apply adds_only_bind; [auto with adds_only | intros ?]; auto with adds_only.
    + apply adds_only_bind; [auto with adds_only | intros [errf|]]; [auto with adds_only|].
      apply adds_only_bind; [|intros ?; auto with adds_only].
      destruct rowsResult; [|auto with adds_only].
      apply adds_only_bind; [|intros ?; auto with adds_only].
      apply adds_only_emit. right. left. reflexivity.
Qed.

Lemma chunkTask_calls pkg r oracleDBCharacterSet m :
  adds_only (event_of_chunk m) (chunkTask pkg r oracleDBCharacterSet m).
Proof.
  destruct (chunkTask_after_query pkg r oracleDBCharacterSet m) as (k & Hk0 & Hk).
  rewrite Hk0.
  apply adds_only_bind; [apply adds_only_emit; left; reflexivity | exact Hk].
Qed.

Lemma tableOutcome_keeps_trace r t : keeps_trace (tableOutcome r t).
Proof.
  unfold tableOutcome, meta.CountsErrorFullSyncMeta, meta.DetailFullSyncMeta,
    meta.DeleteTableFullSyncMetaAndUpdateWaitSyncMeta, meta.UpdateWaitSyncMeta, meta.query.
  keeps_trace.
Qed.

Lemma pending_of_query r t status (db : Store) m :
  status = common.TaskStatusWaiting \/ status = common.TaskStatusFailed ->
  In m (List.filter
          (fun row => chunk_of_table (table_chunks r t status) row
                      && chunk_has_status (table_chunks r t status) row)
          (full_sync_meta db)) ->
  pending_chunk r t db m.
Proof.
  intros Hs Hin. apply List.filter_In in Hin as (Hin & Hm).
  apply andb_true_iff in Hm as (Hk & Hst).
  apply String.eqb_eq in Hst. simpl in Hst.
  split; [exact Hin|]. split; [exact Hk|].
  destruct Hs as [-> | ->]; [left | right]; now symmetry.
Qed.

(** X5.  Whatever the gateway answers, the calls that the task of a
    table makes on the source and on the writer are calls for chunks of
    that table that were WAITING or FAILED in the metadata database when
    the task started: the query of such a chunk, the close of its
    cursor, the writing of its file.  A chunk that is recorded SUCCESS
    is neither read nor written again, and no chunk of another table is
    touched. *)
Theorem table_task_touches_only_pending_chunks
  (pkg : Package) (r : O2M) (oracleDBCharacterSet t : string) (st : State) :
  exists evs,
    trace (snd (tableTask pkg r oracleDBCharacterSet t st)) = (trace st ++ evs)%list /\
    Forall (fun ev => exists m, pending_chunk r t (store st) m /\ event_of_chunk m ev) evs.
Proof.
  set (Q := fun ev => exists m, pending_chunk r t (store st) m /\ event_of_chunk m ev).
  assert (Hnone : exists evs, trace st = (trace st ++ evs)%list /\ Forall Q evs).
  { exists []. split; [now rewrite app_nil_r | constructor]. }
  unfold tableTask, meta.UpdateWaitSyncMeta, meta.DetailFullSyncMeta, bind at 1.
  destruct (meta.fault (MetaDB r) (calls st)) as [msg|] eqn:F0.
  { rewrite (exec_fault _ _ _ msg F0). exact Hnone. }
  rewrite exec_ok by exact F0. simpl check. rewrite bind_ret.
  match goal with |- context [bind _ _ ?s] => set (st1 := s) end.
  unfold bind at 1.
  destruct (meta.fault (MetaDB r) (calls st1)) as [msg|] eqn:F1.
  { rewrite (query_fault _ _ _ msg F1). exact Hnone. }
  rewrite query_ok by exact F1. simpl unwrap. rewrite bind_ret.
  match goal with |- context [bind _ _ ?s] => set (st2 := s) end.
  unfold bind at 1.
  destruct (meta.fault (MetaDB r) (calls st2)) as [msg|] eqn:F2.
  { rewrite (query_fault _ _ _ msg F2). exact Hnone. }
  rewrite query_ok by exact F2. simpl unwrap. rewrite bind_ret.
  match goal with |- context [bind _ _ ?s] => set (st3 := s) end.
  assert (Hall : adds_only Q
            (bind (errgroup.Go
                     (map (chunkTask pkg r oracleDBCharacterSet)
                        (List.filter
                           (fun row =>
                              chunk_of_table (table_chunks r t common.TaskStatusWaiting) row
                              && chunk_has_status (table_chunks r t common.TaskStatusWaiting) row)
                           (full_sync_meta (store st))
                         ++ List.filter
                           (fun row =>
                              chunk_of_table (table_chunks r t common.TaskStatusFailed) row
                              && chunk_has_status (table_chunks r t common.TaskStatusFailed) row)
                           (full_sync_meta (store st)))%list))
               (fun _ => tableOutcome r t))).
  { apply adds_only_bind; [|intros _; apply adds_only_keeps, tableOutcome_keeps_trace].
    apply adds_only_Wait. apply List.Forall_forall. intros task Hin.
    apply in_map_iff in Hin as (m & <- & Hm).
    apply (adds_only_impl (event_of_chunk m)); [|apply chunkTask_calls].
    intros ev Hev. exists m. split; [|exact Hev].
    apply in_app_or in Hm as [Hm | Hm].
    - apply (pending_of_query r t common.TaskStatusWaiting); auto.
    - apply (pending_of_query r t common.TaskStatusFailed); auto. }
  exact (Hall st3).
Qed.

(** ** The run, before the export *)

(** X6.  [CSV] stops before its first call on the metadata gateway, and
    leaves everything as it was, when the version of the source cannot
    be read (with the error of the read), when the version is below the
    required one (with the version error), and when the configured
    tables cannot be listed (with the error of the listing). *)
Theorem run_stops_before_the_metadata (pkg : Package) (r : O2M) (st : State) :
  (forall e,
     oracle.GetOracleDBVersion (Oracle r) = Err e ->
     CSV pkg r st = (Fail e, st)) /\
  (forall oraDBVersion,
     oracle.GetOracleDBVersion (Oracle r) = Ok oraDBVersion ->
     String.ltb (VersionOrdinal pkg oraDBVersion)
       (VersionOrdinal pkg (RequireOracleDBVersion pkg)) = true ->
     CSV pkg r st = (Fail (version_too_old oraDBVersion), st)) /\
  (forall oraDBVersion e,
     oracle.GetOracleDBVersion (Oracle r) = Ok oraDBVersion ->
     String.ltb (VersionOrdinal pkg oraDBVersion)
       (VersionOrdinal pkg (RequireOracleDBVersion pkg)) = false ->
     filterCFGTable pkg (Cfg r) (Oracle r) = Err e ->
     CSV pkg r st = (Fail e, st)).
Proof.
  repeat split.
  - intros e Hv. unfold CSV, CSV_prepare. now rewrite Hv.
  - intros v Hv Hold. unfold CSV, CSV_prepare. rewrite Hv. cbn [unwrap].
    rewrite bind_ret, Hold. reflexivity.
  - intros v e Hv Hnew Hf. unfold CSV, CSV_prepare. rewrite Hv. cbn [unwrap].
    rewrite bind_ret, Hnew, Hf. reflexivity.
Qed.

Lemma run_stops_before_the_metadata_witness :
  let r := sample.o2m true old_source in
  let st := sample.state [sample.table_row "T" "WAITING" 0 0 0] [] in
  CSV (sample.pkg ["T"]) r st = (Fail (version_too_old "10.2"), st).
Proof.
  intros r st.
  destruct (run_stops_before_the_metadata (sample.pkg ["T"]) r st) as (_ & H & _).
  apply (H "10.2"); reflexivity.
Defined.

Lemma filter_filter_keep {A} (f g : A -> bool) (l : list A) :
  (forall a, f a = true -> g a = true) ->
  List.filter f (List.filter g l) = List.filter f l.
Proof.
  intros H. induction l as [|a l IH]; simpl; [reflexivity|].
  destruct (g a) eqn:G; simpl.
  - now rewrite IH.
  - destruct (f a) eqn:F; [|exact IH].
    apply H in F. congruence.
Qed.

Lemma length_zero_nil {A} (l : list A) : (length l =? 0)%nat = true <-> l = [].
Proof. destruct l; simpl; split; intros H; try reflexivity; discriminate. Qed.

Section Prepare.

Variable pkg : Package.
Variable r : O2M.
Hypothesis gateway : healthy r.

(** The store after the SUCCESS rows of the tables outside the run are
    cleared. *)
Lemma CSV_clear_failed (exporters : list string) (st : State) :
  exists st',
    CSV_clear r exporters st = (Done tt, st') /\
    trace st' = trace st /\
    full_sync_meta (store st') = full_sync_meta (store st) /\
    failed_tables r (store st') = failed_tables r (store st).
Proof.
  unfold CSV_clear, meta.DetailWaitSyncMetaSuccessTables, meta.DeleteWaitSyncMetaSuccessTables.
  rewrite (bind_query_healthy r gateway). cbn [unwrap]. rewrite bind_ret.
  match goal with |- context [if ?c then _ else _] => destruct c end.
  - rewrite (bind_exec_healthy r gateway). cbn [check ret store trace].
    eexists. split; [reflexivity|]. cbn [store trace]. repeat split.
    unfold failed_tables, meta.with_tables. cbn [wait_sync_meta].
    apply filter_filter_keep. intros row Hrow.
    apply andb_true_iff in Hrow as (_ & Hst). apply String.eqb_eq in Hst.
    unfold table_has_status. cbn [WaitSyncMeta.TaskStatus run_tables WaitSyncMeta.lit].
    rewrite <- Hst. cbn. now rewrite andb_false_r.
  - eexists. split; [reflexivity|]. repeat split.
Qed.

Lemma CSV_gate_failed (st : State) :
  failed_tables r (store st) <> [] ->
  exists st',
    CSV_gate r st = (Fail (prior_failure r), st') /\
    trace st' = trace st /\ store st' = store st.
Proof.
  intros Hfailed. unfold CSV_gate, meta.CountsErrWaitSyncMetaBySchema.
  rewrite (bind_query_healthy r gateway). cbn [unwrap]. rewrite bind_ret.
  change (List.filter _ (wait_sync_meta (store _))) with (failed_tables r (store st)).
  destruct (failed_tables r (store st)) as [|row rest]; [contradiction|].
  replace (0 <? Z.of_nat (length (row :: rest))) with true
    by (symmetry; apply Z.ltb_lt; simpl length; lia).
  eexists. split; [reflexivity|]. split; reflexivity.
Qed.

Lemma ensure_body (tableName : string) (st : State) :
  exists n,
    (detail <- meta.DetailWaitSyncMeta (MetaDB r) (table_row r tableName) ;;
     waitSyncMetas <- unwrap detail ;;
     if (length waitSyncMetas =? 0)%nat then
       err <- meta.CreateWaitSyncMeta (MetaDB r) (waiting_row r tableName) ;;
       check err
     else ret tt) st
    = (Done tt,
       {| store := ensure_table r (store st) tableName; calls := n; trace := trace st |}).
Proof.
  unfold meta.DetailWaitSyncMeta, meta.CreateWaitSyncMeta.
  rewrite (bind_query_healthy r gateway). cbn [unwrap]. rewrite bind_ret.
  cbn [store calls trace]. unfold ensure_table.
  change (List.filter _ (wait_sync_meta (store st))) with (rows_of_table r tableName (store st)).
  destruct (length (rows_of_table r tableName (store st)) =? 0)%nat.
  - rewrite (bind_exec_healthy r gateway). cbn [check ret store calls trace].
    eexists. reflexivity.
  - eexists. unfold ret. now destruct st.
Qed.

Lemma ensure_loop (exporters : list string) : forall st,
  exists n,
    CSV_ensure r exporters st
    = (Done tt,
       {| store := fold_left (ensure_table r) exporters (store st);
          calls := n; trace := trace st |}).
Proof.
  unfold CSV_ensure.
  induction exporters as [|tableName rest IH]; intros st.
  - exists (calls st). now destruct st.
  - cbn [for_each fold_left]. unfold bind at 1.
    destruct (ensure_body tableName st) as (n & Hn).
    change (WaitSyncMeta.lit _ _ _ _ _ _) with (table_row r tableName) at 1.
    rewrite Hn.
    destruct (IH {| store := ensure_table r (store st) tableName; calls := n;
                    trace := trace st |}) as (n' & ->).
    exists n'. reflexivity.
Qed.

End Prepare.

(** ** Recording the configured tables *)

Lemma rows_of_table_app r t (db : Store) (rows : list WaitSyncMeta.t) :
  rows_of_table r t db <> [] ->
  rows_of_table r t (meta.with_tables db (wait_sync_meta db ++ rows)) <> [].
Proof.
  unfold rows_of_table, meta.with_tables. cbn [wait_sync_meta].
  rewrite List.filter_app.
  destruct (List.filter _ (wait_sync_meta db)); [contradiction | discriminate].
Qed.

Lemma waiting_row_is_found r t (db : Store) :
  rows_of_table r t (meta.with_tables db (wait_sync_meta db ++ [waiting_row r t])) <> [].
Proof.
  unfold rows_of_table, meta.with_tables. cbn [wait_sync_meta].
  rewrite List.filter_app.
  assert (List.filter
            (fun row =>
               table_of_run (table_row r t) row
               && (unset (WaitSyncMeta.TableNameS (table_row r t))
                   || same (WaitSyncMeta.TableNameS (table_row r t)) (WaitSyncMeta.TableNameS row))
               && (unset (WaitSyncMeta.TaskStatus (table_row r t))
                   || table_has_status (table_row r t) row))
            [waiting_row r t] = [waiting_row r t]) as ->.
  { cbn [List.filter]. unfold table_of_run.
    cbn [table_row waiting_row WaitSyncMeta.lit WaitSyncMeta.DBTypeS WaitSyncMeta.DBTypeT
         WaitSyncMeta.SchemaNameS WaitSyncMeta.TableNameS WaitSyncMeta.TaskMode
         WaitSyncMeta.TaskStatus].
    rewrite !same_refl. cbn [andb]. rewrite orb_true_r. reflexivity. }
  intros H. apply app_eq_nil in H as [_ H]. discriminate H.
Qed.

Lemma rows_of_table_prefix r t (db : Store) (rows : list WaitSyncMeta.t) :
  rows_of_table r t (meta.with_tables db (wait_sync_meta db ++ rows)) = [] ->
  rows_of_table r t db = [].
Proof.
  unfold rows_of_table, meta.with_tables. cbn [wait_sync_meta].
  rewrite List.filter_app. intros H. now apply app_eq_nil in H.
Qed.

Lemma ensure_tables_grow r (exporters : list string) : forall db,
  exists added,
    fold_left (ensure_table r) exporters db
    = meta.with_tables db (wait_sync_meta db ++ added) /\
    Forall (recorded_for r exporters db) added.
Proof.
  induction exporters as [|t rest IH]; intros db; cbn [fold_left].
  - exists []. split; [|constructor]. rewrite app_nil_r. now destruct db.
  - destruct (IH (ensure_table r db t)) as (added & -> & Hadded).
    unfold ensure_table in *.
    destruct (length (rows_of_table r t db) =? 0)%nat eqn:E.
    + exists (waiting_row r t :: added). split.
      * unfold meta.with_tables. cbn [wait_sync_meta full_sync_meta].
        now rewrite <- app_assoc.
      * constructor.
        { exists t. split; [now left|]. split; [reflexivity|].
          now apply length_zero_nil. }
        eapply List.Forall_impl; [|exact Hadded].
        intros row (t' & Hin & -> & Hnone). exists t'.
        split; [now right|]. split; [reflexivity|].
        now apply rows_of_table_prefix in Hnone.
    + exists added. split; [reflexivity|].
      eapply List.Forall_impl; [|exact Hadded].
      intros row (t' & Hin & -> & Hnone). exists t'.
      split; [now right|]. split; [reflexivity | exact Hnone].
Qed.

Lemma ensure_tables_keep r t (exporters : list string) : forall db,
  rows_of_table r t db <> [] ->
  rows_of_table r t (fold_left (ensure_table r) exporters db) <> [].
Proof.
  intros db H. destruct (ensure_tables_grow r exporters db) as (added & -> & _).
  now apply rows_of_table_app.
Qed.

Lemma ensure_tables_cover r (exporters : list string) : forall db t,
  In t exporters ->
  rows_of_table r t (fold_left (ensure_table r) exporters db) <> [].
Proof.
  induction exporters as [|t0 rest IH]; intros db t Hin; [contradiction|].
  cbn [fold_left]. destruct Hin as [-> | Hin]; [|now apply IH].
  apply ensure_tables_keep. unfold ensure_table.
  destruct (length (rows_of_table r t db) =? 0)%nat eqn:E.
  - apply waiting_row_is_found.
  - intros H. rewrite H in E. discriminate E.
Qed.

Lemma ensure_tables_fixed r (exporters : list string) : forall db,
  (forall t, In t exporters -> rows_of_table r t db <> []) ->
  fold_left (ensure_table r) exporters db = db.
Proof.
  induction exporters as [|t rest IH]; intros db H; cbn [fold_left]; [reflexivity|].
  assert (ensure_table r db t = db) as ->.
  { unfold ensure_table. destruct (rows_of_table r t db) eqn:E; [|reflexivity].
    exfalso. apply (H t); [now left | exact E]. }
  apply IH. intros t' Hin. apply H. now right.
Qed.

(** X7.  With the checkpoint enabled and a gateway that answers, a run
    that finds a FAILED table among the rows of its key returns the
    error that asks for the status to be repaired by hand.  It has made
    no call on the chunk splitter, has opened no cursor and written no
    file; the chunk rows and the FAILED rows are as before. *)
Theorem failed_table_blocks_the_run
  (pkg : Package) (r : O2M) (st : State) (oraDBVersion : string) (exporters : list string) :
  healthy r ->
  config.EnableCheckpoint (config.CSV (Cfg r)) = true ->
  oracle.GetOracleDBVersion (Oracle r) = Ok oraDBVersion ->
  String.ltb (VersionOrdinal pkg oraDBVersion)
    (VersionOrdinal pkg (RequireOracleDBVersion pkg)) = false ->
  filterCFGTable pkg (Cfg r) (Oracle r) = Ok exporters ->
  failed_tables r (store st) <> [] ->
  let res := CSV pkg r st in
  fst res = Fail (prior_failure r) /\
  trace (snd res) = trace st /\
  full_sync_meta (store (snd res)) = full_sync_meta (store st) /\
  failed_tables r (store (snd res)) = failed_tables r (store st).
Proof.
  intros gateway Hcp Hv Hnew Hf Hfailed res. subst res.
  destruct (CSV_clear_failed r gateway exporters st) as (st1 & Hclear & Ht1 & Hc1 & Hf1).
  destruct (CSV_gate_failed r gateway st1) as (st2 & Hgate & Ht2 & Hs2).
  { now rewrite Hf1. }
  assert (Hrun : CSV pkg r st = (Fail (prior_failure r), st2)).
  { unfold CSV, CSV_prepare. rewrite Hv. cbn [unwrap]. rewrite bind_ret, Hnew, Hf.
    cbn [unwrap]. rewrite bind_ret.
    unfold CSV_reset. rewrite Hcp. cbn [negb]. rewrite bind_ret.
    unfold bind at 1. unfold bind at 1. rewrite Hclear.
    unfold bind at 1. rewrite Hgate. reflexivity. }
  rewrite Hrun. cbn [fst snd]. rewrite Ht2, Hs2. auto.
Qed.

Lemma failed_table_blocks_the_run_witness :
  let r := sample.o2m true (sample.source (fun _ => 5) [] sample.good_cursor) in
  let st := sample.state [sample.table_row "T" "FAILED" 2 1 1]
              [sample.chunk_row "T" "1 = 1" "FAILED"] in
  fst (CSV (sample.pkg ["T"]) r st) = Fail (prior_failure r) /\
  trace (snd (CSV (sample.pkg ["T"]) r st)) = [].
Proof.
  intros r st.
  destruct (failed_table_blocks_the_run (sample.pkg ["T"]) r st "19" ["T"])
    as (Hret & Htrace & _); try reflexivity.
  - intros n. reflexivity.
  - discriminate.
  - split; [exact Hret | exact Htrace].
Defined.

(** X8.  On a gateway that answers, recording the configured tables
    returns without error and only appends rows: each added row is the
    WAITING row, with the default snapshot and chunk count, of a
    configured table that had no row under the run's key; the rows that
    were there, the chunk rows and the trace are unchanged.  Afterwards
    every configured table has a row, so recording again adds
    nothing. *)
Theorem configured_tables_are_recorded (r : O2M) (exporters : list string) (st : State) :
  healthy r ->
  let res := CSV_ensure r exporters st in
  fst res = Done tt /\
  trace (snd res) = trace st /\
  full_sync_meta (store (snd res)) = full_sync_meta (store st) /\
  (exists added,
     wait_sync_meta (store (snd res)) = (wait_sync_meta (store st) ++ added)%list /\
     Forall (recorded_for r exporters (store st)) added) /\
  (forall tableName,
     In tableName exporters -> rows_of_table r tableName (store (snd res)) <> []) /\
  store (snd (CSV_ensure r exporters (snd res))) = store (snd res).
Proof.
  intros gateway res. subst res.
  destruct (ensure_loop r gateway exporters st) as (n & ->). cbn [fst snd store trace].
  destruct (ensure_loop r gateway exporters
              {| store := fold_left (ensure_table r) exporters (store st);
                 calls := n; trace := trace st |}) as (n' & ->).
  cbn [fst snd store trace].
  split; [reflexivity|]. split; [reflexivity|].
  destruct (ensure_tables_grow r exporters (store st)) as (added & Hgrow & Hadded).
  split; [now rewrite Hgrow|].
  split; [exists added; split; [now rewrite Hgrow | exact Hadded]|].
  split.
  - intros t Hin. now apply ensure_tables_cover.
  - apply ensure_tables_fixed. intros t Hin. now apply ensure_tables_cover.
Qed.

Lemma configured_tables_are_recorded_witness :
  let r := sample.o2m true (sample.source (fun _ => 5) [] sample.good_cursor) in
  let st := sample.state [sample.table_row "T" "SUCCESS" 2 2 0] [] in
  healthy r /\
  fst (CSV_ensure r ["t"; "E"; "e"] st) = Done tt /\
  exists added,
    wait_sync_meta (store (snd (CSV_ensure r ["t"; "E"; "e"] st)))
    = (wait_sync_meta (store st) ++ added)%list /\
    Forall (recorded_for r ["t"; "E"; "e"] (store st)) added.
Proof.
  intros r st.
  assert (gateway : healthy r) by (intros n; reflexivity).
  split; [exact gateway|].
  destruct (configured_tables_are_recorded r ["t"; "E"; "e"] st gateway)
    as (Hret & _ & _ & Hadded & _).
  split; [exact Hret | exact Hadded].
Defined.

(** ** The plan of a table with chunks *)

Lemma map_imap_const {A B C} (g : B -> C) (h : A -> C) (l : list A) :
  forall f : nat -> A -> B,
    (forall i x, g (f i x) = h x) -> map g (imap f l) = map h l.
Proof.
  induction l as [|x l IH]; intros f H; [reflexivity|].
  cbn [imap map]. rewrite H. f_equal. apply IH. intros i y. apply H.
Qed.

Lemma Forall_imap {A B} (P : B -> Prop) (l : list A) :
  forall f : nat -> A -> B, (forall i x, P (f i x)) -> Forall P (imap f l).
Proof.
  induction l as [|x l IH]; intros f H; cbn [imap]; constructor; [apply H|].
  apply IH. intros i y. apply H.
Qed.

Lemma bind_exec_ok {B} (h : meta.Meta) (f : Store -> Store) (k : option error -> M B)
  (st : State) :
  meta.fault h (calls st) = None ->
  bind (meta.exec h f) k st
  = k None {| store := f (store st); calls := S (calls st); trace := trace st |}.
Proof. intros F. unfold bind at 1. now rewrite exec_ok. Qed.

Section PlanChunks.

Variable pkg : Package.
Variable r : O2M.
Variable tableNameRule : gmap string string.
Variable oracleCollation : bool.
Variable globalSCN : Z.
Variable partitionTables : list string.

(** The run of the planning of a table whose splitter returns chunks. *)
Lemma planTask_with_chunks
  (workerID : nat) (t projection : string) (rows : Z)
  (chunkRes : list (gmap string string)) (st : State) :
  let taskName := taskName_of r t workerID in
  config.OutputDir (config.CSV (Cfg r)) <> "" ->
  adjustTableSelectColumn (Cfg r) (Oracle r) t oracleCollation = Ok projection ->
  oracle.GetOracleTableRowsByStatistics (Oracle r)
    (config.OracleSchemaName (config.Oracle (Cfg r))) t = Ok rows ->
  rows <> 0 ->
  oracle.StartOracleChunkCreateTask (Oracle r) taskName = None ->
  oracle.StartOracleCreateChunkByRowID (Oracle r) taskName
    (common.StringUPPER (config.OracleSchemaName (config.Oracle (Cfg r))))
    (common.StringUPPER t) (strconv.Itoa (config.Rows (config.CSV (Cfg r)))) = None ->
  oracle.GetOracleTableChunksByRowID (Oracle r) taskName = Ok chunkRes ->
  chunkRes <> [] ->
  meta.fault (MetaDB r) (calls st) = None ->
  planTask pkg r tableNameRule oracleCollation globalSCN partitionTables workerID t st
  = (match oracle.CloseOracleChunkTask (Oracle r) taskName with
     | None => Done tt
     | Some e => Fail e
     end,
     {| store :=
          {| wait_sync_meta :=
               meta.upsert_planned
                 (plan_table r t globalSCN (Z.of_nat (length chunkRes))
                    (if common.IsContainString partitionTables (common.StringUPPER t)
                     then "YES" else "NO"))
                 (wait_sync_meta (store st));
             full_sync_meta :=
               (full_sync_meta (store st)
                ++ imap (fun (i : nat) (res : gmap string string) =>
                           plan_chunk r t (target_of tableNameRule t) globalSCN projection
                             (at_key res "CMD")
                             (if common.IsContainString partitionTables
                                   (common.StringUPPER t)
                              then "YES" else "NO")
                             (csvFile_of pkg r t (target_of tableNameRule t)
                                (strconv.Itoa (Z.of_nat i)))) chunkRes)%list |};
        calls := S (calls st);
        trace := (trace st ++ splitter_calls r t taskName
                  ++ [EvCloseOracleChunkTask taskName])%list |}).
Proof.
  intros taskName Hdir Hproj Hstat Hrows Hstart Hcreate Hget Hchunks F.
  subst taskName. unfold planTask.
  apply String.eqb_neq in Hdir. rewrite Hdir, Hproj. cbn [unwrap]. rewrite bind_ret.
  rewrite Hstat. cbn [unwrap]. rewrite bind_ret.
  apply Z.eqb_neq in Hrows. rewrite Hrows, Hstart, Hcreate, Hget.
  cbn [check unwrap]. repeat go_step.
  assert ((length chunkRes =? 0)%nat = false) as ->.
  { destruct chunkRes; [contradiction | reflexivity]. }
  unfold meta.BatchCreateFullSyncMetaAndUpdateWaitSyncMeta.
  rewrite bind_exec_ok by exact F.
  cbn [check]. repeat go_step. cbn [store calls trace].
  unfold splitter_calls. rewrite <- !app_assoc.
  now destruct (oracle.CloseOracleChunkTask (Oracle r) (taskName_of r t workerID)).
Qed.

(** X9.  Table [t] is planned with an output directory, its projection
    compiles, its statistics report rows and the splitter returns a
    non-empty list of chunks.  When the gateway takes the plan, it holds
    one WAITING chunk row per chunk of the splitter, in its order, each
    with the predicate of the chunk, the projection of the table and
    the file of its index, and the table carries the number of chunks;
    the chunk task of the splitter is then closed, after the plan is
    stored, and the planning returns what the close returns. *)
Theorem splitter_chunks_are_planned
  (workerID : nat) (t projection : string) (rows : Z)
  (chunkRes : list (gmap string string)) (st : State) :
  let taskName := taskName_of r t workerID in
  config.OutputDir (config.CSV (Cfg r)) <> "" ->
  adjustTableSelectColumn (Cfg r) (Oracle r) t oracleCollation = Ok projection ->
  oracle.GetOracleTableRowsByStatistics (Oracle r)
    (config.OracleSchemaName (config.Oracle (Cfg r))) t = Ok rows ->
  rows <> 0 ->
  oracle.StartOracleChunkCreateTask (Oracle r) taskName = None ->
  oracle.StartOracleCreateChunkByRowID (Oracle r) taskName
    (common.StringUPPER (config.OracleSchemaName (config.Oracle (Cfg r))))
    (common.StringUPPER t) (strconv.Itoa (config.Rows (config.CSV (Cfg r)))) = None ->
  oracle.GetOracleTableChunksByRowID (Oracle r) taskName = Ok chunkRes ->
  chunkRes <> [] ->
  meta.fault (MetaDB r) (calls st) = None ->
  let res := planTask pkg r tableNameRule oracleCollation globalSCN partitionTables
               workerID t st in
  fst res = match oracle.CloseOracleChunkTask (Oracle r) taskName with
            | None => Done tt
            | Some e => Fail e
            end /\
  trace (snd res)
  = (trace st ++ splitter_calls r t taskName ++ [EvCloseOracleChunkTask taskName])%list /\
  (exists chunks,
     full_sync_meta (store (snd res)) = (full_sync_meta (store st) ++ chunks)%list /\
     planned_chunks pkg r t (target_of tableNameRule t) projection chunkRes chunks) /\
  table_planned r t (Z.of_nat (length chunkRes)) (store st) (store (snd res)).
Proof.
  intros taskName Hdir Hproj Hstat Hrows Hstart Hcreate Hget Hchunks F res.
  subst res.
  rewrite (planTask_with_chunks workerID t projection rows chunkRes st
             Hdir Hproj Hstat Hrows Hstart Hcreate Hget Hchunks F).
  fold taskName. cbn [fst snd store trace full_sync_meta].
  split; [reflexivity|]. split; [reflexivity|]. split.
  - eexists. split; [reflexivity|]. repeat split.
    + now apply map_imap_const.
    + apply Forall_imap. intros i x. repeat split.
      now apply chunk_of_table_same_key.
    + intros i c Hc. rewrite list_lookup_imap in Hc.
      destruct (chunkRes !! i); [|discriminate]. now injection Hc as <-.
  - unfold table_planned. cbn [wait_sync_meta]. repeat split.
    + apply (upsert_planned_has_row (plan_table r t globalSCN (Z.of_nat (length chunkRes)) _)).
    + apply (upsert_planned_counters
               (plan_table r t globalSCN (Z.of_nat (length chunkRes)) _)).
    + apply (upsert_planned_others (plan_table r t globalSCN (Z.of_nat (length chunkRes)) _)).
Qed.

End PlanChunks.

Lemma splitter_chunks_are_planned_witness :
  let r := sample.o2m true (sample.source (fun _ => 5) two_chunks sample.good_cursor) in
  let st := sample.state [sample.table_row "T" "WAITING" 0 0 0] [] in
  let res := planTask (sample.pkg ["T"]) r ∅ false 42 [] 0 "T" st in
  fst res = Done tt /\
  table_planned r "T" 2 (store st) (store (snd res)).
Proof.
  intros r st res.
  assert (Hdir : config.OutputDir (config.CSV (Cfg r)) <> "") by discriminate.
  assert (Hrows : 5 <> 0) by discriminate.
  assert (Hchunks : two_chunks <> []) by discriminate.
  destruct (splitter_chunks_are_planned (sample.pkg ["T"]) r ∅ false 42 [] 0 "T"
              "ID,TO_CHAR(TS,'yyyy-mm-dd hh24:mi:ss.ff6') AS TS" 5 two_chunks st
              Hdir eq_refl eq_refl Hrows eq_refl eq_refl eq_refl Hchunks eq_refl)
    as (Hret & _ & _ & Hparent).
  split; [exact Hret | exact Hparent].
Defined.

(** ** Custom table names *)

Lemma target_of_insert (m : gmap string string) (a b t : string) :
  target_of (<[common.StringUPPER a := common.StringUPPER b]> m) t
  = if same a t then common.StringUPPER b else target_of m t.
Proof.
  unfold target_of, same. rewrite lookup_insert.
  destruct (decide (common.StringUPPER a = common.StringUPPER t)) as [E | E].
  - apply String.eqb_eq in E. unfold common.StringUPPER in E. now rewrite E.
  - apply String.eqb_neq in E. unfold common.StringUPPER in E. now rewrite E.
Qed.

(** X10.  The target name under which a waiting table is planned: with
    custom table names, the upper-cased target of the last rule whose
    source name is the table's name up to case; without such a rule, the
    upper-cased name of the table itself. *)
Theorem last_table_name_rule_wins (tableNameRules : list (string * string)) (t : string) :
  target_of (tableNameRuleMap tableNameRules) t
  = match List.find (fun tr => same (fst tr) t) (rev tableNameRules) with
    | Some tr => common.StringUPPER (snd tr)
    | None => common.StringUPPER t
    end.
Proof.
  unfold tableNameRuleMap.
  induction tableNameRules as [|tr rules IH] using rev_ind.
  - reflexivity.
  - rewrite fold_left_app, rev_app_distr. cbn [fold_left rev app List.find].
    rewrite target_of_insert. destruct (same (fst tr) t); [reflexivity | exact IH].
Qed.

(** The map that [CSV] hands to the planner is [tableNameRuleMap]. *)
Lemma CSV_export_rules pkg r partSyncTables waitSyncTables oracleCollation rules st :
  partSyncTables = [] ->
  waitSyncTables <> [] ->
  meta.DetailTableNameRule (MetaDB r) (config.DBTypeS (Cfg r)) (config.DBTypeT (Cfg r))
    (config.OracleSchemaName (config.Oracle (Cfg r)))
    (config.MySQLSchemaName (config.MySQL (Cfg r))) = Ok rules ->
  CSV_export pkg r partSyncTables waitSyncTables oracleCollation st
  = csvWaitSyncTable pkg r waitSyncTables (tableNameRuleMap rules) oracleCollation st.
Proof.
  intros -> Hne Hrules. unfold CSV_export. cbn [length Nat.ltb Nat.leb]. rewrite bind_ret.
  destruct waitSyncTables; [contradiction|]. cbn [length Nat.ltb Nat.leb].
  rewrite Hrules. cbn [unwrap]. now rewrite bind_ret.
Qed.

(** * The executor reaches every pending chunk *)

Lemma adds_only_keeps_event {A} (P : Event -> Prop) (c : M A) (st : State) (ev : Event) :
  adds_only P c -> In ev (trace st) -> In ev (trace (snd (c st))).
Proof.
  intros H Hin. destruct (H st) as (evs & -> & _). apply in_or_app. now left.
Qed.

Lemma chunkTask_queries pkg r oracleDBCharacterSet m st :
  In (EvQueryContext (chunk_querySQL m))
    (trace (snd (chunkTask pkg r oracleDBCharacterSet m st))).
Proof.
  destruct (chunkTask_after_query pkg r oracleDBCharacterSet m) as (k & Hk0 & Hk).
  rewrite Hk0.
  rewrite bind_emit. apply (adds_only_keeps_event _ _ _ _ (Hk tt)).
  cbn [trace]. apply in_or_app. right. now left.
Qed.

Lemma chunkTask_no_panic pkg r oracleDBCharacterSet m :
  fst (oracle.QueryContext (Oracle r) (chunk_querySQL m)) <> None ->
  no_panic (chunkTask pkg r oracleDBCharacterSet m).
Proof.
  intros Hopen. unfold chunkTask, meta.UpdateFullSyncMetaChunk, rows_Close, rows_Columns.
  destruct (oracle.QueryContext (Oracle r) (chunk_querySQL m)) as [[rs|] err];
    [|now contradiction Hopen].
  no_panic.
Qed.

(** A group of tasks that do not panic runs every task. *)
Lemma Wait_reaches (P : Event -> Prop) (tasks : list (M unit)) :
  Forall (fun task => no_panic task /\ adds_only P task) tasks ->
  forall task ev,
    In task tasks ->
    (forall st, In ev (trace (snd (task st)))) ->
    forall first st, In ev (trace (snd (errgroup.Wait tasks first st))).
Proof.
  induction 1 as [|task0 rest [Hpanic Hadds] Hrest IH]; intros task ev Hin Hev first st;
    [contradiction|].
  assert (Hkeep : forall first' st', In ev (trace st') ->
                    In ev (trace (snd (errgroup.Wait rest first' st')))).
  { intros first' st'. apply (adds_only_keeps_event P).
    apply adds_only_Wait. eapply List.Forall_impl; [|exact Hrest]. now intros ? [_ ?]. }
  cbn [errgroup.Wait].
  pose proof (Hpanic st) as Hp. pose proof (Hev st) as He.
  destruct Hin as [<- | Hin].
  - destruct (task0 st) as [[[]|e|msg] st']; cbn [fst snd] in *.
    + now apply Hkeep.
    + now apply Hkeep.
    + exact He.
  - destruct (task0 st) as [[[]|e|msg] st']; cbn [fst snd] in *.
    + now apply (IH task).
    + now apply (IH task).
    + now contradiction (Hp msg).
Qed.

Section Executor.

Variable pkg : Package.
Variable r : O2M.
Variable oracleDBCharacterSet : string.
Hypothesis gateway : healthy r.
Hypothesis cursors : forall querySQL, fst (oracle.QueryContext (Oracle r) querySQL) <> None.

Lemma tableTask_queries (t : string) (st : State) (m : FullSyncMeta.t) :
  pending_chunk r t (store st) m ->
  In (EvQueryContext (chunk_querySQL m))
    (trace (snd (tableTask pkg r oracleDBCharacterSet t st))).
Proof.
  intros (Hin & Hkey & Hstatus).
  unfold tableTask, meta.UpdateWaitSyncMeta, meta.DetailFullSyncMeta.
  rewrite (bind_exec_healthy r gateway). cbn [check]. rewrite bind_ret.
  rewrite (bind_query_healthy r gateway). cbn [unwrap]. rewrite bind_ret.
  rewrite (bind_query_healthy r gateway). cbn [unwrap]. rewrite bind_ret.
  cbn [store calls trace meta.with_tables full_sync_meta].
  match goal with |- context [bind (errgroup.Go ?tasks) _ ?s] =>
    assert (Hgo : In (EvQueryContext (chunk_querySQL m))
                    (trace (snd (errgroup.Go tasks s))));
    [|unfold bind; destruct (errgroup.Go tasks s) as [[[]|e|msg] st4]; cbn [snd] in *;
      [rewrite tableOutcome_keeps_trace; exact Hgo | exact Hgo | exact Hgo]]
  end.
  unfold errgroup.Go.
  apply (Wait_reaches (fun _ => True))
    with (task := chunkTask pkg r oracleDBCharacterSet m).
  - apply List.Forall_forall. intros task Htask.
    apply in_map_iff in Htask as (m' & <- & _). split.
    + apply chunkTask_no_panic, cursors.
    + apply (adds_only_impl (event_of_chunk m')); [now intros|apply chunkTask_calls].
  - apply in_map. apply in_or_app.
    destruct Hstatus as [Hs | Hs]; [left | right];
      apply List.filter_In; (split; [exact Hin|]);
      apply andb_true_iff; (split; [exact Hkey|]);
      unfold chunk_has_status; rewrite Hs; reflexivity.
  - intros s. apply chunkTask_queries.
Qed.

End Executor.

(** X11.  On a gateway that answers and a source whose queries return a
    cursor, the task of a table issues the query of every chunk of the
    table that is WAITING or FAILED when the task starts: the failure of
    one chunk does not keep the task from reading the others. *)
Theorem every_pending_chunk_is_queried
  (pkg : Package) (r : O2M) (oracleDBCharacterSet t : string) (st : State)
  (m : FullSyncMeta.t) :
  healthy r ->
  (forall querySQL, fst (oracle.QueryContext (Oracle r) querySQL) <> None) ->
  pending_chunk r t (store st) m ->
  In (EvQueryContext (chunk_querySQL m))
    (trace (snd (tableTask pkg r oracleDBCharacterSet t st))).
Proof. intros gateway cursors. now apply tableTask_queries. Qed.

Lemma every_pending_chunk_is_queried_witness :
  let r := sample.o2m true (no_columns None) in
  let m1 := sample.chunk_row "T" "ROWID < 'b'" "FAILED" in
  let m2 := sample.chunk_row "T" "ROWID >= 'b'" "WAITING" in
  let st := sample.state [sample.table_row "T" "RUNNING" 2 0 1] [m1; m2] in
  In (EvQueryContext "SELECT ID FROM MARVIN.T WHERE ROWID < 'b'")
    (trace (snd (tableTask (sample.pkg ["T"]) r "AL32UTF8" "T" st))).
Proof.
  intros r m1 m2 st.
  apply (every_pending_chunk_is_queried (sample.pkg ["T"]) r "AL32UTF8" "T" st m1).
  - intros n. reflexivity.
  - intros querySQL. discriminate.
  - split; [now left|]. split; [reflexivity | now right].
Defined.

(** * From the plan to the export *)

(** X12.  A table is planned from the chunks of the splitter,
    on a gateway that answers and a source whose queries return a
    cursor.  The task of the table, run on the plan, exports every
    chunk of the splitter with the query that selects the projection of
    the table from the upper-cased schema and table where the predicate
    of the chunk holds. *)
Theorem planned_chunks_are_exported
  (pkg : Package) (r : O2M) (tableNameRule : gmap string string) (oracleCollation : bool)
  (globalSCN : Z) (partitionTables : list string)
  (workerID : nat) (t projection oracleDBCharacterSet : string) (rows : Z)
  (chunkRes : list (gmap string string)) (res : gmap string string) (st : State) :
  let taskName := taskName_of r t workerID in
  healthy r ->
  (forall querySQL, fst (oracle.QueryContext (Oracle r) querySQL) <> None) ->
  config.OutputDir (config.CSV (Cfg r)) <> "" ->
  adjustTableSelectColumn (Cfg r) (Oracle r) t oracleCollation = Ok projection ->
  oracle.GetOracleTableRowsByStatistics (Oracle r)
    (config.OracleSchemaName (config.Oracle (Cfg r))) t = Ok rows ->
  rows <> 0 ->
  oracle.StartOracleChunkCreateTask (Oracle r) taskName = None ->
  oracle.StartOracleCreateChunkByRowID (Oracle r) taskName
    (common.StringUPPER (config.OracleSchemaName (config.Oracle (Cfg r))))
    (common.StringUPPER t) (strconv.Itoa (config.Rows (config.CSV (Cfg r)))) = None ->
  oracle.GetOracleTableChunksByRowID (Oracle r) taskName = Ok chunkRes ->
  In res chunkRes ->
  let planned :=
    snd (planTask pkg r tableNameRule oracleCollation globalSCN partitionTables
           workerID t st) in
  In (EvQueryContext (export_query r t projection (at_key res "CMD")))
    (trace (snd (tableTask pkg r oracleDBCharacterSet t planned))).
Proof.
  intros taskName gateway cursors Hdir Hproj Hstat Hrows Hstart Hcreate Hget Hres planned.
  assert (Hchunks : chunkRes <> []) by (intros ->; contradiction).
  subst planned.
  rewrite (planTask_with_chunks pkg r tableNameRule oracleCollation globalSCN partitionTables
             workerID t projection rows chunkRes st
             Hdir Hproj Hstat Hrows Hstart Hcreate Hget Hchunks (gateway _)).
  cbn [snd].
  apply list_elem_of_In, list_elem_of_lookup in Hres as (i & Hi).
  match goal with |- context [imap ?f chunkRes] =>
    pose proof (tableTask_queries pkg r oracleDBCharacterSet gateway cursors t) as Hq;
    match goal with |- In _ (trace (snd (tableTask _ _ _ _ ?s))) =>
      apply (Hq s (f i res)) end
  end.
  split; [|split].
  - cbn [store full_sync_meta]. apply in_or_app. right.
    apply list_elem_of_In, list_elem_of_lookup. exists i.
    rewrite list_lookup_imap, Hi. reflexivity.
  - now apply chunk_of_table_same_key.
  - left. reflexivity.
Qed.

Lemma planned_chunks_are_exported_witness :
  let r := sample.o2m true (sample.source (fun _ => 5) two_chunks sample.good_cursor) in
  let st := sample.state [sample.table_row "T" "WAITING" 0 0 0] [] in
  let planned := snd (planTask (sample.pkg ["T"]) r ∅ false 42 [] 0 "T" st) in
  In (EvQueryContext
        "SELECT ID,TO_CHAR(TS,'yyyy-mm-dd hh24:mi:ss.ff6') AS TS FROM MARVIN.T WHERE ROWID BETWEEN 'c' AND 'd'")
    (trace (snd (tableTask (sample.pkg ["T"]) r "AL32UTF8" "T" planned))).
Proof.
  intros r st planned.
  assert (gateway : healthy r) by (intros n; reflexivity).
  assert (cursors : forall querySQL, fst (oracle.QueryContext (Oracle r) querySQL) <> None)
    by (intros querySQL; discriminate).
  assert (Hdir : config.OutputDir (config.CSV (Cfg r)) <> "") by discriminate.
  assert (Hrows : 5 <> 0) by discriminate.
  assert (Hres : In ({[ "CMD" := "ROWID BETWEEN 'c' AND 'd'" ]} : gmap string string)
                   two_chunks) by (right; left; reflexivity).
  exact (planned_chunks_are_exported (sample.pkg ["T"]) r ∅ false 42 [] 0 "T"
           "ID,TO_CHAR(TS,'yyyy-mm-dd hh24:mi:ss.ff6') AS TS" "AL32UTF8" 5 two_chunks
           _ st gateway cursors Hdir eq_refl eq_refl Hrows eq_refl eq_refl eq_refl Hres).
Defined.

(** * The order of the export *)

Lemma tableTask_calls pkg r oracleDBCharacterSet t :
  adds_only cursor_event (tableTask pkg r oracleDBCharacterSet t).
Proof.
  unfold tableTask, meta.UpdateWaitSyncMeta, meta.DetailFullSyncMeta, meta.query.
  apply adds_only_bind; [auto with adds_only | intros err].
  apply adds_only_bind; [auto with adds_only | intros _].
  apply adds_only_bind; [auto with adds_only | intros detail].
  apply adds_only_bind; [auto with adds_only | intros waitFullMetas].
  apply adds_only_bind; [auto with adds_only | intros detail'].
  apply adds_only_bind; [auto with adds_only | intros failedFullMetas].
  apply adds_only_bind; [|intros _; apply adds_only_keeps, tableOutcome_keeps_trace].
  apply adds_only_Wait. apply List.Forall_forall. intros task Hin.
  apply in_map_iff in Hin as (m & <- & _).
  apply (adds_only_impl (event_of_chunk m)); [|apply chunkTask_calls].
  intros ev [-> | [-> | ->]]; exact I.
Qed.

Lemma csvPartSyncTable_calls pkg r csvPartTables :
  adds_only cursor_event (csvPartSyncTable pkg r csvPartTables).
Proof.
  unfold csvPartSyncTable.
  apply adds_only_bind; [auto with adds_only | intros oracleDBCharacterSet].
  apply adds_only_Wait. apply List.Forall_forall. intros task Hin.
  apply in_map_iff in Hin as (t & <- & _). apply tableTask_calls.
Qed.

(** X13.  The export takes the tables with a checkpoint first.  When
    their export returns an error, [CSV_export] returns it in the state
    that export left: no waiting table is planned, and no call reaches
    the chunk splitter of the source; the calls made are calls on
    cursors and on the writer. *)
Theorem failed_resume_blocks_the_planning
  (pkg : Package) (r : O2M) (partSyncTables waitSyncTables : list string)
  (oracleCollation : bool) (st : State) (e : error) :
  partSyncTables <> [] ->
  fst (csvPartSyncTable pkg r partSyncTables st) = Fail e ->
  CSV_export pkg r partSyncTables waitSyncTables oracleCollation st
  = (Fail e, snd (csvPartSyncTable pkg r partSyncTables st)) /\
  exists evs,
    trace (snd (CSV_export pkg r partSyncTables waitSyncTables oracleCollation st))
    = (trace st ++ evs)%list /\
    Forall (fun ev => cursor_event ev /\ ~ splitter_event ev) evs.
Proof.
  intros Hne Hfail.
  assert (Hrun : CSV_export pkg r partSyncTables waitSyncTables oracleCollation st
                 = (Fail e, snd (csvPartSyncTable pkg r partSyncTables st))).
  { unfold CSV_export. destruct partSyncTables as [|t0 rest]; [contradiction|].
    cbn [length Nat.ltb Nat.leb]. unfold bind at 1.
    destruct (csvPartSyncTable pkg r (t0 :: rest) st) as [[[]|e'|msg] st']; try discriminate.
    cbn [fst] in Hfail. now injection Hfail as ->. }
  split; [exact Hrun|]. rewrite Hrun. cbn [snd].
  destruct (csvPartSyncTable_calls pkg r partSyncTables st) as (evs & Ht & Hevs).
  exists evs. split; [exact Ht|].
  eapply List.Forall_impl; [|exact Hevs].
  intros ev Hev. split; [exact Hev|]. destruct ev; simpl in *; tauto.
Qed.

Lemma failed_resume_blocks_the_planning_witness :
  let r := sample.o2m true (no_columns (Some (ExtError FromRows "driver: bad connection"))) in
  let m := sample.chunk_row "T" "1 = 1" "WAITING" in
  let st := sample.state [sample.table_row "T" "RUNNING" 1 0 0;
                          sample.table_row "U" "WAITING" 0 0 0] [m] in
  fst (CSV_export (sample.pkg ["T"; "U"]) r ["T"] ["U"] false st)
  = Fail (ExtError FromRows "driver: bad connection").
Proof.
  intros r m st.
  assert (Hne : ["T"] <> ([] : list string)) by discriminate.
  destruct (failed_resume_blocks_the_planning (sample.pkg ["T"; "U"]) r ["T"] ["U"] false st
              (ExtError FromRows "driver: bad connection") Hne eq_refl) as [H _].
  now rewrite H.
Defined.

(** * A table that is new to the run *)

Lemma filter_filter_nil {A} (f g : A -> bool) (l : list A) :
  List.filter f l = [] -> List.filter f (List.filter g l) = [].
Proof.
  induction l as [|a l IH]; simpl; [reflexivity|].
  destruct (f a) eqn:F; [discriminate|]. intros H.
  destruct (g a); simpl; [rewrite F|]; now apply IH.
Qed.

Section NewTable.

Variable pkg : Package.
Variable r : O2M.
Hypothesis gateway : healthy r.

Lemma CSV_clear_shrinks (exporters : list string) (st : State) :
  exists st',
    CSV_clear r exporters st = (Done tt, st') /\
    failed_tables r (store st') = failed_tables r (store st) /\
    forall t, rows_of_table r t (store st) = [] -> rows_of_table r t (store st') = [].
Proof.
  destruct (CSV_clear_failed r gateway exporters st) as (st' & Hrun & _ & _ & Hfailed).
  exists st'. split; [exact Hrun|]. split; [exact Hfailed|].
  revert Hrun.
  unfold CSV_clear, meta.DetailWaitSyncMetaSuccessTables, meta.DeleteWaitSyncMetaSuccessTables.
  rewrite (bind_query_healthy r gateway). cbn [unwrap]. rewrite bind_ret.
  match goal with |- context [if ?c then _ else _] => destruct c end.
  - rewrite (bind_exec_healthy r gateway). cbn [check ret].
    intros [= <-] t Ht. unfold rows_of_table, meta.with_tables in *.
    cbn [store wait_sync_meta]. now apply filter_filter_nil.
  - cbn [ret]. intros [= <-] t Ht. exact Ht.
Qed.

Lemma CSV_gate_passes (st : State) :
  failed_tables r (store st) = [] ->
  exists n,
    CSV_gate r st = (Done tt, {| store := store st; calls := n; trace := trace st |}).
Proof.
  intros Hfailed. unfold CSV_gate, meta.CountsErrWaitSyncMetaBySchema.
  rewrite (bind_query_healthy r gateway). cbn [unwrap]. rewrite bind_ret.
  change (List.filter _ (wait_sync_meta (store _))) with (failed_tables r (store st)).
  rewrite Hfailed. cbn [length Z.of_nat Z.ltb Z.compare].
  eexists. reflexivity.
Qed.

Lemma new_table_waits (exporters : list string) (db : Store) (t : string) :
  t <> "" ->
  In t exporters ->
  rows_of_table r t db = [] ->
  exists row,
    In row (wait_sync_meta (fold_left (ensure_table r) exporters db)) /\
    table_of_run (table_row r t) row = true /\
    WaitSyncMeta.TaskStatus row = common.TaskStatusWaiting /\
    common.StringUPPER (WaitSyncMeta.TableNameS row) = common.StringUPPER t.
Proof.
  intros Hname0 Hin Hnone.
  pose proof (ensure_tables_cover r exporters db t Hin) as Hcover.
  destruct (ensure_tables_grow r exporters db) as (added & Hgrow & Hadded).
  rewrite Hgrow in Hcover |- *. unfold rows_of_table, meta.with_tables in Hcover, Hnone.
  cbn [wait_sync_meta] in *. rewrite List.filter_app, Hnone in Hcover. cbn [app] in Hcover.
  destruct (List.filter _ added) as [|row rest] eqn:E; [contradiction|].
  assert (Hrow : In row (List.filter
                           (fun row =>
                              table_of_run (table_row r t) row
                              && (unset (WaitSyncMeta.TableNameS (table_row r t))
                                  || same (WaitSyncMeta.TableNameS (table_row r t))
                                       (WaitSyncMeta.TableNameS row))
                              && (unset (WaitSyncMeta.TaskStatus (table_row r t))
                                  || table_has_status (table_row r t) row))
                           added)) by (rewrite E; now left).
  apply List.filter_In in Hrow as (Hrow & Hkey).
  apply andb_true_iff in Hkey as (Hkey & _). apply andb_true_iff in Hkey as (Hrun & Hname).
  exists row. split; [apply in_or_app; now right|]. split; [exact Hrun|].
  apply (proj1 (List.Forall_forall _ _) Hadded) in Hrow as (t' & _ & -> & _).
  split; [reflexivity|].
  cbn [table_row waiting_row WaitSyncMeta.lit WaitSyncMeta.TableNameS] in Hname |- *.
  assert (unset (common.StringUPPER t) || same (common.StringUPPER t) (common.StringUPPER t')
          = true) as Hname' by exact Hname.
  unfold common.StringUPPER in *. rewrite ToUpper_idempotent.
  apply orb_true_iff in Hname' as [Hempty | Hsame].
  - apply String.eqb_eq in Hempty.
    exfalso. destruct t as [|c t]; [now apply Hname0 | discriminate Hempty].
  - unfold same in Hsame. apply String.eqb_eq in Hsame.
    rewrite !ToUpper_idempotent in Hsame. now symmetry.
Qed.

End NewTable.

Lemma bind_done {A B} (c : M A) (k : A -> M B) (st st' : State) (a : A) :
  c st = (Done a, st') -> bind c k st = k a st'.
Proof. intros H. unfold bind. now rewrite H. Qed.

(** X14.  With the checkpoint enabled, a gateway that answers, an
    accepted source version and no FAILED table under the run's key: a
    configured table with a non-empty name that has no row under the
    run's key is among the tables that the preparation of [CSV] hands
    over to be planned, under its upper-cased name. *)
Theorem new_table_waits_for_its_plan
  (pkg : Package) (r : O2M) (st : State) (oraDBVersion : string) (exporters : list string)
  (t : string) :
  healthy r ->
  config.EnableCheckpoint (config.CSV (Cfg r)) = true ->
  oracle.GetOracleDBVersion (Oracle r) = Ok oraDBVersion ->
  String.ltb (VersionOrdinal pkg oraDBVersion)
    (VersionOrdinal pkg (RequireOracleDBVersion pkg)) = false ->
  filterCFGTable pkg (Cfg r) (Oracle r) = Ok exporters ->
  failed_tables r (store st) = [] ->
  In t exporters ->
  t <> "" ->
  rows_of_table r t (store st) = [] ->
  exists oracleCollation waitSyncTables st',
    CSV_prepare pkg r st = (Done (oracleCollation, waitSyncTables), st') /\
    In (common.StringUPPER t) waitSyncTables.
Proof.
  intros gateway Hcp Hv Hnew Hf Hfailed Hin Hname Hnone.
  destruct (CSV_clear_shrinks r gateway exporters st) as (st1 & Hclear & Hf1 & Hrows1).
  destruct (CSV_gate_passes r gateway st1) as (n2 & Hgate); [now rewrite Hf1|].
  destruct (ensure_loop r gateway exporters
              {| store := store st1; calls := n2; trace := trace st1 |}) as (n3 & Hensure).
  destruct (new_table_waits r exporters (store st1) t Hname Hin (Hrows1 t Hnone))
    as (row & Hrow & Hrun & Hstatus & Hupper).
  unfold CSV_prepare. rewrite Hv. cbn [unwrap]. rewrite bind_ret, Hnew, Hf.
  cbn [unwrap]. rewrite bind_ret.
  unfold CSV_reset. rewrite Hcp. cbn [negb]. rewrite bind_ret.
  rewrite (bind_done _ _ _ _ _ Hclear), (bind_done _ _ _ _ _ Hgate),
    (bind_done _ _ _ _ _ Hensure).
  assert (Hwaiting : forall s, exists waits,
            CSV_waiting r s
            = (Done waits, {| store := store s; calls := S (calls s); trace := trace s |}) /\
            forall row,
              In row (wait_sync_meta (store s)) ->
              table_of_run (table_row r t) row = true ->
              WaitSyncMeta.TaskStatus row = common.TaskStatusWaiting ->
              In (common.StringUPPER (WaitSyncMeta.TableNameS row)) waits).
  { intros s. unfold CSV_waiting, meta.DetailWaitSyncMeta.
    rewrite (bind_query_healthy r gateway). cbn [unwrap]. rewrite !bind_ret.
    eexists. split; [reflexivity|]. intros row' Hrow' Hrun' Hstatus'.
    apply in_map_iff. exists row'. split; [reflexivity|].
    apply List.filter_In. split; [exact Hrow'|].
    unfold table_has_status.
    cbn [WaitSyncMeta.TableNameS WaitSyncMeta.TaskStatus]. rewrite Hstatus'.
    change (table_of_run _ row') with (table_of_run (table_row r t) row'). rewrite Hrun'.
    reflexivity. }
  match goal with |- context [bind (CSV_waiting r) _ ?s] =>
    destruct (Hwaiting s) as (waits & Hwaits & Hall) end.
  rewrite (bind_done _ _ _ _ _ Hwaits).
  do 3 eexists. split; [reflexivity|].
  rewrite <- Hupper. apply Hall; assumption.
Qed.

Lemma new_table_waits_for_its_plan_witness :
  let r := sample.o2m true (sample.source (fun _ => 5) [] sample.good_cursor) in
  let st := sample.state [sample.table_row "T" "SUCCESS" 2 2 0] [] in
  exists oracleCollation waitSyncTables st',
    CSV_prepare (sample.pkg ["T"; "e"]) r st = (Done (oracleCollation, waitSyncTables), st') /\
    In "E" waitSyncTables.
Proof.
  intros r st.
  assert (gateway : healthy r) by (intros n; reflexivity).
  assert (Hin : In "e" ["T"; "e"]) by (right; left; reflexivity).
  assert (Hname : "e" <> "") by discriminate.
  exact (new_table_waits_for_its_plan (sample.pkg ["T"; "e"]) r st "19" ["T"; "e"] "e"
           gateway eq_refl eq_refl eq_refl eq_refl eq_refl Hin Hname eq_refl).
Defined.

(** * The tables of a reverse task *)

Lemma load_in (colTypes : string -> list reverser.ColumnType.t) (tables : list string) :
  forall m tbl,
    In tbl tables -> reverser.load colTypes tables m !! tbl = Some (colTypes tbl).
Proof.
  unfold reverser.load.
  induction tables as [|t rest IH] using rev_ind; intros m tbl Hin; [contradiction|].
  rewrite fold_left_app. cbn [fold_left].
  destruct (decide (t = tbl)) as [-> | Hne].
  - apply lookup_insert_eq.
  - rewrite lookup_insert_ne by exact Hne. apply IH.
    apply in_app_or in Hin as [Hin | [Hin | []]]; [exact Hin | contradiction].
Qed.

Lemma load_notin (colTypes : string -> list reverser.ColumnType.t) (tables : list string) :
  forall m tbl,
    ~ In tbl tables -> reverser.load colTypes tables m !! tbl = m !! tbl.
Proof.
  unfold reverser.load.
  induction tables as [|t rest IH]; intros m tbl Hin; [reflexivity|].
  cbn [fold_left]. rewrite IH by (intros H; apply Hin; now right).
  apply lookup_insert_ne. intros ->. apply Hin. now left.
Qed.

Lemma at_table_load_in colTypes tables m tbl :
  In tbl tables -> reverser.at_table (reverser.load colTypes tables m) tbl = colTypes tbl.
Proof. intros H. unfold reverser.at_table. now rewrite load_in. Qed.

Lemma at_table_insert_eq m tbl colTypes :
  reverser.at_table (<[tbl := colTypes]> m) tbl = colTypes.
Proof. unfold reverser.at_table. now rewrite lookup_insert_eq. Qed.

Lemma at_table_insert_ne m tbl tbl' colTypes :
  tbl <> tbl' -> reverser.at_table (<[tbl := colTypes]> m) tbl' = reverser.at_table m tbl'.
Proof. intros H. unfold reverser.at_table. now rewrite lookup_insert_ne. Qed.

Lemma tableNames_stay (exporterTableSlice : list string) (tbl : string) : forall target,
  (target = tbl \/ In tbl exporterTableSlice) ->
  fold_left
    (fun names (t : gmap string reverser.TableName.t) =>
       match t !! tbl with
       | Some tableName =>
           (reverser.TableName.SourceTableName tableName,
            reverser.TableName.TargetTableName tableName)
       | None => (tbl, snd names)
       end)
    (map (fun tbl =>
            ({[ tbl := {| reverser.TableName.SourceTableName := tbl;
                          reverser.TableName.TargetTableName := tbl |} ]}
             : gmap string reverser.TableName.t))
       exporterTableSlice)
    (tbl, target)
  = (tbl, tbl) /\
  forall source,
    In tbl exporterTableSlice ->
    fold_left
      (fun names (t : gmap string reverser.TableName.t) =>
         match t !! tbl with
         | Some tableName =>
             (reverser.TableName.SourceTableName tableName,
              reverser.TableName.TargetTableName tableName)
         | None => (tbl, snd names)
         end)
      (map (fun tbl =>
              ({[ tbl := {| reverser.TableName.SourceTableName := tbl;
                            reverser.TableName.TargetTableName := tbl |} ]}
               : gmap string reverser.TableName.t))
         exporterTableSlice)
      (source, target)
    = (tbl, tbl).
Proof.
  induction exporterTableSlice as [|t rest IH]; intros target Htarget.
  - destruct Htarget as [-> | []]. split; [reflexivity | intros ? []].
  - cbn [map fold_left]. destruct (decide (t = tbl)) as [-> | Hne].
    + rewrite lookup_singleton_eq. cbn.
      destruct (IH tbl (or_introl eq_refl)) as [H _]. split; [exact H | intros; exact H].
    + rewrite lookup_singleton_ne by exact Hne. cbn [snd].
      assert (Htarget' : target = tbl \/ In tbl rest).
      { destruct Htarget as [H | [H | H]]; [now left | contradiction | now right]. }
      destruct (IH target Htarget') as [H _]. split; [exact H|].
      intros source [Hin | Hin]; [contradiction | exact H].
Qed.

Lemma tableNames_of_exporter (exporterTableSlice : list string) (tbl : string) :
  In tbl exporterTableSlice ->
  reverser.tableNames
    (map (fun tbl =>
            ({[ tbl := {| reverser.TableName.SourceTableName := tbl;
                          reverser.TableName.TargetTableName := tbl |} ]}
             : gmap string reverser.TableName.t))
       exporterTableSlice) tbl
  = (tbl, tbl).
Proof.
  intros Hin. unfold reverser.tableNames.
  destruct (tableNames_stay exporterTableSlice tbl "" (or_intror Hin)) as [_ H].
  now apply H.
Qed.

Lemma map_in_id {A} (f : A -> A) (l : list A) :
  (forall a, In a l -> f a = a) -> map f l = l.
Proof.
  induction l as [|a l IH]; intros H; [reflexivity|]. cbn [map].
  rewrite H by now left. f_equal. apply IH. intros b Hb. apply H. now right.
Qed.

(** The loop of a table rule in closed form, from index [length pre]. *)
Lemma rule_loop_from (sourceColumnType target : string) (tmp : list reverser.ColumnType.t) :
  forall pre added,
    rule_loop sourceColumnType target (length pre) tmp (pre ++ tmp ++ added)%list
    = (pre
       ++ map (fun col =>
                 if has_source_type sourceColumnType col
                 then reverser.set_target target col else col) tmp
       ++ added
       ++ map (fun _ =>
                 {| reverser.ColumnType.SourceColumnType := sourceColumnType;
                    reverser.ColumnType.TargetColumnType := target |})
            (List.filter (fun col => negb (has_source_type sourceColumnType col)) tmp))%list.
Proof.
  induction tmp as [|col rest IH]; intros pre added.
  - cbn [rule_loop map List.filter app]. now rewrite app_nil_r.
  - cbn [rule_loop map List.filter].
    replace (S (length pre)) with (length (pre ++ [col])%list)
      by (rewrite length_app; simpl; lia).
    destruct (has_source_type sourceColumnType col) eqn:E; cbn [negb].
    + rewrite alter_app_r_alt by lia. rewrite Nat.sub_diag.
      cbn [alter list_alter app].
      replace (length (pre ++ [col])%list)
        with (length (pre ++ [reverser.set_target target col])%list)
        by (rewrite !length_app; reflexivity).
      replace (pre ++ reverser.set_target target col :: rest ++ added)%list
        with ((pre ++ [reverser.set_target target col]) ++ rest ++ added)%list
        by (now rewrite <- app_assoc).
      rewrite IH. now rewrite <- app_assoc.
    + replace ((pre ++ (col :: rest) ++ added)
               ++ [{| reverser.ColumnType.SourceColumnType := sourceColumnType;
                      reverser.ColumnType.TargetColumnType := target |}])%list
        with ((pre ++ [col]) ++ rest
              ++ (added ++ [{| reverser.ColumnType.SourceColumnType := sourceColumnType;
                               reverser.ColumnType.TargetColumnType := target |}]))%list
        by (rewrite <- !app_assoc; reflexivity).
      rewrite IH. cbn [map]. rewrite <- !app_assoc. reflexivity.
Qed.

Lemma rule_loop_result (sourceColumnType target : string)
  (colTypes : list reverser.ColumnType.t) :
  rule_loop sourceColumnType target 0 colTypes colTypes
  = rule_result sourceColumnType target colTypes.
Proof.
  pose proof (rule_loop_from sourceColumnType target colTypes [] []) as H.
  cbn [length app] in H. rewrite app_nil_r in H. exact H.
Qed.

Section Reverse.

Context {Engine : Type}.
Variable FilterOraclePartitionTable :
  Engine -> string -> list string -> list string * option error.
Context {CustomSchemaColumnTypeMap : Type}.
Variable Schema_SourceColumnType : CustomSchemaColumnTypeMap -> string.
Variable GetCustomSchemaColumnType : CustomSchemaColumnTypeMap -> string.
Variable GetCustomSchemaColumnTypeMap :
  Engine -> string -> list CustomSchemaColumnTypeMap * option error.
Context {CustomTableColumnTypeMap : Type}.
Variable Table_SourceTableName : CustomTableColumnTypeMap -> string.
Variable Table_SourceColumnType : CustomTableColumnTypeMap -> string.
Variable GetCustomTableColumnType : CustomTableColumnTypeMap -> string -> string.
Variable GetCustomTableColumnTypeMap :
  Engine -> string -> list CustomTableColumnTypeMap * option error.
Variable IsContainString : list string -> string -> bool.
Variable FilterDifferenceStringItems : list string -> list string -> list string.

Abbreviation Generate :=
  (reverser.GenerateOracleToMySQLTables FilterOraclePartitionTable
     Schema_SourceColumnType GetCustomSchemaColumnType GetCustomSchemaColumnTypeMap
     Table_SourceTableName Table_SourceColumnType GetCustomTableColumnType
     GetCustomTableColumnTypeMap IsContainString FilterDifferenceStringItems).
Abbreviation schemaColTypes :=
  (reverser.schemaColTypes Schema_SourceColumnType GetCustomSchemaColumnType).
Abbreviation tableColTypes :=
  (reverser.tableColTypes Table_SourceColumnType GetCustomTableColumnType).
Abbreviation applyTableRule :=
  (reverser.applyTableRule Table_SourceTableName Table_SourceColumnType
     GetCustomTableColumnType).
Abbreviation applyTableRules :=
  (reverser.applyTableRules Table_SourceTableName Table_SourceColumnType
     GetCustomTableColumnType IsContainString).
Abbreviation loadColumnTypes :=
  (reverser.loadColumnTypes Schema_SourceColumnType GetCustomSchemaColumnType
     Table_SourceTableName Table_SourceColumnType GetCustomTableColumnType
     IsContainString FilterDifferenceStringItems).

(** What the table rule [tblName] makes of the column types of its own
    table. *)
Abbreviation result_of tblName :=
  (rule_result (Table_SourceColumnType tblName)
     (GetCustomTableColumnType tblName (Table_SourceTableName tblName))).

(** The loop of a table rule touches the slice of its table only. *)
Lemma applyTableRule_others (tblName : CustomTableColumnTypeMap) (tbl : string)
  (tmp : list reverser.ColumnType.t) :
  tbl <> Table_SourceTableName tblName ->
  forall idx m, applyTableRule tblName idx tmp m !! tbl = m !! tbl.
Proof.
  intros Hne. induction tmp as [|col rest IH]; intros idx m; [reflexivity|].
  cbn [reverser.applyTableRule]. rewrite IH.
  destruct (String.eqb _ _); apply lookup_insert_ne; congruence.
Qed.

Lemma applyTableRule_own (tblName : CustomTableColumnTypeMap)
  (tmp : list reverser.ColumnType.t) :
  forall idx m,
    reverser.at_table (applyTableRule tblName idx tmp m) (Table_SourceTableName tblName)
    = rule_loop (Table_SourceColumnType tblName)
        (GetCustomTableColumnType tblName (Table_SourceTableName tblName)) idx tmp
        (reverser.at_table m (Table_SourceTableName tblName)).
Proof.
  induction tmp as [|col rest IH]; intros idx m; [reflexivity|].
  cbn [reverser.applyTableRule rule_loop]. rewrite IH. f_equal.
  unfold has_source_type. destruct (String.eqb _ _); apply at_table_insert_eq.
Qed.

(** The rules of the third case, one after the other, on the slice of
    table [tbl] and on [customTableSlice]. *)
Lemma applyTableRules_fold (exporterTableSlice : list string)
  (rules : list CustomTableColumnTypeMap) :
  forall acc : gmap string (list reverser.ColumnType.t) * list string,
    let res :=
      fold_left
        (fun acc tblName =>
           if IsContainString exporterTableSlice (Table_SourceTableName tblName) then
             (applyTableRule tblName 0
                (reverser.at_table (fst acc) (Table_SourceTableName tblName)) (fst acc),
              (snd acc ++ [Table_SourceTableName tblName])%list)
           else acc)
        rules acc in
    (forall tbl,
       reverser.at_table (fst res) tbl
       = fold_left
           (fun colTypes tblName =>
              if IsContainString exporterTableSlice (Table_SourceTableName tblName)
                 && String.eqb (Table_SourceTableName tblName) tbl
              then result_of tblName colTypes else colTypes)
           rules (reverser.at_table (fst acc) tbl)) /\
    snd res
    = (snd acc
       ++ map Table_SourceTableName
            (List.filter
               (fun tblName =>
                  IsContainString exporterTableSlice (Table_SourceTableName tblName))
               rules))%list.
Proof.
  induction rules as [|tblName rest IH]; intros acc res.
  - subst res. cbn [fold_left List.filter map]. now rewrite app_nil_r.
  - subst res. cbn [fold_left List.filter].
    destruct (IsContainString exporterTableSlice (Table_SourceTableName tblName)) eqn:C.
    + match goal with |- context [fold_left _ rest ?a] =>
        destruct (IH a) as [H1 H2] end.
      split.
      * intros tbl. rewrite H1. cbn [fst andb]. f_equal.
        destruct (String.eqb (Table_SourceTableName tblName) tbl) eqn:E.
        -- apply String.eqb_eq in E. subst tbl.
           rewrite applyTableRule_own. apply rule_loop_result.
        -- apply String.eqb_neq in E. unfold reverser.at_table.
           rewrite applyTableRule_others by congruence. reflexivity.
      * rewrite H2. cbn [snd map]. now rewrite <- app_assoc.
    + destruct (IH acc) as [H1 H2]. split; [intros tbl; now rewrite H1 | exact H2].
Qed.

Lemma fold_left_id {A B} (f : A -> B -> A) (l : list B) (a : A) :
  (forall a b, In b l -> f a b = a) -> fold_left f l a = a.
Proof.
  revert a. induction l as [|b l IH]; intros a H; [reflexivity|]. cbn [fold_left].
  rewrite H by now left. apply IH. intros a' b' Hb. apply H. now right.
Qed.

Lemma fold_left_ext_in {A B} (f g : A -> B -> A) (l : list B) (a : A) :
  (forall a b, In b l -> f a b = g a b) -> fold_left f l a = fold_left g l a.
Proof.
  revert a. induction l as [|b l IH]; intros a H; [reflexivity|]. cbn [fold_left].
  rewrite H by now left. apply IH. intros a' b' Hb. apply H. now right.
Qed.

(** The column types of table [tbl] after the [switch], when both lists
    of rules are non-empty. *)
Lemma loadColumnTypes_both (exporterTableSlice : list string)
  (schemaRules : list CustomSchemaColumnTypeMap) (rules : list CustomTableColumnTypeMap)
  (tbl : string) :
  schemaRules <> [] -> rules <> [] -> In tbl exporterTableSlice ->
  let custom :=
    map Table_SourceTableName
      (List.filter
         (fun tblName => IsContainString exporterTableSlice (Table_SourceTableName tblName))
         rules) in
  let applied :=
    fold_left
      (fun colTypes tblName =>
         if IsContainString exporterTableSlice (Table_SourceTableName tblName)
            && String.eqb (Table_SourceTableName tblName) tbl
         then result_of tblName colTypes else colTypes)
      rules (schemaColTypes schemaRules) in
  (In tbl (FilterDifferenceStringItems exporterTableSlice custom) ->
   reverser.at_table (loadColumnTypes exporterTableSlice schemaRules rules) tbl
   = schemaColTypes schemaRules) /\
  (~ In tbl (FilterDifferenceStringItems exporterTableSlice custom) ->
   reverser.at_table (loadColumnTypes exporterTableSlice schemaRules rules) tbl = applied).
Proof.
  intros Hs Hr Hin custom applied. unfold reverser.loadColumnTypes.
  destruct schemaRules as [|s0 srest]; [contradiction|].
  destruct rules as [|r0 rrest]; [contradiction|].
  cbn [length Nat.eqb negb andb].
  unfold reverser.applyTableRules.
  match goal with |- context [fold_left ?f ?l ?a] =>
    pose proof (applyTableRules_fold exporterTableSlice l a) as H;
    cbv zeta in H; destruct H as [H1 H2];
    destruct (fold_left f l a) as [m1 custom1] eqn:F
  end.
  cbn [fst snd app] in H1, H2. subst custom1.
  split; intros Hd.
  - now apply at_table_load_in.
  - unfold reverser.at_table at 1. rewrite load_notin by exact Hd.
    change (match m1 !! tbl with Some colTypes => colTypes | None => [] end)
      with (reverser.at_table m1 tbl).
    rewrite H1. rewrite at_table_load_in by exact Hin. reflexivity.
Qed.

(** X15.  [GenerateOracleToMySQLTables] returns the partition tables of
    its first read whatever follows; its error is the error of the first
    of its three reads that fails (the partition tables, the schema
    rules, the table rules), and with an error it returns no table. *)
Theorem failed_read_gives_no_table
  (engine : Engine) (exporterTableSlice : list string) (sourceSchema targetSchema : string)
  (overwrite : bool) :
  let res := Generate engine exporterTableSlice sourceSchema targetSchema overwrite in
  snd (fst res) = fst (FilterOraclePartitionTable engine sourceSchema exporterTableSlice) /\
  snd res
  = first_error
      [snd (FilterOraclePartitionTable engine sourceSchema exporterTableSlice);
       snd (GetCustomSchemaColumnTypeMap engine sourceSchema);
       snd (GetCustomTableColumnTypeMap engine sourceSchema)] /\
  (snd res <> None -> fst (fst res) = []).
Proof.
  intros res. subst res. unfold reverser.GenerateOracleToMySQLTables.
  destruct (FilterOraclePartitionTable engine sourceSchema exporterTableSlice)
    as [partitionTables [e|]]; [now repeat split|].
  destruct (GetCustomSchemaColumnTypeMap engine sourceSchema) as [schemaRules [e|]];
    [now repeat split|].
  destruct (GetCustomTableColumnTypeMap engine sourceSchema) as [rules [e|]];
    [now repeat split|].
  cbn [fst snd first_error]. repeat split. intros H. now contradiction H.
Qed.

(** The result of a run whose three reads succeed. *)
Lemma Generate_success
  (engine : Engine) (exporterTableSlice : list string) (sourceSchema targetSchema : string)
  (overwrite : bool) :
  snd (Generate engine exporterTableSlice sourceSchema targetSchema overwrite) = None ->
  fst (fst (Generate engine exporterTableSlice sourceSchema targetSchema overwrite))
  = map (fun tbl =>
           {| reverser.Table.SourceSchemaName := sourceSchema;
              reverser.Table.TargetSchemaName := targetSchema;
              reverser.Table.SourceTableName := tbl;
              reverser.Table.TargetTableName := tbl;
              reverser.Table.ColumnTypes :=
                reverser.at_table
                  (loadColumnTypes exporterTableSlice
                     (fst (GetCustomSchemaColumnTypeMap engine sourceSchema))
                     (fst (GetCustomTableColumnTypeMap engine sourceSchema))) tbl;
              reverser.Table.Engine := engine;
              reverser.Table.Overwrite := overwrite |})
      exporterTableSlice.
Proof.
  unfold reverser.GenerateOracleToMySQLTables.
  destruct (FilterOraclePartitionTable engine sourceSchema exporterTableSlice)
    as [partitionTables [e|]]; [discriminate|].
  destruct (GetCustomSchemaColumnTypeMap engine sourceSchema) as [schemaRules [e|]];
    [discriminate|].
  destruct (GetCustomTableColumnTypeMap engine sourceSchema) as [rules [e|]];
    [discriminate|].
  intros _. cbn [fst snd]. apply map_ext_in. intros tbl Hin.
  now rewrite tableNames_of_exporter.
Qed.

(** X16.  When none of its reads fails, [GenerateOracleToMySQLTables]
    returns one table per exported table, in the order of the list:
    each carries the name of the exported table as its source and as
    its target name, the two schemas, the engine and the overwrite flag
    it was called with. *)
Theorem one_table_per_exported_table
  (engine : Engine) (exporterTableSlice : list string) (sourceSchema targetSchema : string)
  (overwrite : bool) :
  let res := Generate engine exporterTableSlice sourceSchema targetSchema overwrite in
  snd res = None ->
  map reverser.Table.SourceTableName (fst (fst res)) = exporterTableSlice /\
  map reverser.Table.TargetTableName (fst (fst res)) = exporterTableSlice /\
  Forall (fun table =>
            reverser.Table.SourceSchemaName table = sourceSchema /\
            reverser.Table.TargetSchemaName table = targetSchema /\
            reverser.Table.Engine table = engine /\
            reverser.Table.Overwrite table = overwrite)
    (fst (fst res)).
Proof.
  intros res Hok. subst res. rewrite Generate_success by exact Hok.
  rewrite !map_map. cbn [reverser.Table.SourceTableName reverser.Table.TargetTableName].
  rewrite map_id. repeat split.
  apply List.Forall_forall. intros table Hin.
  apply in_map_iff in Hin as (tbl & <- & _). repeat split.
Qed.

(** X17.  When none of its reads fails and there is no schema rule,
    every table carries one column type per table rule, in the order of
    the rules and whatever table a rule names: the source type of the
    rule, and the target that the rule gives for this table. *)
Theorem table_rules_alone_reach_every_table
  (engine : Engine) (exporterTableSlice : list string) (sourceSchema targetSchema : string)
  (overwrite : bool) :
  let res := Generate engine exporterTableSlice sourceSchema targetSchema overwrite in
  snd res = None ->
  fst (GetCustomSchemaColumnTypeMap engine sourceSchema) = [] ->
  Forall (fun table =>
            reverser.Table.ColumnTypes table
            = tableColTypes (fst (GetCustomTableColumnTypeMap engine sourceSchema))
                (reverser.Table.SourceTableName table))
    (fst (fst res)).
Proof.
  intros res Hok Hs. subst res. rewrite Generate_success by exact Hok.
  apply List.Forall_forall. intros table Hin.
  apply in_map_iff in Hin as (tbl & <- & Hin).
  cbn [reverser.Table.ColumnTypes reverser.Table.SourceTableName].
  rewrite Hs. unfold reverser.loadColumnTypes. cbn [length Nat.eqb negb andb].
  destruct (fst (GetCustomTableColumnTypeMap engine sourceSchema)) as [|r0 rrest].
  - reflexivity.
  - cbn [length Nat.eqb negb]. now apply at_table_load_in.
Qed.

(** X18.  When none of its reads fails, a table that no table rule names
    carries the schema rules as its column types, one per rule and in
    their order, provided that there is a schema rule or no table rule
    at all; this holds whatever the two helpers of package [utils]
    answer. *)
Theorem tables_without_rule_take_the_schema_rules
  (engine : Engine) (exporterTableSlice : list string) (sourceSchema targetSchema : string)
  (overwrite : bool) (table : reverser.Table.t Engine) :
  let res := Generate engine exporterTableSlice sourceSchema targetSchema overwrite in
  let schemaRules := fst (GetCustomSchemaColumnTypeMap engine sourceSchema) in
  let rules := fst (GetCustomTableColumnTypeMap engine sourceSchema) in
  snd res = None ->
  schemaRules <> [] \/ rules = [] ->
  In table (fst (fst res)) ->
  (forall tblName,
     In tblName rules -> Table_SourceTableName tblName <> reverser.Table.SourceTableName table) ->
  reverser.Table.ColumnTypes table = schemaColTypes schemaRules.
Proof.
  intros res schemaRules rules Hok Hcase Hin Hfree. subst res.
  rewrite Generate_success in Hin by exact Hok.
  apply in_map_iff in Hin as (tbl & <- & Hin).
  cbn [reverser.Table.ColumnTypes reverser.Table.SourceTableName] in *.
  fold schemaRules rules.
  destruct rules as [|r0 rrest] eqn:Er.
  - unfold reverser.loadColumnTypes. cbn [length Nat.eqb negb andb].
    destruct schemaRules as [|s0 srest].
    + reflexivity.
    + cbn [length Nat.eqb negb andb]. now apply at_table_load_in.
  - destruct Hcase as [Hs | Hr]; [|discriminate].
    rewrite <- Er in *.
    assert (Hrules : rules <> []) by (rewrite Er; discriminate).
    destruct (loadColumnTypes_both exporterTableSlice schemaRules rules tbl Hs Hrules Hin)
      as [Hreset Hkept].
    match type of Hreset with (In tbl ?l -> _) =>
      destruct (in_dec string_dec tbl l) as [Hd | Hd] end.
    + now apply Hreset.
    + rewrite (Hkept Hd). apply fold_left_id. intros colTypes tblName Hrule.
      assert (String.eqb (Table_SourceTableName tblName) tbl = false) as ->
        by (apply String.eqb_neq; now apply Hfree).
      now rewrite andb_false_r.
Qed.

(** X19.  The loop of a table rule over the column types of its table:
    every entry with the source type of the rule, up to case, takes the
    target of the rule, and for every other entry a column type of the
    rule is appended, so that a rule which meets [n] entries of other
    source types adds [n] equal column types.  The column types of the
    other tables are untouched. *)
Theorem table_rule_retargets_and_appends
  (tblName : CustomTableColumnTypeMap) (columnTypesMap : gmap string (list reverser.ColumnType.t)) :
  let name := Table_SourceTableName tblName in
  let tmpColTypes := reverser.at_table columnTypesMap name in
  let after := applyTableRule tblName 0 tmpColTypes columnTypesMap in
  reverser.at_table after name = result_of tblName tmpColTypes /\
  length (reverser.at_table after name)
  = (length tmpColTypes
     + length (List.filter
                 (fun col => negb (has_source_type (Table_SourceColumnType tblName) col))
                 tmpColTypes))%nat /\
  forall tbl, tbl <> name -> after !! tbl = columnTypesMap !! tbl.
Proof.
  intros name tmpColTypes after. subst after.
  assert (H : reverser.at_table (applyTableRule tblName 0 tmpColTypes columnTypesMap) name
              = result_of tblName tmpColTypes).
  { subst name tmpColTypes. rewrite applyTableRule_own. apply rule_loop_result. }
  split; [exact H|]. split.
  - rewrite H. unfold rule_result. now rewrite length_app, !length_map.
  - intros tbl Hne. now apply applyTableRule_others.
Qed.

(** X20.  When none of its reads fails and there are schema rules and
    table rules, the column types of an exported table are the schema
    rules, worked over by the table rules that name the table, one
    after the other in their order.  The helpers of package [utils] are
    taken to find the table in the list of exported tables and to
    return no string of the second list. *)
Theorem table_rules_rework_the_schema_rules
  (engine : Engine) (exporterTableSlice : list string) (sourceSchema targetSchema : string)
  (overwrite : bool) (table : reverser.Table.t Engine) :
  let res := Generate engine exporterTableSlice sourceSchema targetSchema overwrite in
  let schemaRules := fst (GetCustomSchemaColumnTypeMap engine sourceSchema) in
  let rules := fst (GetCustomTableColumnTypeMap engine sourceSchema) in
  snd res = None ->
  schemaRules <> [] ->
  rules <> [] ->
  In table (fst (fst res)) ->
  IsContainString exporterTableSlice (reverser.Table.SourceTableName table) = true ->
  (forall a b x, In x (FilterDifferenceStringItems a b) -> ~ In x b) ->
  reverser.Table.ColumnTypes table
  = fold_left
      (fun colTypes tblName =>
         if String.eqb (Table_SourceTableName tblName) (reverser.Table.SourceTableName table)
         then result_of tblName colTypes else colTypes)
      rules (schemaColTypes schemaRules).
Proof.
  intros res schemaRules rules Hok Hs Hr Hin Hcontain Hfilter. subst res.
  rewrite Generate_success in Hin by exact Hok.
  apply in_map_iff in Hin as (tbl & <- & Hin).
  cbn [reverser.Table.ColumnTypes reverser.Table.SourceTableName] in *.
  fold schemaRules rules.
  destruct (loadColumnTypes_both exporterTableSlice schemaRules rules tbl Hs Hr Hin)
    as [Hreset Hkept].
  assert (Hsame :
    fold_left
      (fun colTypes tblName =>
         if IsContainString exporterTableSlice (Table_SourceTableName tblName)
            && String.eqb (Table_SourceTableName tblName) tbl
         then result_of tblName colTypes else colTypes)
      rules (schemaColTypes schemaRules)
    = fold_left
        (fun colTypes tblName =>
           if String.eqb (Table_SourceTableName tblName) tbl
           then result_of tblName colTypes else colTypes)
        rules (schemaColTypes schemaRules)).
  { apply fold_left_ext_in. intros colTypes tblName _.
    destruct (String.eqb (Table_SourceTableName tblName) tbl) eqn:E.
    - apply String.eqb_eq in E. rewrite E, Hcontain. reflexivity.
    - now rewrite andb_false_r. }
  match type of Hreset with (In tbl ?l -> _) =>
    destruct (in_dec string_dec tbl l) as [Hd | Hd] end.
  - rewrite (Hreset Hd). symmetry. apply fold_left_id.
    intros colTypes tblName Hrule.
    destruct (String.eqb (Table_SourceTableName tblName) tbl) eqn:E; [|reflexivity].
    exfalso. apply String.eqb_eq in E. apply (Hfilter _ _ _ Hd).
    apply in_map_iff. exists tblName. split; [exact E|].
    apply List.filter_In. split; [exact Hrule|]. now rewrite E.
  - rewrite (Hkept Hd). exact Hsame.
Qed.

End Reverse.

(** ** Sample runs *)

Lemma difference_is_disjoint (a b : list string) (x : string) :
  In x (common.FilterDifferenceStringItems a b) -> ~ In x b.
Proof.
  unfold common.FilterDifferenceStringItems, common.IsContainString.
  intros H Hb. apply List.filter_In in H as [_ H].
  apply negb_true_iff in H.
  assert (existsb (String.eqb x) b = true) as E.
  { apply existsb_exists. exists x. split; [exact Hb | apply String.eqb_refl]. }
  congruence.
Qed.

Lemma one_table_per_exported_table_witness :
  map reverser.Table.SourceTableName
    (fst (fst (sample_generate sample_schema_rules sample_table_rules ["T"; "U"])))
  = ["T"; "U"].
Proof.
  exact (proj1 (one_table_per_exported_table
                  (fun _ _ _ => ([], None))
                  fst snd (fun _ _ => (sample_schema_rules, None))
                  fst (fun tblName => fst (snd tblName)) (fun tblName _ => snd (snd tblName))
                  (fun _ _ => (sample_table_rules, None))
                  common.IsContainString common.FilterDifferenceStringItems
                  tt ["T"; "U"] "marvin" "dst" true eq_refl)).
Defined.

Lemma table_rules_alone_reach_every_table_witness :
  Forall (fun table =>
            reverser.Table.ColumnTypes table = [sample_col "number" "BIGINT"])
    (fst (fst (sample_generate [] sample_table_rules ["T"; "U"]))).
Proof.
  exact (table_rules_alone_reach_every_table
           (fun _ _ _ => ([], None))
           fst snd (fun _ _ => ([], None))
           fst (fun tblName => fst (snd tblName)) (fun tblName _ => snd (snd tblName))
           (fun _ _ => (sample_table_rules, None))
           common.IsContainString common.FilterDifferenceStringItems
           tt ["T"; "U"] "marvin" "dst" true eq_refl eq_refl).
Defined.

Lemma tables_without_rule_take_the_schema_rules_witness :
  reverser.Table.ColumnTypes
    (sample_table "U" [sample_col "NUMBER" "DECIMAL(65,30)"; sample_col "DATE" "DATETIME"])
  = [sample_col "NUMBER" "DECIMAL(65,30)"; sample_col "DATE" "DATETIME"] /\
  In (sample_table "U" [sample_col "NUMBER" "DECIMAL(65,30)"; sample_col "DATE" "DATETIME"])
    (fst (fst (sample_generate sample_schema_rules sample_table_rules ["T"; "U"]))).
Proof.
  assert (Hin : In (sample_table "U"
                      [sample_col "NUMBER" "DECIMAL(65,30)"; sample_col "DATE" "DATETIME"])
                  (fst (fst (sample_generate sample_schema_rules sample_table_rules
                               ["T"; "U"])))).
  { right. left. reflexivity. }
  split; [|exact Hin].
  apply (tables_without_rule_take_the_schema_rules
           (fun _ _ _ => ([], None))
           fst snd (fun _ _ => (sample_schema_rules, None))
           fst (fun tblName => fst (snd tblName)) (fun tblName _ => snd (snd tblName))
           (fun _ _ => (sample_table_rules, None))
           common.IsContainString common.FilterDifferenceStringItems
           tt ["T"; "U"] "marvin" "dst" true _ eq_refl).
  - left. discriminate.
  - exact Hin.
  - intros tblName [<- | []]. discriminate.
Defined.

Lemma table_rules_rework_the_schema_rules_witness :
  In (sample_table "T"
        [sample_col "NUMBER" "BIGINT"; sample_col "DATE" "DATETIME";
         sample_col "number" "BIGINT"])
    (fst (fst (sample_generate sample_schema_rules sample_table_rules ["T"; "U"]))) /\
  [sample_col "NUMBER" "BIGINT"; sample_col "DATE" "DATETIME"; sample_col "number" "BIGINT"]
  = rule_result "number" "BIGINT"
      [sample_col "NUMBER" "DECIMAL(65,30)"; sample_col "DATE" "DATETIME"].
Proof.
  assert (Hin : In (sample_table "T"
                      [sample_col "NUMBER" "BIGINT"; sample_col "DATE" "DATETIME";
                       sample_col "number" "BIGINT"])
                  (fst (fst (sample_generate sample_schema_rules sample_table_rules
                               ["T"; "U"])))).
  { left. reflexivity. }
  split; [exact Hin|].
  assert (Hs : sample_schema_rules <> []) by discriminate.
  assert (Hr : sample_table_rules <> []) by discriminate.
  exact (table_rules_rework_the_schema_rules
           (fun _ _ _ => ([], None))
           fst snd (fun _ _ => (sample_schema_rules, None))
           fst (fun tblName => fst (snd tblName)) (fun tblName _ => snd (snd tblName))
           (fun _ _ => (sample_table_rules, None))
           common.IsContainString common.FilterDifferenceStringItems
           tt ["T"; "U"] "marvin" "dst" true _ eq_refl Hs Hr Hin eq_refl
           difference_is_disjoint).
Defined.

(** ** The inspection before a reverse task *)

Lemma renameTables_skips (engine : reverser.Inspector) (cfg : reverser.CfgFile)
  (existMysqlTables : list string) :
  reverser.TargetConfig.Overwrite (reverser.TargetConfig cfg) = false ->
  forall done, reverser.renameTables engine cfg existMysqlTables done = (None, done).
Proof.
  intros Hover. induction existMysqlTables as [|tbl rest IH]; intros done; [reflexivity|].
  cbn [reverser.renameTables]. rewrite Hover. apply IH.
Qed.

Lemma renameTables_renames (engine : reverser.Inspector) (cfg : reverser.CfgFile)
  (existMysqlTables : list string) :
  reverser.TargetConfig.Overwrite (reverser.TargetConfig cfg) = true ->
  forall done,
    let res := reverser.renameTables engine cfg existMysqlTables done in
    let rename :=
      reverser.RenameMySQLTableName
        (reverser.TargetConfig.SchemaName (reverser.TargetConfig cfg)) in
    (exists k, snd res = (done ++ map rename (firstn k existMysqlTables))%list) /\
    (fst res = None -> snd res = (done ++ map rename existMysqlTables)%list).
Proof.
  intros Hover. induction existMysqlTables as [|tbl rest IH]; intros done res rename.
  - subst res. cbn. split; [exists 0%nat; cbn|]; now rewrite app_nil_r.
  - subst res. cbn [reverser.renameTables]. rewrite Hover. fold rename.
    destruct (reverser.run engine done (rename tbl)) as [err|].
    + split; [exists 1%nat; reflexivity | discriminate].
    + destruct (IH (done ++ [rename tbl])%list) as [(k & Hk) Hall]. split.
      * exists (S k). rewrite Hk. cbn [firstn map]. now rewrite <- app_assoc.
      * intros Hnone. rewrite (Hall Hnone). cbn [map]. now rewrite <- app_assoc.
Qed.

(** X21.  The statements that the inspection before a reverse task runs
    on the target database are: none; or, when the target schema does
    not exist, the one [CREATE DATABASE IF NOT EXISTS] of that schema,
    whose error the inspection returns; or, when the schema exists and
    overwriting is configured, the renames of the tables found in the
    target schema, in their order and up to the first rename that
    fails, all of them when the inspection returns no error.  Without
    overwriting no table is renamed. *)
Theorem inspection_renames_only_to_overwrite
  (engine : reverser.Inspector) (cfg : reverser.CfgFile) :
  let res := reverser.reverseOracleToMySQLTableInspect engine cfg in
  let target := reverser.TargetConfig.SchemaName (reverser.TargetConfig cfg) in
  let create := reverser.Query (fmt.Sprintf "CREATE DATABASE IF NOT EXISTS %s" [target]) in
  snd res = [] \/
  (fst (reverser.IsExistMySQLSchema engine target) = false /\
   snd res = [create] /\
   fst res = reverser.run engine [] create) \/
  (fst (reverser.IsExistMySQLSchema engine target) = true /\
   reverser.TargetConfig.Overwrite (reverser.TargetConfig cfg) = true /\
   exists exporterTableSlice,
     let existMysqlTables :=
       fst (reverser.FilterIntersectionMySQLTable engine target exporterTableSlice) in
     (exists k,
        snd res = map (reverser.RenameMySQLTableName target) (firstn k existMysqlTables)) /\
     (fst res = None ->
      snd res = map (reverser.RenameMySQLTableName target) existMysqlTables)).
Proof.
  intros res target create. subst res. unfold reverser.reverseOracleToMySQLTableInspect.
  destruct (reverser.IsExistOracleSchema engine _) as [err|]; [now left|].
  fold target.
  destruct (reverser.IsExistMySQLSchema engine target) as [ok [err|]]; [now left|].
  destruct ok; cbn [negb fst].
  2:{ right. left. repeat split. }
  match goal with |- context [match ?inc with Ok _ => _ | Err _ => _ end] =>
    destruct inc as [exporterTableSlice|err] end; [|now left].
  match goal with |- context [let '(_, _) := ?exc in _] =>
    destruct exc as [exporterTableSlice' [err|]] end; [now left|].
  destruct (reverser.FilterIntersectionMySQLTable engine target exporterTableSlice')
    as [existMysqlTables [err|]] eqn:E; [now left|].
  destruct (reverser.TargetConfig.Overwrite (reverser.TargetConfig cfg)) eqn:Hover.
  - right. right. split; [reflexivity|]. split; [reflexivity|].
    exists exporterTableSlice'. rewrite E. cbn [fst].
    exact (renameTables_renames engine cfg existMysqlTables Hover []).
  - left. now rewrite renameTables_skips.
Qed.
